(** * Enterprise Cleaning Engine: rule model, column resolver, operation
      registry, pipeline executor and table store.

    The Python sources are embedded module by module:
    - [Py]         the Python values, truth-value testing and exceptions the
                   sources rely on;
    - [Rules]      [cleaning_engine/rules.py];
    - [Re]         the part of Python's [re] module used by [select_columns];
    - [Polars]     the columnar engine the operations call into;
    - [Operations] [cleaning_engine/operations.py];
    - [Engine]     [cleaning_engine/engine.py];
    - [Storage]    [cleaning_engine/storage.py].
    Definitions come first; the lemmas and the theorems follow. *)

From Stdlib Require Import ZArith List String Ascii Bool Lia.
From Stdlib Require Import Sorting.Sorted Sorting.Permutation.
From stdpp Require Import base decidable option gmap strings.
Import ListNotations.

Local Open Scope string_scope.
Local Open Scope Z_scope.

(* ===================================================================== *)
(** * Python values and exceptions *)
(* ===================================================================== *)

Module Py.

(** Exceptions raised by the sources and by the libraries they call. *)
Inductive Error : Type :=
  | ValidationError (msg : string)       (* pydantic, at model construction *)
  | ValueError (msg : string)
  | RuntimeError (msg : string)
  | TypeError (msg : string)
  | ReError (msg : string)               (* re.error *)
  | ColumnNotFoundError (name : string)  (* polars *)
  | DuplicateError (name : string)       (* polars *)
  | ShapeError                           (* polars *)
  | InvalidOperationError (msg : string) (* polars *)
  | SchemaError (msg : string)           (* pandera *)
  | CatalogError (msg : string).         (* duckdb *)

(** A call either returns a value or raises. *)
Inductive Result (A : Type) : Type :=
  | Ok (a : A)
  | Err (e : Error).
Arguments Ok {A} a.
Arguments Err {A} e.

Definition bind {A B : Type} (m : Result A) (k : A -> Result B) : Result B :=
  match m with
  | Ok a => k a
  | Err e => Err e
  end.

Notation "'let*' x ':=' m 'in' k" := (bind m (fun x => k))
  (at level 10, x name, m at level 100, k at level 200, only parsing).

Definition is_ok {A : Type} (m : Result A) : bool :=
  match m with Ok _ => true | Err _ => false end.

(** [[f(x) for x in l]] where [f] may raise: the first exception wins. *)
Fixpoint mapM {A B : Type} (f : A -> Result B) (l : list A) : Result (list B) :=
  match l with
  | [] => Ok []
  | x :: l' => let* y := f x in let* ys := mapM f l' in Ok (y :: ys)
  end.

(** [[x for x in l if p(x)]] where the test [p] may raise. *)
Fixpoint filterM {A : Type} (p : A -> Result bool) (l : list A) : Result (list A) :=
  match l with
  | [] => Ok []
  | x :: l' =>
      let* b := p x in let* ys := filterM p l' in Ok (if b then x :: ys else ys)
  end.

(** Scalars: the cell values of a column and the scalar parameters of a
    rule.  A float is kept as its IEEE-754 binary64 bit pattern; all
    floating-point arithmetic is left to the engine interface. *)
Inductive Value : Type :=
  | VNull                      (* None / null *)
  | VBool (b : bool)
  | VInt (z : Z)
  | VFloat (bits : Z)
  | VStr (s : string).

(** What a parameter mapping can hold: a scalar or a list of scalars. *)
Inductive PyObj : Type :=
  | Scalar (v : Value)
  | PyList (l : list Value).

#[global] Instance Value_eq_dec : EqDecision Value.
Proof. solve_decision. Defined.
#[global] Instance PyObj_eq_dec : EqDecision PyObj.
Proof. solve_decision. Defined.

Definition None_ : PyObj := Scalar VNull.

(** 1.5, 0.25 and 0.75 as binary64 bit patterns. *)
Definition float_1_5 : Z := 0x3FF8000000000000.
Definition float_0_25 : Z := 0x3FD0000000000000.
Definition float_0_75 : Z := 0x3FE8000000000000.
Definition float_neg_zero : Z := 0x8000000000000000.

(** Truth-value testing, as [if x:] and [x and y] perform it. *)
Class Truthy (A : Type) := truthy : A -> bool.

#[global] Instance truthy_bool : Truthy bool := fun b => b.
#[global] Instance truthy_list {A : Type} : Truthy (list A) :=
  fun l => match l with [] => false | _ :: _ => true end.
#[global] Instance truthy_string : Truthy string :=
  fun s => match s with EmptyString => false | String _ _ => true end.
#[global] Instance truthy_option {A : Type} `{Truthy A} : Truthy (option A) :=
  fun o => match o with None => false | Some x => truthy x end.
#[global] Instance truthy_Value : Truthy Value :=
  fun v =>
    match v with
    | VNull => false
    | VBool b => b
    | VInt z => negb (z =? 0)
    | VFloat bits => negb (bits =? 0) && negb (bits =? float_neg_zero)
    | VStr s => truthy s
    end.
#[global] Instance truthy_PyObj : Truthy PyObj :=
  fun o => match o with Scalar v => truthy v | PyList l => truthy l end.

(** [d.get(k)] and [d.get(k, default)] on a parameter mapping. *)
Definition dict_get (d : gmap string PyObj) (k : string) : PyObj :=
  default None_ (d !! k).
Definition dict_get_default (d : gmap string PyObj) (k : string) (dflt : PyObj) : PyObj :=
  default dflt (d !! k).

(** [x == "literal"] for a parameter value. *)
Definition eq_str (o : PyObj) (s : string) : bool :=
  bool_decide (o = Scalar (VStr s)).

(** [x is None] *)
Definition is_None (o : PyObj) : bool := bool_decide (o = None_).

(** [sorted(l, key=key)]: Python's sort is stable, so the result is the
    stable sorted arrangement of [l]; we compute it by insertion from the
    right, an element going before the entries whose key is not smaller. *)
Fixpoint insert_by_key {A : Type} (key : A -> Z) (x : A) (l : list A) : list A :=
  match l with
  | [] => [x]
  | y :: l' => if key x <=? key y then x :: y :: l' else y :: insert_by_key key x l'
  end.

Fixpoint sorted {A : Type} (key : A -> Z) (l : list A) : list A :=
  match l with
  | [] => []
  | x :: l' => insert_by_key key x (sorted key l')
  end.

End Py.
Import Py.

(* ===================================================================== *)
(** * rules.py *)
(* ===================================================================== *)

Module Rules.

(** [class CleaningOperation(str, Enum)] *)
Inductive CleaningOperation : Type :=
  | DROP_NULLS | FILL_NULLS | DROP_DUPLICATES | TRIM_WHITESPACE
  | LOWERCASE | UPPERCASE | REPLACE | CAST_TYPE | FILTER
  | REMOVE_OUTLIERS | STANDARDIZE | VALIDATE.

#[global] Instance CleaningOperation_eq_dec : EqDecision CleaningOperation.
Proof. solve_decision. Defined.

(** The string value of an enumeration member. *)
Definition value (op : CleaningOperation) : string :=
  match op with
  | DROP_NULLS => "drop_nulls"
  | FILL_NULLS => "fill_nulls"
  | DROP_DUPLICATES => "drop_duplicates"
  | TRIM_WHITESPACE => "trim_whitespace"
  | LOWERCASE => "lowercase"
  | UPPERCASE => "uppercase"
  | REPLACE => "replace"
  | CAST_TYPE => "cast_type"
  | FILTER => "filter"
  | REMOVE_OUTLIERS => "remove_outliers"
  | STANDARDIZE => "standardize"
  | VALIDATE => "validate"
  end.

(** [class ColumnSelector(BaseModel)] *)
Record ColumnSelector : Type := mkColumnSelector {
  columns : option (list string);   (* Optional[List[str]] = None *)
  pattern : option string;          (* Optional[str] = None *)
  all : bool                        (* bool = False *)
}.

(** [ColumnSelector.validate_selector], the [model_validator(mode="after")];
    a [ValueError] raised by a validator surfaces as a [ValidationError]. *)
Definition validate_selector (self : ColumnSelector) : Result ColumnSelector :=
  if truthy (pattern self) && truthy (columns self) then
    Err (ValidationError "Cannot specify both 'columns' and 'pattern'")
  else if truthy (pattern self) && truthy (all self) then
    Err (ValidationError "Cannot specify both 'pattern' and 'all'")
  else if truthy (columns self) && truthy (all self) then
    Err (ValidationError "Cannot specify both 'columns' and 'all'")
  else Ok self.

(** [ColumnSelector(columns=..., pattern=..., all=...)]: the fields are
    stored, then the validator runs. *)
Definition ColumnSelector_new (cols : option (list string)) (pat : option string)
    (al : bool) : Result ColumnSelector :=
  validate_selector (mkColumnSelector cols pat al).

(** [class CleaningRule(BaseModel)] *)
Record CleaningRule : Type := mkCleaningRule {
  name : string;
  operation : CleaningOperation;
  rule_columns : ColumnSelector;          (* field [columns] *)
  parameters : gmap string PyObj;
  enabled : bool;
  order : Z
}.

(** The field defaults of [CleaningRule]. *)
Definition default_columns : ColumnSelector := mkColumnSelector None None true.
Definition default_parameters : gmap string PyObj := ∅.
Definition default_enabled : bool := true.
Definition default_order : Z := 0.

(** [class DataContract(BaseModel)] *)
Record DataContract : Type := mkDataContract {
  contract_columns : list (string * gmap string PyObj);
  strict : bool;
  coerce : bool
}.

(** [class RuleConfig(BaseModel)] *)
Record RuleConfig : Type := mkRuleConfig {
  version : string;
  config_name : string;
  description : option string;
  input_contract : option DataContract;
  output_contract : option DataContract;
  rules : list CleaningRule;
  observability : gmap string PyObj
}.

(** [RuleConfig.sort_rules_by_order], the [field_validator("rules")]. *)
Definition sort_rules_by_order (v : list CleaningRule) : list CleaningRule :=
  sorted order v.

Definition default_observability : gmap string PyObj :=
  <["enabled" := Scalar (VBool true)]>
    (<["service_name" := Scalar (VStr "cleaning-engine")]> ∅).

(** [RuleConfig(...)]: the field validator replaces [rules] by its result. *)
Definition RuleConfig_new (ver nm : string) (descr : option string)
    (ic oc : option DataContract) (rs : list CleaningRule)
    (obs : gmap string PyObj) : RuleConfig :=
  mkRuleConfig ver nm descr ic oc (sort_rules_by_order rs) obs.

(** ** Configuration documents

    The shape [yaml.safe_load] hands to the constructor of [RuleConfig] and
    [model_dump(mode="json")] hands to [yaml.safe_dump]: a key is absent
    ([None]) or holds a value of the field's type. *)
Record SelectorDict : Type := mkSelectorDict {
  sd_columns : option (list string);
  sd_pattern : option string;
  sd_all : option bool
}.

Record RuleDict : Type := mkRuleDict {
  rd_name : option string;
  rd_operation : option string;
  rd_columns : option SelectorDict;
  rd_parameters : option (gmap string PyObj);
  rd_enabled : option bool;
  rd_order : option Z
}.

Record ContractDict : Type := mkContractDict {
  cd_columns : option (list (string * gmap string PyObj));
  cd_strict : option bool;
  cd_coerce : option bool
}.

Record ConfigDict : Type := mkConfigDict {
  doc_version : option string;
  doc_name : option string;
  doc_description : option string;
  doc_input_contract : option ContractDict;
  doc_output_contract : option ContractDict;
  doc_rules : option (list RuleDict);
  doc_observability : option (gmap string PyObj)
}.

(** The members of [CleaningOperation], in declaration order. *)
Definition CleaningOperation_members : list CleaningOperation :=
  [DROP_NULLS; FILL_NULLS; DROP_DUPLICATES; TRIM_WHITESPACE; LOWERCASE; UPPERCASE;
   REPLACE; CAST_TYPE; FILTER; REMOVE_OUTLIERS; STANDARDIZE; VALIDATE].

(** [CleaningOperation(s)]: the member whose value is [s]. *)
Definition CleaningOperation_of_value (s : string) : option CleaningOperation :=
  List.find (fun op => String.eqb (value op) s) CleaningOperation_members.

(** [ColumnSelector] constructed from the keys of [d]. *)
Definition ColumnSelector_from_dict (d : SelectorDict) : Result ColumnSelector :=
  ColumnSelector_new (sd_columns d) (sd_pattern d) (default false (sd_all d)).

(** [CleaningRule] constructed from the keys of [d]: [name] and
    [operation] are required, the other fields have defaults. *)
Definition CleaningRule_from_dict (d : RuleDict) : Result CleaningRule :=
  match rd_name d, rd_operation d with
  | None, _ => Err (ValidationError "name: Field required")
  | Some _, None => Err (ValidationError "operation: Field required")
  | Some n, Some o =>
      match CleaningOperation_of_value o with
      | None => Err (ValidationError "operation: Input should be a member of CleaningOperation")
      | Some op =>
          let* sel := match rd_columns d with
                      | None => ColumnSelector_new None None true
                      | Some sd => ColumnSelector_from_dict sd
                      end in
          Ok (mkCleaningRule n op sel
                (default default_parameters (rd_parameters d))
                (default default_enabled (rd_enabled d))
                (default default_order (rd_order d)))
      end
  end.

(** [DataContract] constructed from the keys of [d]. *)
Definition DataContract_from_dict (d : ContractDict) : DataContract :=
  mkDataContract (default [] (cd_columns d)) (default true (cd_strict d))
    (default false (cd_coerce d)).

(** [RuleConfig] constructed from the keys of [config_dict]: [name] and
    [rules] are required. *)
Definition RuleConfig_from_dict (d : ConfigDict) : Result RuleConfig :=
  match doc_name d, doc_rules d with
  | None, _ => Err (ValidationError "name: Field required")
  | Some _, None => Err (ValidationError "rules: Field required")
  | Some n, Some rds =>
      let* rs := mapM CleaningRule_from_dict rds in
      Ok (RuleConfig_new (default "1.0" (doc_version d)) n (doc_description d)
            (DataContract_from_dict <$> doc_input_contract d)
            (DataContract_from_dict <$> doc_output_contract d)
            rs
            (default default_observability (doc_observability d)))
  end.

(** [model_dump(mode="json")]: every field is written out, an operation as
    its string value. *)
Definition ColumnSelector_dump (sel : ColumnSelector) : SelectorDict :=
  mkSelectorDict (columns sel) (pattern sel) (Some (all sel)).

Definition CleaningRule_dump (r : CleaningRule) : RuleDict :=
  mkRuleDict (Some (name r)) (Some (value (operation r)))
    (Some (ColumnSelector_dump (rule_columns r))) (Some (parameters r))
    (Some (enabled r)) (Some (order r)).

Definition DataContract_dump (c : DataContract) : ContractDict :=
  mkContractDict (Some (contract_columns c)) (Some (strict c)) (Some (coerce c)).

Definition model_dump (cfg : RuleConfig) : ConfigDict :=
  mkConfigDict (Some (version cfg)) (Some (config_name cfg)) (description cfg)
    (DataContract_dump <$> input_contract cfg)
    (DataContract_dump <$> output_contract cfg)
    (Some (map CleaningRule_dump (rules cfg)))
    (Some (observability cfg)).

End Rules.
Import Rules.

(* ===================================================================== *)
(** * Python's [re]: compiled patterns and [Pattern.match] *)
(* ===================================================================== *)

Module Re.

(** A set of characters. *)
Inductive CharClass : Type :=
  | CAny                       (* [.]: any character but a newline *)
  | CChar (c : ascii)
  | CDigit                     (* [\d] *)
  | CWord                      (* [\w] *)
  | CSpace                     (* [\s] *)
  | CNot (cc : CharClass).     (* [\D], [\W], [\S] *)

Definition in_range (lo hi : nat) (c : ascii) : bool :=
  (lo <=? nat_of_ascii c)%nat && (nat_of_ascii c <=? hi)%nat.

Fixpoint class_mem (cc : CharClass) (c : ascii) : bool :=
  match cc with
  | CAny => negb (Ascii.eqb c "010")
  | CChar c' => Ascii.eqb c c'
  | CDigit => in_range 48 57 c
  | CWord => in_range 48 57 c || in_range 65 90 c || in_range 97 122 c || Ascii.eqb c "_"
  | CSpace => in_range 9 13 c || Ascii.eqb c " "
  | CNot cc' => negb (class_mem cc' c)
  end.

(** A compiled pattern. *)
Inductive Regex : Type :=
  | Void                       (* matches nothing *)
  | Eps                        (* matches the empty string *)
  | Chr (cc : CharClass)
  | Seq (r1 r2 : Regex)
  | Alt (r1 r2 : Regex)
  | Star (r : Regex).

Definition Plus (r : Regex) : Regex := Seq r (Star r).
Definition Opt (r : Regex) : Regex := Alt r Eps.

(** The strings a pattern matches in full. *)
Inductive matches : Regex -> string -> Prop :=
  | m_eps : matches Eps ""
  | m_chr cc c : class_mem cc c = true -> matches (Chr cc) (String c "")
  | m_seq r1 r2 s1 s2 : matches r1 s1 -> matches r2 s2 -> matches (Seq r1 r2) (s1 ++ s2)
  | m_alt_l r1 r2 s : matches r1 s -> matches (Alt r1 r2) s
  | m_alt_r r1 r2 s : matches r2 s -> matches (Alt r1 r2) s
  | m_star_nil r : matches (Star r) ""
  | m_star_cons r s1 s2 : matches r s1 -> matches (Star r) s2 -> matches (Star r) (s1 ++ s2).

(** A pattern matches at the start of [s] when it matches a prefix of [s];
    it matches somewhere in [s] when it matches a prefix of a suffix. *)
Definition matches_at_start (r : Regex) (s : string) : Prop :=
  exists p rest, s = p ++ rest /\ matches r p.
Definition matches_somewhere (r : Regex) (s : string) : Prop :=
  exists before p rest, s = before ++ p ++ rest /\ matches r p.

Fixpoint nullable (r : Regex) : bool :=
  match r with
  | Void => false
  | Eps => true
  | Chr _ => false
  | Seq r1 r2 => nullable r1 && nullable r2
  | Alt r1 r2 => nullable r1 || nullable r2
  | Star _ => true
  end.

Fixpoint deriv (c : ascii) (r : Regex) : Regex :=
  match r with
  | Void => Void
  | Eps => Void
  | Chr cc => if class_mem cc c then Eps else Void
  | Seq r1 r2 =>
      if nullable r1 then Alt (Seq (deriv c r1) r2) (deriv c r2)
      else Seq (deriv c r1) r2
  | Alt r1 r2 => Alt (deriv c r1) (deriv c r2)
  | Star r' => Seq (deriv c r') (Star r')
  end.

(** [bool(pattern.match(s))]: [Pattern.match] looks for a match starting at
    position 0 of [s]; the match need not reach the end of [s]. *)
Fixpoint re_match (r : Regex) (s : string) : bool :=
  nullable r ||
  match s with
  | EmptyString => false
  | String c s' => re_match (deriv c r) s'
  end.

(** [bool(pattern.fullmatch(s))] *)
Fixpoint re_fullmatch (r : Regex) (s : string) : bool :=
  match s with
  | EmptyString => nullable r
  | String c s' => re_fullmatch (deriv c r) s'
  end.

(** [bool(pattern.search(s))]: a match starting at any position. *)
Fixpoint re_search (r : Regex) (s : string) : bool :=
  re_match r s ||
  match s with
  | EmptyString => false
  | String _ s' => re_search r s'
  end.

(** [re.compile]: from the pattern text to the compiled pattern, or
    [re.error]. *)
Class Compiler : Type := compile : string -> Result Regex.

(** A compiler for the fragment of the pattern syntax made of literal
    characters, [.], the escapes [\d \w \s \D \W \S] and escaped
    punctuation, the postfix operators [* + ?], alternation and plain
    groups.  Any other syntax is answered with an error. *)
Definition is_meta (c : ascii) : bool :=
  existsb (Ascii.eqb c)
    ["."; "^"; "$"; "*"; "+"; "?"; "{"; "}"; "["; "]"; "\"; "|"; "("; ")"]%char.

Definition parse_escape (c : ascii) : Result Regex :=
  if Ascii.eqb c "d" then Ok (Chr CDigit)
  else if Ascii.eqb c "w" then Ok (Chr CWord)
  else if Ascii.eqb c "s" then Ok (Chr CSpace)
  else if Ascii.eqb c "D" then Ok (Chr (CNot CDigit))
  else if Ascii.eqb c "W" then Ok (Chr (CNot CWord))
  else if Ascii.eqb c "S" then Ok (Chr (CNot CSpace))
  else if is_meta c || Ascii.eqb c "_" || Ascii.eqb c "-" || Ascii.eqb c " "
  then Ok (Chr (CChar c))
  else Err (ReError "unsupported escape").

Definition is_repeat (c : ascii) : bool :=
  existsb (Ascii.eqb c) ["*"; "+"; "?"; "{"]%char.

(** A repetition operator may carry the lazy mark [?], which does not
    change what is matched; a further operator is refused. *)
Definition parse_postfix (r : Regex) (s : string) : Result (Regex * string) :=
  let after (q : Regex) (s' : string) : Result (Regex * string) :=
    let s'' := match s' with String "?" t => t | _ => s' end in
    match s'' with
    | String c _ => if is_repeat c then Err (ReError "multiple repeat") else Ok (q, s'')
    | EmptyString => Ok (q, s'')
    end in
  match s with
  | String "*" s' => after (Star r) s'
  | String "+" s' => after (Plus r) s'
  | String "?" s' => after (Opt r) s'
  | _ => Ok (r, s)
  end.

Fixpoint parse_alt (fuel : nat) (s : string) : Result (Regex * string) :=
  match fuel with
  | O => Err (ReError "pattern too deeply nested")
  | S n =>
      let* p1 := parse_seq n s in
      match snd p1 with
      | String "|" s2 =>
          let* p2 := parse_alt n s2 in
          Ok (Alt (fst p1) (fst p2), snd p2)
      | _ => Ok p1
      end
  end
with parse_seq (fuel : nat) (s : string) : Result (Regex * string) :=
  match fuel with
  | O => Err (ReError "pattern too deeply nested")
  | S n =>
      match s with
      | EmptyString => Ok (Eps, s)
      | String "|" _ => Ok (Eps, s)
      | String ")" _ => Ok (Eps, s)
      | _ =>
          let* a := parse_atom n s in
          let* a' := parse_postfix (fst a) (snd a) in
          let* rest := parse_seq n (snd a') in
          Ok (match fst rest with Eps => fst a' | r => Seq (fst a') r end, snd rest)
      end
  end
with parse_atom (fuel : nat) (s : string) : Result (Regex * string) :=
  match fuel with
  | O => Err (ReError "pattern too deeply nested")
  | S n =>
      match s with
      | EmptyString => Err (ReError "unexpected end of pattern")
      | String "(" (String "?" _) => Err (ReError "unsupported group")
      | String "(" s1 =>
          let* g := parse_alt n s1 in
          match snd g with
          | String ")" s2 => Ok (fst g, s2)
          | _ => Err (ReError "missing ), unterminated subpattern")
          end
      | String "\" EmptyString => Err (ReError "bad escape (end of pattern)")
      | String "\" (String c s1) =>
          let* r := parse_escape c in Ok (r, s1)
      | String "." s1 => Ok (Chr CAny, s1)
      | String c s1 =>
          if is_meta c then Err (ReError "unsupported or misplaced metacharacter")
          else Ok (Chr (CChar c), s1)
      end
  end.

Definition compile_fragment (p : string) : Result Regex :=
  let* r := parse_alt (3 * String.length p + 3) p in
  match snd r with
  | EmptyString => Ok (fst r)
  | _ => Err (ReError "unbalanced parenthesis")
  end.

End Re.

(* ===================================================================== *)
(** * The columnar engine (Polars) *)
(* ===================================================================== *)

Module pl.

Inductive DataType : Type :=
  | Int8 | Int16 | Int32 | Int64
  | UInt8 | UInt16 | UInt32 | UInt64
  | Float32 | Float64
  | Utf8 | Boolean | Date | Datetime.

#[global] Instance DataType_eq_dec : EqDecision DataType.
Proof. solve_decision. Defined.

(** A named, typed column.  Dates and datetimes are stored as the integer
    count of days, respectively microseconds, since the epoch. *)
Record Series : Type := mkSeries {
  name : string;
  dtype : DataType;
  values : list Value
}.

(** A frame is the list of its columns, in column order. *)
Definition DataFrame : Type := list Series.

(** The number of rows; in a rectangular frame every column has that many
    values, and a well-formed frame has distinct column names besides. *)
Definition height (df : DataFrame) : nat :=
  match df with
  | [] => O
  | s :: _ => length (values s)
  end.

Definition rectangular (df : DataFrame) : Prop :=
  Forall (fun s => length (values s) = height df) df.

Definition wf (df : DataFrame) : Prop :=
  List.NoDup (map name df) /\ rectangular df.

(** [df.columns] *)
Definition columns (df : DataFrame) : list string := map name df.

(** [col in df.columns] *)
Definition has_column (df : DataFrame) (c : string) : bool :=
  existsb (String.eqb c) (columns df).

(** [df[col]] *)
Fixpoint get_column (df : DataFrame) (c : string) : Result Series :=
  match df with
  | [] => Err (ColumnNotFoundError c)
  | s :: df' => if String.eqb (name s) c then Ok s else get_column df' c
  end.

(** The rows of a frame: row [i] lists the [i]-th value of each column. *)
Fixpoint rows_of (cols : list (list Value)) (h : nat) : list (list Value) :=
  match h with
  | O => []
  | S h' => map (hd VNull) cols :: rows_of (map (@tl Value) cols) h'
  end.

Definition rows (df : DataFrame) : list (list Value) :=
  rows_of (map values df) (height df).

(** Keep the entries of [l] whose mask bit is set. *)
Fixpoint keep {A : Type} (mask : list bool) (l : list A) : list A :=
  match mask, l with
  | b :: mask', x :: l' => if b then x :: keep mask' l' else keep mask' l'
  | _, _ => []
  end.

(** Keep the rows of [df] whose mask bit is set. *)
Definition keep_rows (mask : list bool) (df : DataFrame) : DataFrame :=
  map (fun s => mkSeries (name s) (dtype s) (keep mask (values s))) df.

(** ** Expressions *)

(** The expression methods the operations use on a single input... *)
Inductive UnaryFn : Type :=
  | str_strip_chars
  | str_to_lowercase
  | str_to_uppercase
  | str_replace_all (pat repl : PyObj)
  | forward_fill
  | backward_fill
  | mean
  | median
  | std
  | abs
  | is_in (other : PyObj).

(** ... and on two. *)
Inductive BinaryFn : Type :=
  | fill_null       (* e.fill_null(v) *)
  | sub             (* e1 - e2 *)
  | truediv         (* e1 / e2 *)
  | eq | ne | gt | ge | lt | le
  | and_.           (* e1 & e2 *)

(** The [dtype] argument of [cast]: an engine type, or whatever other
    object the caller handed over. *)
Inductive DTypeArg : Type :=
  | Native (t : DataType)
  | Other (o : PyObj).

Inductive Expr : Type :=
  | col (c : string)
  | lit (v : PyObj)
  | unary (f : UnaryFn) (e : Expr)
  | binary (f : BinaryFn) (e1 e2 : Expr)
  | replace (e : Expr) (old : Value) (new : PyObj)   (* e.replace({old: new}) *)
  | cast (e : Expr) (t : DTypeArg) (strict : bool)
  | alias (e : Expr) (n : string).

(** The name of the column an expression produces: that of its leftmost
    input unless an alias renames it. *)
Fixpoint output_name (e : Expr) : string :=
  match e with
  | col c => c
  | lit _ => "literal"
  | unary _ e' => output_name e'
  | binary _ e1 _ => output_name e1
  | replace e' _ _ => output_name e'
  | cast e' _ _ => output_name e'
  | alias _ n => n
  end.

(** ** The engine's kernels

    What the engine computes inside a column (string functions, float
    arithmetic, aggregates, comparisons, value conversion) is not part of
    this repository; the operations only choose which kernels run on which
    columns.  The kernels are therefore an interface. *)
Class Kernels : Type := {
  (** a unary or binary expression method on evaluated inputs *)
  k_unary : UnaryFn -> Series -> Result Series;
  k_binary : BinaryFn -> Series -> Series -> Result Series;
  (** a Python object used as a literal *)
  k_literal : PyObj -> Result Series;
  (** conversion of one non-null value from a type to another;
      [None]: the value cannot be converted *)
  k_cast_value : DataType -> DataType -> Value -> option Value;
  (** a [dtype] argument that is not an engine type *)
  k_parse_dtype : PyObj -> Result DataType;
  (** [replace] when the old or the new value is not of the column's type *)
  k_replace_coerce : Series -> Value -> PyObj -> Result Series;
  (** [Series.quantile(q)], [Series.mean()], [Series.std()] *)
  k_quantile : Series -> Z -> PyObj;
  k_mean : Series -> PyObj;
  k_std : Series -> PyObj;
  (** Python arithmetic and comparison on the scalars so obtained *)
  py_sub : PyObj -> PyObj -> Result PyObj;
  py_add : PyObj -> PyObj -> Result PyObj;
  py_mul : PyObj -> PyObj -> Result PyObj;
  py_gt : PyObj -> PyObj -> Result bool
}.

Definition is_integer_type (t : DataType) : bool :=
  match t with
  | Int8 | Int16 | Int32 | Int64 | UInt8 | UInt16 | UInt32 | UInt64 => true
  | _ => false
  end.

Definition int_range (t : DataType) : Z * Z :=
  match t with
  | Int8 => (-2^7, 2^7 - 1) | Int16 => (-2^15, 2^15 - 1)
  | Int32 => (-2^31, 2^31 - 1) | Int64 => (-2^63, 2^63 - 1)
  | UInt8 => (0, 2^8 - 1) | UInt16 => (0, 2^16 - 1)
  | UInt32 => (0, 2^32 - 1) | UInt64 => (0, 2^64 - 1)
  | _ => (0, -1)
  end.

(** A Python scalar that is a value of type [t] as it stands. *)
Definition fits (t : DataType) (v : Value) : bool :=
  match v with
  | VNull => true
  | VBool _ => bool_decide (t = Boolean)
  | VInt z => is_integer_type t && (fst (int_range t) <=? z) && (z <=? snd (int_range t))
  | VFloat _ => bool_decide (t = Float32) || bool_decide (t = Float64)
  | VStr _ => bool_decide (t = Utf8)
  end.

Section Eval.
Context `{Kernels}.

(** [s.cast(t, strict=strict)]: nulls stay null; a value that cannot be
    converted raises when [strict], and becomes null otherwise. *)
Definition cast_value (from to : DataType) (strict : bool) (v : Value) : Result Value :=
  match v with
  | VNull => Ok VNull
  | _ =>
      match k_cast_value from to v with
      | Some v' => Ok v'
      | None =>
          if strict then Err (InvalidOperationError "conversion failed")
          else Ok VNull
      end
  end.

Definition cast_series (to : DataType) (strict : bool) (s : Series) : Result Series :=
  let* vs := mapM (cast_value (dtype s) to strict) (values s) in
  Ok (mkSeries (name s) to vs).

(** [s.replace({old: new})] *)
Definition replace_series (old : Value) (new : PyObj) (s : Series) : Result Series :=
  match new with
  | Scalar new' =>
      if fits (dtype s) old && fits (dtype s) new' then
        Ok (mkSeries (name s) (dtype s)
              (map (fun v => if bool_decide (v = old) then new' else v) (values s)))
      else k_replace_coerce s old new
  | PyList _ => k_replace_coerce s old new
  end.

(** The column an expression evaluates to on [df]. *)
Fixpoint eval (df : DataFrame) (e : Expr) : Result Series :=
  match e with
  | col c => get_column df c
  | lit v => k_literal v
  | unary f e' => let* s := eval df e' in k_unary f s
  | binary f e1 e2 =>
      let* s1 := eval df e1 in
      let* s2 := eval df e2 in
      k_binary f s1 s2
  | replace e' old new => let* s := eval df e' in replace_series old new s
  | cast e' t strict =>
      let* s := eval df e' in
      let* t' := match t with Native t' => Ok t' | Other o => k_parse_dtype o end in
      cast_series t' strict s
  | alias e' _ => eval df e'
  end.

(** A column computed for a frame of height [h] has [h] values, or one
    value that is repeated. *)
Definition broadcast (h : nat) (s : Series) : Result Series :=
  if (length (values s) =? h)%nat then Ok s
  else match values s with
       | [v] => Ok (mkSeries (name s) (dtype s) (repeat v h))
       | _ => Err ShapeError
       end.

(** Put column [s] into [df]: in place of the column of that name when
    there is one, at the end otherwise. *)
Fixpoint set_column (s : Series) (df : DataFrame) : DataFrame :=
  match df with
  | [] => [s]
  | s' :: df' => if String.eqb (name s') (name s) then s :: df' else s' :: set_column s df'
  end.

Fixpoint first_duplicate (l : list string) : option string :=
  match l with
  | [] => None
  | x :: l' => if existsb (String.eqb x) l' then Some x else first_duplicate l'
  end.

(** [df.with_columns(exprs)]: every expression is evaluated on [df]; two
    expressions producing the same column name are refused; each result
    then replaces the column of its name or is appended. *)
Definition with_columns (df : DataFrame) (exprs : list Expr) : Result DataFrame :=
  let* cols := mapM (fun e =>
                 let* s := eval df e in
                 let* s' := broadcast (height df) s in
                 Ok (mkSeries (output_name e) (dtype s') (values s'))) exprs in
  match first_duplicate (map output_name exprs) with
  | Some n => Err (DuplicateError n)
  | None => Ok (fold_left (fun d s => set_column s d) cols df)
  end.

(** [df.filter(e)]: keeps the rows on which the Boolean expression [e] is
    true (a null is not true). *)
Definition filter (df : DataFrame) (e : Expr) : Result DataFrame :=
  let* s := eval df e in
  let* s' := broadcast (height df) s in
  if bool_decide (dtype s' = Boolean) then
    Ok (keep_rows (map (fun v => bool_decide (v = VBool true)) (values s')) df)
  else Err (InvalidOperationError "filter predicate must be of type Boolean").

End Eval.

(** The columns named in [subset], in that order. *)
Definition select (df : DataFrame) (subset : list string) : Result DataFrame :=
  mapM (get_column df) subset.

(** [df.drop_nulls(subset=subset)]: drops the rows holding a null in one of
    the columns of [subset]. *)
Definition drop_nulls (df : DataFrame) (subset : list string) : Result DataFrame :=
  let* sub := select df subset in
  Ok (keep_rows
        (map (fun r => forallb (fun v => negb (bool_decide (v = VNull))) r)
             (rows_of (map values sub) (height df)))
        df).

(** For each key, whether it is the first occurrence of its value. *)
Fixpoint first_occurrences (seen keys : list (list Value)) : list bool :=
  match keys with
  | [] => []
  | k :: keys' =>
      if bool_decide (k ∈ seen) then false :: first_occurrences seen keys'
      else true :: first_occurrences (k :: seen) keys'
  end.

(** [df.unique(subset=subset, maintain_order=...)]: one row for each
    distinct combination of values in the columns of [subset] ([None]: all
    columns).  Which row of a group is kept, and without [maintain_order]
    the order of the result, is left open by the engine; the model keeps
    the first row of each group, in the order of [df]. *)
Definition unique (df : DataFrame) (subset : option (list string))
    (maintain_order : bool) : Result DataFrame :=
  let* sub := match subset with
              | None => Ok df
              | Some cs => select df cs
              end in
  Ok (keep_rows (first_occurrences [] (rows_of (map values sub) (height df))) df).

(** [pl.concat([df1, df2])] for frames of one schema: the rows of [df1]
    followed by those of [df2]. *)
Definition same_schema (df1 df2 : DataFrame) : bool :=
  bool_decide (map name df1 = map name df2) &&
  bool_decide (map dtype df1 = map dtype df2).

Fixpoint vstack (df1 df2 : DataFrame) : DataFrame :=
  match df1, df2 with
  | s1 :: df1', s2 :: df2' =>
      mkSeries (name s1) (dtype s1) (values s1 ++ values s2) :: vstack df1' df2'
  | _, _ => []
  end.

End pl.

(* ===================================================================== *)
(** * operations.py *)
(* ===================================================================== *)

Module Operations.

Section Operations.
Context `{Re.Compiler} `{pl.Kernels}.

(** [select_columns(df, selector)] *)
Definition select_columns (df : pl.DataFrame) (selector : ColumnSelector)
    : Result (list string) :=
  if truthy (all selector) then Ok (pl.columns df)
  else if truthy (columns selector) then
    Ok (List.filter (pl.has_column df) (default [] (columns selector)))
  else if truthy (pattern selector) then
    let* pattern := Re.compile (default "" (pattern selector)) in
    Ok (List.filter (Re.re_match pattern) (pl.columns df))
  else Ok (pl.columns df).

(** The signature of an operation: [(df, columns, **params)]. *)
Definition Operation : Type :=
  pl.DataFrame -> list string -> gmap string PyObj -> Result pl.DataFrame.

(** [df[col].dtype == pl.Utf8] *)
Definition is_utf8 (df : pl.DataFrame) (c : string) : Result bool :=
  let* s := pl.get_column df c in Ok (bool_decide (pl.dtype s = pl.Utf8)).

(** [dtype in [pl.Int8, pl.Int16, pl.Int32, pl.Int64, pl.Float32, pl.Float64]] *)
Definition numeric_dtypes : list pl.DataType :=
  [pl.Int8; pl.Int16; pl.Int32; pl.Int64; pl.Float32; pl.Float64].

Definition is_numeric (df : pl.DataFrame) (c : string) : Result bool :=
  let* s := pl.get_column df c in Ok (bool_decide (pl.dtype s ∈ numeric_dtypes)).

Definition drop_nulls : Operation := fun df columns params =>
  if negb (truthy columns) then Ok df
  else pl.drop_nulls df columns.

Definition fill_nulls : Operation := fun df columns params =>
  if negb (truthy columns) then Ok df
  else
    let fill_value := dict_get params "value" in
    let strategy := dict_get_default params "strategy" (Scalar (VStr "value")) in
    if eq_str strategy "value" && negb (is_None fill_value) then
      pl.with_columns df
        (map (fun c => pl.binary pl.fill_null (pl.col c) (pl.lit fill_value)) columns)
    else if eq_str strategy "forward" then
      pl.with_columns df (map (fun c => pl.unary pl.forward_fill (pl.col c)) columns)
    else if eq_str strategy "backward" then
      pl.with_columns df (map (fun c => pl.unary pl.backward_fill (pl.col c)) columns)
    else if eq_str strategy "mean" then
      pl.with_columns df
        (map (fun c => pl.binary pl.fill_null (pl.col c) (pl.unary pl.mean (pl.col c)))
             columns)
    else if eq_str strategy "median" then
      pl.with_columns df
        (map (fun c => pl.binary pl.fill_null (pl.col c) (pl.unary pl.median (pl.col c)))
             columns)
    else Ok df.

Definition drop_duplicates : Operation := fun df columns params =>
  if negb (truthy columns) then pl.unique df None false
  else
    pl.unique df (Some columns)
      (truthy (dict_get_default params "maintain_order" (Scalar (VBool true)))).

Definition trim_whitespace : Operation := fun df columns params =>
  if negb (truthy columns) then Ok df
  else
    let* cs := filterM (is_utf8 df) columns in
    pl.with_columns df (map (fun c => pl.unary pl.str_strip_chars (pl.col c)) cs).

Definition lowercase : Operation := fun df columns params =>
  if negb (truthy columns) then Ok df
  else
    let* cs := filterM (is_utf8 df) columns in
    pl.with_columns df (map (fun c => pl.unary pl.str_to_lowercase (pl.col c)) cs).

Definition uppercase : Operation := fun df columns params =>
  if negb (truthy columns) then Ok df
  else
    let* cs := filterM (is_utf8 df) columns in
    pl.with_columns df (map (fun c => pl.unary pl.str_to_uppercase (pl.col c)) cs).

Definition replace : Operation := fun df columns params =>
  if negb (truthy columns) then Ok df
  else
    let pattern := dict_get params "pattern" in
    let value := dict_get params "value" in
    let replacement := dict_get_default params "replacement" (Scalar (VStr "")) in
    if negb (is_None pattern) && is_None value then
      (* Regex replacement *)
      let* cs := filterM (is_utf8 df) columns in
      pl.with_columns df
        (map (fun c => pl.unary (pl.str_replace_all pattern replacement) (pl.col c)) cs)
    else if negb (is_None value) then
      (* Exact value replacement; a list cannot be a key of the mapping *)
      match value with
      | PyList _ => Err (TypeError "unhashable type: 'list'")
      | Scalar v =>
          pl.with_columns df (map (fun c => pl.replace (pl.col c) v replacement) columns)
      end
    else Ok df.

(** The [type_mapping] dictionary of [cast_type]. *)
Definition type_mapping : gmap string pl.DataType :=
  list_to_map
    [("int", pl.Int64); ("float", pl.Float64); ("str", pl.Utf8);
     ("bool", pl.Boolean); ("date", pl.Date); ("datetime", pl.Datetime)].

(** [type_mapping.get(target_type, target_type)] *)
Definition lookup_dtype (target_type : PyObj) : Result pl.DTypeArg :=
  match target_type with
  | PyList _ => Err (TypeError "unhashable type: 'list'")
  | Scalar (VStr s) =>
      Ok (match type_mapping !! s with
          | Some t => pl.Native t
          | None => pl.Other target_type
          end)
  | Scalar _ => Ok (pl.Other target_type)
  end.

Definition cast_type : Operation := fun df columns params =>
  if negb (truthy columns) then Ok df
  else
    let target_type := dict_get params "dtype" in
    if negb (truthy target_type) then Ok df
    else
      let* dtype := lookup_dtype target_type in
      let strict := truthy (dict_get_default params "strict" (Scalar (VBool false))) in
      pl.with_columns df (map (fun c => pl.cast (pl.col c) dtype strict) columns).

Definition filter_rows : Operation := fun df columns params =>
  let operator := dict_get_default params "operator" (Scalar (VStr "==")) in
  let value := dict_get params "value" in
  match columns with
  | [] => Ok df
  | c :: _ =>
      if is_None value then Ok df
      else if eq_str operator "==" then
        pl.filter df (pl.binary pl.eq (pl.col c) (pl.lit value))
      else if eq_str operator "!=" then
        pl.filter df (pl.binary pl.ne (pl.col c) (pl.lit value))
      else if eq_str operator ">" then
        pl.filter df (pl.binary pl.gt (pl.col c) (pl.lit value))
      else if eq_str operator ">=" then
        pl.filter df (pl.binary pl.ge (pl.col c) (pl.lit value))
      else if eq_str operator "<" then
        pl.filter df (pl.binary pl.lt (pl.col c) (pl.lit value))
      else if eq_str operator "<=" then
        pl.filter df (pl.binary pl.le (pl.col c) (pl.lit value))
      else if eq_str operator "in" then
        pl.filter df (pl.unary (pl.is_in value) (pl.col c))
      else Ok df
  end.

(** The body of the [for col in columns] loop of [remove_outliers]; the
    frame is the loop's state. *)
Definition remove_outliers_step (method threshold : PyObj) (df : pl.DataFrame)
    (c : string) : Result pl.DataFrame :=
  let* numeric := is_numeric df c in
  if negb numeric then Ok df
  else
    let* s := pl.get_column df c in
    if eq_str method "iqr" then
      let q1 := pl.k_quantile s float_0_25 in
      let q3 := pl.k_quantile s float_0_75 in
      let* iqr := pl.py_sub q3 q1 in
      let* t := pl.py_mul threshold iqr in
      let* lower := pl.py_sub q1 t in
      let* t' := pl.py_mul threshold iqr in
      let* upper := pl.py_add q3 t' in
      pl.filter df
        (pl.binary pl.and_
           (pl.binary pl.ge (pl.col c) (pl.lit lower))
           (pl.binary pl.le (pl.col c) (pl.lit upper)))
    else if eq_str method "zscore" then
      let mean := pl.k_mean s in
      let std := pl.k_std s in
      let* positive :=
        if truthy std then pl.py_gt std (Scalar (VInt 0)) else Ok false in
      if positive then
        let* bound := pl.py_mul threshold std in
        pl.filter df
          (pl.binary pl.le
             (pl.unary pl.abs (pl.binary pl.sub (pl.col c) (pl.lit mean)))
             (pl.lit bound))
      else Ok df
    else Ok df.

Fixpoint remove_outliers_loop (method threshold : PyObj) (columns : list string)
    (df : pl.DataFrame) : Result pl.DataFrame :=
  match columns with
  | [] => Ok df
  | c :: columns' =>
      let* df' := remove_outliers_step method threshold df c in
      remove_outliers_loop method threshold columns' df'
  end.

Definition remove_outliers : Operation := fun df columns params =>
  if negb (truthy columns) then Ok df
  else
    let method := dict_get_default params "method" (Scalar (VStr "iqr")) in
    let threshold := dict_get_default params "threshold" (Scalar (VFloat float_1_5)) in
    remove_outliers_loop method threshold columns df.

Definition standardize : Operation := fun df columns params =>
  if negb (truthy columns) then Ok df
  else
    let* cs := filterM (is_numeric df) columns in
    pl.with_columns df
      (map (fun c =>
              pl.alias
                (pl.binary pl.truediv
                   (pl.binary pl.sub (pl.col c) (pl.unary pl.mean (pl.col c)))
                   (pl.unary pl.std (pl.col c)))
                c) cs).

(** The operation registry. *)
Definition OPERATIONS : gmap string Operation :=
  list_to_map
    [("drop_nulls", drop_nulls);
     ("fill_nulls", fill_nulls);
     ("drop_duplicates", drop_duplicates);
     ("trim_whitespace", trim_whitespace);
     ("lowercase", lowercase);
     ("uppercase", uppercase);
     ("replace", replace);
     ("cast_type", cast_type);
     ("filter", filter_rows);
     ("remove_outliers", remove_outliers);
     ("standardize", standardize)].

End Operations.

End Operations.

(* ===================================================================== *)
(** * storage.py *)
(* ===================================================================== *)

Module Storage.

(** The tables of a database, by name. *)
Abbreviation Database := (gmap string pl.DataFrame).

(** [class DuckDBStorage]; an open connection is the database it is
    connected to. *)
Record DuckDBStorage : Type := mkDuckDBStorage {
  db_path : string;
  connection : option Database
}.

#[global] Instance truthy_Database : Truthy Database := fun _ => true.

(** The statements the storage layer sends; [arrow_table] is the frame
    the statement reads from. *)
Inductive Statement : Type :=
  | DROP_TABLE_IF_EXISTS (table_name : string)
  | CREATE_TABLE_IF_NOT_EXISTS_AS_SELECT (table_name : string)
  | INSERT_INTO_SELECT (table_name : string)
  | SELECT_COUNT_TABLES (table_name : string)
  | SELECT_FROM (table_name : string) (limit : option Z)
  | SELECT_TABLE_NAMES.

Inductive Rows : Type :=
  | NoRows
  | Count (n : Z)
  | Table (df : pl.DataFrame)
  | Names (l : list string).

(** [connection.execute(statement)]: the database afterwards and the rows
    fetched.  [INSERT] assigns columns by position and requires the column
    types of the table (the store's implicit conversions are not modelled). *)
Definition execute (db : Database) (arrow_table : pl.DataFrame) (st : Statement)
    : Result (Database * Rows) :=
  match st with
  | DROP_TABLE_IF_EXISTS t => Ok (delete t db, NoRows)
  | CREATE_TABLE_IF_NOT_EXISTS_AS_SELECT t =>
      match db !! t with
      | Some _ => Ok (db, NoRows)
      | None => Ok (<[t := arrow_table]> db, NoRows)
      end
  | INSERT_INTO_SELECT t =>
      match db !! t with
      | None => Err (CatalogError "Table does not exist")
      | Some tbl =>
          if bool_decide (map pl.dtype tbl = map pl.dtype arrow_table) then
            Ok (<[t := pl.vstack tbl arrow_table]> db, NoRows)
          else Err (CatalogError "table and source columns differ")
      end
  | SELECT_COUNT_TABLES t =>
      Ok (db, Count (match db !! t with Some _ => 1 | None => 0 end))
  | SELECT_FROM t limit =>
      match db !! t with
      | None => Err (CatalogError "Table does not exist")
      | Some tbl =>
          Ok (db, Table
                (match limit with
                 | None => tbl
                 | Some n =>
                     map (fun s => pl.mkSeries (pl.name s) (pl.dtype s)
                                     (firstn (Z.to_nat n) (pl.values s))) tbl
                 end))
      end
  | SELECT_TABLE_NAMES => Ok (db, Names (map fst (map_to_list db)))
  end.

(** [DuckDBStorage(db_path)] *)
Definition DuckDBStorage_new (path : option string) : DuckDBStorage :=
  mkDuckDBStorage (if truthy path then default "" path else ":memory:") None.

(** [connect()]; [db] is the database found at [db_path], empty for a new
    file and for [:memory:]. *)
Definition connect (self : DuckDBStorage) (db : Database) : DuckDBStorage :=
  mkDuckDBStorage (db_path self) (Some db).

(** [close()] *)
Definition close (self : DuckDBStorage) : DuckDBStorage :=
  if truthy (connection self) then mkDuckDBStorage (db_path self) None else self.

(** [save_dataframe(df, table_name, if_exists)]: the storage afterwards. *)
Definition save_dataframe (self : DuckDBStorage) (df : pl.DataFrame)
    (table_name : string) (if_exists : string) : Result DuckDBStorage :=
  match connection self with
  | None => Err (RuntimeError "Not connected to database. Call connect() first.")
  | Some db =>
      let arrow_table := df in
      let* db1 :=
        if String.eqb if_exists "replace" then
          let* r := execute db arrow_table (DROP_TABLE_IF_EXISTS table_name) in
          Ok (fst r)
        else if String.eqb if_exists "fail" then
          (* Check if table exists *)
          let* r := execute db arrow_table (SELECT_COUNT_TABLES table_name) in
          match snd r with
          | Count n =>
              if 0 <? n then Err (ValueError ("Table " ++ table_name ++ " already exists"))
              else Ok (fst r)
          | _ => Ok (fst r)
          end
        else Ok db in
      (* Create or append to table *)
      let* r2 := execute db1 arrow_table (CREATE_TABLE_IF_NOT_EXISTS_AS_SELECT table_name) in
      let* db3 :=
        if String.eqb if_exists "append" then
          let* r3 := execute (fst r2) arrow_table (INSERT_INTO_SELECT table_name) in
          Ok (fst r3)
        else Ok (fst r2) in
      Ok (mkDuckDBStorage (db_path self) (Some db3))
  end.

(** [load_dataframe(table_name, limit)] *)
Definition load_dataframe (self : DuckDBStorage) (table_name : string)
    (limit : option Z) : Result pl.DataFrame :=
  match connection self with
  | None => Err (RuntimeError "Not connected to database. Call connect() first.")
  | Some db =>
      let* r := execute db [] (SELECT_FROM table_name
                                 (if truthy (VInt (default 0 limit)) then limit else None)) in
      match snd r with
      | Table df => Ok df
      | _ => Ok []
      end
  end.

(** [list_tables()] *)
Definition list_tables (self : DuckDBStorage) : Result (list string) :=
  match connection self with
  | None => Err (RuntimeError "Not connected to database. Call connect() first.")
  | Some db =>
      let* r := execute db [] SELECT_TABLE_NAMES in
      match snd r with
      | Names l => Ok l
      | _ => Ok []
      end
  end.

(** What a statement written by the caller does to the database and what
    it returns is the store's business. *)
Class SqlEngine : Type :=
  run_sql : Database -> string -> Result (Database * pl.DataFrame).

(** [query(sql)]: the frame returned and the storage afterwards. *)
Definition query `{SqlEngine} (self : DuckDBStorage) (sql : string)
    : Result (pl.DataFrame * DuckDBStorage) :=
  match connection self with
  | None => Err (RuntimeError "Not connected to database. Call connect() first.")
  | Some db =>
      let* r := run_sql db sql in
      Ok (snd r, mkDuckDBStorage (db_path self) (Some (fst r)))
  end.

(** [execute(sql)] of the storage class: the storage afterwards. *)
Definition execute_sql `{SqlEngine} (self : DuckDBStorage) (sql : string)
    : Result DuckDBStorage :=
  match connection self with
  | None => Err (RuntimeError "Not connected to database. Call connect() first.")
  | Some db =>
      let* r := run_sql db sql in
      Ok (mkDuckDBStorage (db_path self) (Some (fst r)))
  end.

(** The context manager: [__enter__] connects, [__exit__] closes. *)
Definition __enter__ (self : DuckDBStorage) (db : Database) : DuckDBStorage :=
  connect self db.
Definition __exit__ (self : DuckDBStorage) : DuckDBStorage := close self.

End Storage.

(* ===================================================================== *)
(** * validation.py *)
(* ===================================================================== *)

Module Validation.

(** The schema engine: building the schema of a contract and checking a
    frame against it is [pandera]'s work; it returns the validated frame or
    raises. *)
Class SchemaEngine : Type :=
  schema_validate : DataContract -> pl.DataFrame -> Result pl.DataFrame.

(** [SchemaValidator.validate(df, contract, contract_name)] *)
Definition validate `{SchemaEngine} (df : pl.DataFrame) (contract : option DataContract)
    (contract_name : string) : Result pl.DataFrame :=
  match contract with
  | None => Ok df
  | Some c => schema_validate c df
  end.

(** A check of a schema column, with its bound. *)
Inductive Check : Type :=
  | greater_than_or_equal_to (v : PyObj)
  | less_than_or_equal_to (v : PyObj)
  | str_matches (v : PyObj)
  | isin (v : PyObj).

(** [pa.Column(dtype, nullable=nullable, checks=checks)] *)
Record Column : Type := mkColumn {
  column_dtype : pl.DTypeArg;
  column_nullable : PyObj;
  column_checks : list Check
}.

(** [pa.DataFrameSchema(columns=columns, strict=strict, coerce=coerce)] *)
Record DataFrameSchema : Type := mkDataFrameSchema {
  schema_columns : list (string * Column);
  schema_strict : bool;
  schema_coerce : bool
}.

(** The body of the loop of [create_schema_from_contract]: the column built
    from one column specification. *)
Definition column_of_spec (col_spec : gmap string PyObj) : Column :=
  let dtype := match col_spec !! "dtype" with
               | Some o => pl.Other o
               | None => pl.Native pl.Utf8
               end in
  let nullable := dict_get_default col_spec "nullable" (Scalar (VBool true)) in
  let checks :=
    ((match col_spec !! "min" with Some v => [greater_than_or_equal_to v] | None => [] end) ++
     (match col_spec !! "max" with Some v => [less_than_or_equal_to v] | None => [] end) ++
     (match col_spec !! "regex" with Some v => [str_matches v] | None => [] end) ++
     (match col_spec !! "isin" with Some v => [isin v] | None => [] end))%list in
  mkColumn dtype nullable checks.

(** [SchemaValidator.create_schema_from_contract(contract)]; the column
    specifications of a contract are the items of a dictionary. *)
Definition create_schema_from_contract (contract : DataContract) : DataFrameSchema :=
  mkDataFrameSchema
    (map (fun item => (fst item, column_of_spec (snd item))) (contract_columns contract))
    (strict contract) (coerce contract).

End Validation.

(* ===================================================================== *)
(** * engine.py *)
(* ===================================================================== *)

Module Engine.

(** [class CleaningEngine] *)
Record CleaningEngine : Type := mkCleaningEngine {
  config : option RuleConfig;
  storage : option Storage.DuckDBStorage
}.

(** A model object has no truth value of its own: it is true. *)
#[global] Instance truthy_RuleConfig : Truthy RuleConfig := fun _ => true.
#[global] Instance truthy_DataContract : Truthy DataContract := fun _ => true.

Section Engine.
Context `{Re.Compiler} `{pl.Kernels} `{Validation.SchemaEngine}.

(** [CleaningEngine._apply_rule(df, rule)].  The parameters are passed as
    keyword arguments: a parameter named like one of the two positional
    arguments is refused by the call itself. *)
Definition _apply_rule (df : pl.DataFrame) (rule : CleaningRule) : Result pl.DataFrame :=
  (* Get the operation function *)
  match Operations.OPERATIONS !! value (operation rule) with
  | None => Err (ValueError ("Unknown operation: " ++ value (operation rule)))
  | Some operation =>
      (* Select columns *)
      let* columns := Operations.select_columns df (rule_columns rule) in
      (* Apply operation *)
      if bool_decide (is_Some (parameters rule !! "df")) ||
         bool_decide (is_Some (parameters rule !! "columns"))
      then Err (TypeError "got multiple values for argument")
      else operation df columns (parameters rule)
  end.

(** The [for rule in self.config.rules] loop of [clean]; the working frame
    is the loop's state. *)
Fixpoint apply_rules (rules : list CleaningRule) (df : pl.DataFrame)
    : Result pl.DataFrame :=
  match rules with
  | [] => Ok df
  | rule :: rules' =>
      if negb (enabled rule) then apply_rules rules' df
      else
        let* df' := _apply_rule df rule in
        apply_rules rules' df'
  end.

(** [CleaningEngine.clean(df, validate_input, validate_output)] *)
Definition clean (self : CleaningEngine) (df : pl.DataFrame)
    (validate_input validate_output : bool) : Result pl.DataFrame :=
  if negb (truthy (config self)) then
    Err (ValueError "Configuration not loaded. Call load_config() first.")
  else
    match config self with
    | None => Err (ValueError "Configuration not loaded. Call load_config() first.")
    | Some cfg =>
        (* Validate input contract *)
        let* df1 :=
          if validate_input && truthy (input_contract cfg)
          then Validation.validate df (input_contract cfg) "input"
          else Ok df in
        (* Apply each cleaning rule *)
        let* df2 := apply_rules (rules cfg) df1 in
        (* Validate output contract *)
        let* df3 :=
          if validate_output && truthy (output_contract cfg)
          then Validation.validate df2 (output_contract cfg) "output"
          else Ok df2 in
        Ok df3
    end.

(** Where [load_config] takes the configuration from. *)
Inductive ConfigSource : Type :=
  | FromObject (config : RuleConfig)
  | FromPath (path : string).

(** Reading a configuration file: [open] and [yaml.safe_load]. *)
Class ConfigFiles : Type := read_document : string -> Result ConfigDict.

(** [SchemaValidator.infer_contract_from_dataframe(df)], which the engine
    calls with the default [strict=True]. *)
Class ContractInference : Type :=
  infer_contract_from_dataframe : pl.DataFrame -> DataContract.

(** [load_config(config)] *)
Definition load_config `{ConfigFiles} (self : CleaningEngine) (config : ConfigSource)
    : Result CleaningEngine :=
  match config with
  | FromObject c => Ok (mkCleaningEngine (Some c) (storage self))
  | FromPath path =>
      let* config_dict := read_document path in
      let* c := RuleConfig_from_dict config_dict in
      Ok (mkCleaningEngine (Some c) (storage self))
  end.

(** A configuration object is true; a path given as a string is true
    unless it is empty. *)
#[global] Instance truthy_ConfigSource : Truthy ConfigSource := fun c =>
  match c with
  | FromObject _ => true
  | FromPath path => truthy path
  end.

(** [CleaningEngine(config, storage)]; setting up tracing has no part in
    what the engine computes. *)
Definition CleaningEngine_new `{ConfigFiles} (config : option ConfigSource)
    (storage : option Storage.DuckDBStorage) : Result CleaningEngine :=
  let self := mkCleaningEngine None storage in
  if truthy config then
    match config with
    | Some c => load_config self c
    | None => Ok self
    end
  else Ok self.

(** [save_config(path)]: the document written to [path]. *)
Definition save_config (self : CleaningEngine) (path : string)
    : Result (string * ConfigDict) :=
  match config self with
  | None => Err (ValueError "Configuration not loaded.")
  | Some cfg => Ok (path, model_dump cfg)
  end.

(** [infer_contracts(df)]: the engine afterwards. *)
Definition infer_contracts `{ContractInference} (self : CleaningEngine)
    (df : pl.DataFrame) : Result CleaningEngine :=
  match config self with
  | None => Err (ValueError "Configuration not loaded.")
  | Some cfg =>
      let inferred := infer_contract_from_dataframe df in
      let ic := if negb (truthy (input_contract cfg)) then Some inferred
                else input_contract cfg in
      let oc := if negb (truthy (output_contract cfg)) then Some inferred
                else output_contract cfg in
      Ok (mkCleaningEngine
            (Some (mkRuleConfig (version cfg) (config_name cfg) (description cfg)
                     ic oc (rules cfg) (observability cfg)))
            (storage self))
  end.

(** [clean_from_storage(table_name, output_table, batch_size)]: the cleaned
    frame and the engine afterwards; the storage object the engine holds is
    the one it was given, so what is saved is in that storage. *)
Definition clean_from_storage (self : CleaningEngine) (table_name : string)
    (output_table : option string) (batch_size : option Z)
    : Result (pl.DataFrame * CleaningEngine) :=
  match storage self with
  | None => Err (ValueError "Storage not configured. Provide DuckDBStorage instance.")
  | Some st =>
      (* Load data *)
      let* df := Storage.load_dataframe st table_name None in
      (* Clean *)
      let* cleaned_df := clean self df true true in
      (* Save if output table specified *)
      if truthy output_table then
        let* st' := Storage.save_dataframe st cleaned_df (default "" output_table) "replace" in
        Ok (cleaned_df, mkCleaningEngine (config self) (Some st'))
      else Ok (cleaned_df, self)
  end.

End Engine.

End Engine.

(* ===================================================================== *)
(** * A small engine for worked examples *)
(* ===================================================================== *)

(** Instances of the three interfaces on which the examples of this file
    run: ASCII string functions, decimal parsing for string-to-integer
    casts, the pattern compiler of [Re], and a schema engine that accepts
    every frame.  Kernels the examples do not reach answer with an
    error. *)
Module Examples.

Definition is_space (c : ascii) : bool := Re.class_mem Re.CSpace c.

Fixpoint lstrip (s : string) : string :=
  match s with
  | String c s' => if is_space c then lstrip s' else s
  | EmptyString => s
  end.

Fixpoint rstrip (s : string) : string :=
  match s with
  | EmptyString => EmptyString
  | String c s' =>
      match rstrip s' with
      | EmptyString => if is_space c then EmptyString else String c EmptyString
      | r => String c r
      end
  end.

Definition strip (s : string) : string := rstrip (lstrip s).

Definition lower_char (c : ascii) : ascii :=
  if Re.in_range 65 90 c then ascii_of_nat (nat_of_ascii c + 32) else c.
Definition upper_char (c : ascii) : ascii :=
  if Re.in_range 97 122 c then ascii_of_nat (nat_of_ascii c - 32) else c.

Fixpoint map_string (f : ascii -> ascii) (s : string) : string :=
  match s with
  | EmptyString => EmptyString
  | String c s' => String (f c) (map_string f s')
  end.

Definition on_strings (f : string -> string) (s : pl.Series) : Result pl.Series :=
  if bool_decide (pl.dtype s = pl.Utf8) then
    Ok (pl.mkSeries (pl.name s) pl.Utf8
          (map (fun v => match v with VStr x => VStr (f x) | _ => v end) (pl.values s)))
  else Err (InvalidOperationError "expected a String column").

Fixpoint parse_digits (acc : Z) (s : string) : option Z :=
  match s with
  | EmptyString => Some acc
  | String c s' =>
      if Re.in_range 48 57 c
      then parse_digits (10 * acc + Z.of_nat (nat_of_ascii c - 48)) s'
      else None
  end.

Definition parse_int (s : string) : option Z :=
  match s with
  | EmptyString => None
  | String "-" (String c s') => Z.opp <$> parse_digits 0 (String c s')
  | _ => parse_digits 0 s
  end.

Definition not_provided {A : Type} : Result A :=
  Err (InvalidOperationError "kernel not provided").

#[local] Instance kernels : pl.Kernels := {|
  pl.k_unary f s :=
    match f with
    | pl.str_strip_chars => on_strings strip s
    | pl.str_to_lowercase => on_strings (map_string lower_char) s
    | pl.str_to_uppercase => on_strings (map_string upper_char) s
    | _ => not_provided
    end;
  pl.k_binary _ _ _ := not_provided;
  pl.k_literal _ := not_provided;
  pl.k_cast_value from to v :=
    match v with
    | VStr x => if pl.is_integer_type to then VInt <$> parse_int x
                else if bool_decide (to = pl.Utf8) then Some v else None
    | _ => if pl.fits to v then Some v else None
    end;
  pl.k_parse_dtype _ := Err (TypeError "cannot parse input into a data type");
  pl.k_replace_coerce _ _ _ := not_provided;
  pl.k_quantile _ _ := None_;
  pl.k_mean _ := None_;
  pl.k_std _ := None_;
  pl.py_sub _ _ := Err (TypeError "unsupported operand type(s)");
  pl.py_add _ _ := Err (TypeError "unsupported operand type(s)");
  pl.py_mul _ _ := Err (TypeError "unsupported operand type(s)");
  pl.py_gt _ _ := Err (TypeError "unsupported operand type(s)")
|}.

#[local] Instance compiler : Re.Compiler := Re.compile_fragment.

#[local] Instance schema_engine : Validation.SchemaEngine := fun _ df => Ok df.

(** A rule with the defaults of [CleaningRule] for the fields left out. *)
Definition rule (nm : string) (op : CleaningOperation) (sel : ColumnSelector) : CleaningRule :=
  mkCleaningRule nm op sel default_parameters default_enabled default_order.

Definition engine (rs : list CleaningRule) : Engine.CleaningEngine :=
  Engine.mkCleaningEngine
    (Some (RuleConfig_new "1.0" "example" None None None rs default_observability))
    None.

(** A store that answers every caller-written statement with an empty
    frame and leaves the tables alone; no configuration files; contract
    inference that records the column names only. *)
#[local] Instance sql_engine : Storage.SqlEngine := fun db _ => Ok (db, []).

#[local] Instance no_files : Engine.ConfigFiles :=
  fun _ => Err (RuntimeError "no such file").

#[local] Instance inference : Engine.ContractInference :=
  fun df => mkDataContract (map (fun c => (c, ∅)) (pl.columns df)) true false.

End Examples.

(* ===================================================================== *)
(** * Vocabulary of the statements *)
(* ===================================================================== *)

Module Spec.

(** The number of selection modes a construction gives a value to: a name
    list (even an empty one), a pattern (even an empty one), [all=True]. *)
Definition modes_given (cols : option (list string)) (pat : option string)
    (al : bool) : nat :=
  ((if cols is Some _ then 1 else 0) + (if pat is Some _ then 1 else 0) +
   (if al then 1 else 0))%nat.

(** The number of selection modes holding a true value: a non-empty name
    list, a non-empty pattern, [all=True]. *)
Definition modes_true (cols : option (list string)) (pat : option string)
    (al : bool) : nat :=
  ((if truthy cols then 1 else 0) + (if truthy pat then 1 else 0) +
   (if truthy al then 1 else 0))%nat.

(** The configuration [cfg] holding the rules [rs] instead of its own. *)
Definition with_rules (cfg : RuleConfig) (rs : list CleaningRule) : RuleConfig :=
  mkRuleConfig (version cfg) (config_name cfg) (description cfg)
    (input_contract cfg) (output_contract cfg) rs (observability cfg).

(** Non-decreasing keys. *)
Definition key_le {A : Type} (key : A -> Z) (a b : A) : Prop := key a <= key b.

(** Column [c] is skipped by [op] on [df]: listing it or not makes no
    difference to the outcome, be it a frame or an exception. *)
Definition skips (op : pl.DataFrame -> list string -> gmap string PyObj -> Result pl.DataFrame)
    (params : gmap string PyObj) (df : pl.DataFrame) (c : string) : Prop :=
  forall l1 l2 : list string,
    op df (l1 ++ c :: l2)%list params = op df (l1 ++ l2)%list params.

(** Column [c] comes out of [op] as it went in, whatever columns are listed. *)
Definition leaves (op : pl.DataFrame -> list string -> gmap string PyObj -> Result pl.DataFrame)
    (params : gmap string PyObj) (df : pl.DataFrame) (c : string) : Prop :=
  forall (cols : list string) (df' : pl.DataFrame),
    op df cols params = Ok df' -> pl.get_column df' c = pl.get_column df c.

(** Column [c] of [df] has a type other than string, respectively a type
    outside the numeric types the operations accept. *)
Definition not_string (df : pl.DataFrame) (c : string) : Prop :=
  exists s, pl.get_column df c = Ok s /\ pl.dtype s <> pl.Utf8.
Definition not_numeric (df : pl.DataFrame) (c : string) : Prop :=
  exists s, pl.get_column df c = Ok s /\
            ~ In (pl.dtype s) [pl.Int8; pl.Int16; pl.Int32; pl.Int64; pl.Float32; pl.Float64].

(** The column an expression reads first: the leftmost column it names. *)
Fixpoint reads_first (e : pl.Expr) : option string :=
  match e with
  | pl.col c => Some c
  | pl.lit _ => None
  | pl.unary _ e' => reads_first e'
  | pl.binary _ e1 _ => reads_first e1
  | pl.replace e' _ _ => reads_first e'
  | pl.cast e' _ _ => reads_first e'
  | pl.alias e' _ => reads_first e'
  end.

(** The registry names of the operations that compute new column values,
    as opposed to those that select rows. *)
Definition expression_operations : list string :=
  ["fill_nulls"; "trim_whitespace"; "lowercase"; "uppercase"; "replace";
   "cast_type"; "standardize"].

(** [replace] is in pattern mode: a pattern is given and no exact value. *)
Definition pattern_mode (params : gmap string PyObj) : Prop :=
  is_None (dict_get params "pattern") = false /\
  is_None (dict_get params "value") = true.

(** What a frame has in common with the frame it was cut from: the types
    of its columns, and its rows, which are rows of the other in their
    order there. *)
Definition rows_dropped (df df' : pl.DataFrame) : Prop :=
  map pl.dtype df' = map pl.dtype df /\
  (pl.rectangular df -> pl.rectangular df' /\ sublist (pl.rows df') (pl.rows df)).

End Spec.

(* ===================================================================== *)
(** * Facts about the Python layer *)
(* ===================================================================== *)

Section ResultFacts.
Context {A B : Type}.

Lemma bind_Ok (a : A) (k : A -> Result B) : bind (Ok a) k = k a.
Proof. reflexivity. Qed.

Lemma bind_assoc {C : Type} (m : Result A) (k : A -> Result B) (k' : B -> Result C) :
  bind (bind m k) k' = bind m (fun a => bind (k a) k').
Proof. destruct m; reflexivity. Qed.

Lemma filterM_app (p : A -> Result bool) (l1 l2 : list A) :
  filterM p (l1 ++ l2) =
  bind (filterM p l1) (fun ys1 => bind (filterM p l2) (fun ys2 => Ok (ys1 ++ ys2)%list)).
Proof.
  induction l1 as [|x l1 IH]; simpl.
  - destruct (filterM p l2); reflexivity.
  - destruct (p x) as [b|e]; simpl; [|reflexivity].
    rewrite IH. destruct (filterM p l1) as [ys1|e]; simpl; [|reflexivity].
    destruct (filterM p l2) as [ys2|e]; simpl; [|reflexivity].
    destruct b; reflexivity.
Qed.

(** An element the test rejects without raising can be left out. *)
Lemma filterM_skip (p : A -> Result bool) (l1 l2 : list A) (x : A) :
  p x = Ok false -> filterM p (l1 ++ x :: l2) = filterM p (l1 ++ l2).
Proof.
  intros Hx. rewrite !filterM_app. simpl. rewrite Hx. simpl.
  destruct (filterM p l1); simpl; [|reflexivity].
  destruct (filterM p l2); reflexivity.
Qed.

(** What the comprehension keeps passed the test. *)
Lemma filterM_Ok_In (p : A -> Result bool) (l ys : list A) (x : A) :
  filterM p l = Ok ys -> In x ys -> p x = Ok true.
Proof.
  revert ys. induction l as [|y l IH]; simpl; intros ys Hl Hin.
  - injection Hl as <-. destruct Hin.
  - destruct (p y) as [b|e] eqn:Hy; simpl in Hl; [|discriminate].
    destruct (filterM p l) as [zs|e]; simpl in Hl; [|discriminate].
    injection Hl as <-. destruct b.
    + destruct Hin as [<-|Hin]; [assumption|]. now apply (IH zs).
    + now apply (IH zs).
Qed.

(** When the test rejects every element the comprehension is empty. *)
Lemma filterM_none (p : A -> Result bool) (l : list A) :
  Forall (fun x => p x = Ok false) l -> filterM p l = Ok [].
Proof.
  induction 1 as [|x l Hx _ IH]; simpl; [reflexivity|].
  rewrite Hx, IH. reflexivity.
Qed.

End ResultFacts.

Section SortedFacts.
Context {A : Type} (key : A -> Z).

#[local] Abbreviation key_le := (Spec.key_le key).

Lemma insert_by_key_Permutation (x : A) (l : list A) :
  Permutation (x :: l) (insert_by_key key x l).
Proof.
  induction l as [|y l IH]; simpl.
  - apply Permutation_refl.
  - destruct (key x <=? key y).
    + apply Permutation_refl.
    + eapply perm_trans; [apply perm_swap|]. now apply perm_skip.
Qed.

Lemma sorted_Permutation (l : list A) : Permutation l (sorted key l).
Proof.
  induction l as [|x l IH]; simpl.
  - apply perm_nil.
  - eapply perm_trans; [apply perm_skip, IH|]. apply insert_by_key_Permutation.
Qed.

Lemma insert_by_key_Forall (P : A -> Prop) (x : A) (l : list A) :
  P x -> Forall P l -> Forall P (insert_by_key key x l).
Proof.
  intros Hx Hl. eapply Permutation_Forall; [apply insert_by_key_Permutation|].
  now constructor.
Qed.

Lemma insert_by_key_StronglySorted (x : A) (l : list A) :
  StronglySorted key_le l -> StronglySorted key_le (insert_by_key key x l).
Proof.
  induction 1 as [|y l Hl IH Hy]; simpl.
  - repeat constructor.
  - destruct (Z.leb_spec (key x) (key y)) as [Hle|Hgt].
    + constructor; [now constructor|].
      constructor; [exact Hle|].
      eapply List.Forall_impl; [|exact Hy]. unfold Spec.key_le. intros a Ha. simpl in Ha. lia.
    + constructor; [exact IH|].
      apply insert_by_key_Forall; [unfold Spec.key_le; lia|exact Hy].
Qed.

Lemma sorted_StronglySorted (l : list A) : StronglySorted key_le (sorted key l).
Proof.
  induction l as [|x l IH]; simpl.
  - constructor.
  - now apply insert_by_key_StronglySorted.
Qed.

(** Inserting does not disturb the entries of any one key. *)
Lemma insert_by_key_same_key (k : Z) (x : A) (l : list A) :
  List.filter (fun a => key a =? k) (insert_by_key key x l) =
  List.filter (fun a => key a =? k) (x :: l).
Proof.
  induction l as [|y l IH]; [reflexivity|].
  cbn [insert_by_key]. destruct (Z.leb_spec (key x) (key y)) as [Hle|Hgt]; [reflexivity|].
  cbn [List.filter] in *. rewrite IH.
  destruct (Z.eqb_spec (key x) k), (Z.eqb_spec (key y) k); try reflexivity. lia.
Qed.

Lemma sorted_same_key (k : Z) (l : list A) :
  List.filter (fun a => key a =? k) (sorted key l) =
  List.filter (fun a => key a =? k) l.
Proof.
  induction l as [|x l IH]; [reflexivity|].
  cbn [sorted]. rewrite insert_by_key_same_key. cbn [List.filter]. now rewrite IH.
Qed.

Lemma insert_by_key_front (x : A) (l : list A) :
  Forall (key_le x) l -> insert_by_key key x l = x :: l.
Proof.
  destruct 1 as [|y l Hy _]; [reflexivity|]. simpl.
  unfold Spec.key_le in Hy. destruct (Z.leb_spec (key x) (key y)); [reflexivity|lia].
Qed.

Lemma filter_insert_by_key (p : A -> bool) (x : A) (l : list A) :
  StronglySorted key_le l ->
  List.filter p (insert_by_key key x l) =
  if p x then insert_by_key key x (List.filter p l) else List.filter p l.
Proof.
  induction 1 as [|y l Hl IH Hy]; simpl.
  - destruct (p x); reflexivity.
  - destruct (Z.leb_spec (key x) (key y)) as [Hle|Hgt]; simpl.
    + destruct (p x); [|reflexivity].
      symmetry. apply insert_by_key_front.
      assert (Hall : Forall (key_le x) (y :: l)).
      { constructor; [exact Hle|].
        eapply List.Forall_impl; [|exact Hy]. unfold Spec.key_le. intros a Ha. simpl in Ha. lia. }
      clear - Hall. cbn [List.filter] in *.
      change (Forall (key_le x) (List.filter p (y :: l))).
      induction Hall as [|z l' Hz _ IH']; simpl; [constructor|].
      destruct (p z); [now constructor|exact IH'].
    + rewrite IH. destruct (p y), (p x); simpl; try reflexivity.
      destruct (Z.leb_spec (key x) (key y)); [lia|reflexivity].
Qed.

(** Sorting commutes with leaving elements out. *)
Lemma filter_sorted (p : A -> bool) (l : list A) :
  List.filter p (sorted key l) = sorted key (List.filter p l).
Proof.
  induction l as [|x l IH]; [reflexivity|].
  cbn [sorted List.filter].
  rewrite filter_insert_by_key by apply sorted_StronglySorted.
  rewrite IH. destruct (p x); reflexivity.
Qed.

End SortedFacts.

(* ===================================================================== *)
(** * Facts about pattern matching *)
(* ===================================================================== *)

Section ReFacts.
Import Re.

Lemma append_empty (s1 s2 : string) : s1 ++ s2 = "" -> s1 = "" /\ s2 = "".
Proof. destruct s1; simpl; [auto|discriminate]. Qed.

Lemma append_cons (s1 s2 : string) (c : ascii) (s : string) :
  s1 ++ s2 = String c s ->
  (s1 = "" /\ s2 = String c s) \/ (exists s1', s1 = String c s1' /\ s = s1' ++ s2).
Proof.
  destruct s1 as [|c1 s1]; simpl; intros Heq.
  - left. auto.
  - right. injection Heq as -> <-. eauto.
Qed.

Lemma nullable_matches (r : Regex) : nullable r = true -> matches r "".
Proof.
  induction r; simpl; intros Hn; try discriminate.
  - constructor.
  - apply andb_true_iff in Hn as [H1 H2].
    change "" with ("" ++ ""). constructor; auto.
  - apply orb_true_iff in Hn as [H1|H2]; [apply m_alt_l|apply m_alt_r]; auto.
  - constructor.
Qed.

Lemma matches_nullable (r : Regex) (s : string) :
  matches r s -> s = "" -> nullable r = true.
Proof.
  induction 1; simpl; intros Hs; try reflexivity; try discriminate.
  - apply append_empty in Hs as [-> ->]. rewrite IHmatches1, IHmatches2; auto.
  - rewrite IHmatches; auto.
  - rewrite IHmatches; auto. apply orb_true_r.
Qed.

Lemma deriv_sound (c : ascii) (r : Regex) :
  forall s, matches (deriv c r) s -> matches r (String c s).
Proof.
  induction r; simpl; intros s Hm.
  - inversion Hm.
  - inversion Hm.
  - destruct (class_mem cc c) eqn:Hc; inversion Hm; subst. now constructor.
  - destruct (nullable r1) eqn:Hn.
    + inversion Hm as [| |? ? ? ? Hs| | | |]; subst.
      * match goal with H : matches (Seq _ _) _ |- _ => inversion H; subst end.
        change (matches (Seq r1 r2) (String c s1 ++ s2)). constructor; auto.
      * change (matches (Seq r1 r2) ("" ++ String c s)).
        constructor; [now apply nullable_matches|auto].
    + inversion Hm; subst.
      change (matches (Seq r1 r2) (String c s1 ++ s2)). constructor; auto.
  - inversion Hm; subst; [apply m_alt_l|apply m_alt_r]; auto.
  - inversion Hm; subst.
    change (matches (Star r) (String c s1 ++ s2)). constructor; auto.
Qed.

Lemma deriv_complete (r : Regex) (s0 : string) :
  matches r s0 -> forall c s, s0 = String c s -> matches (deriv c r) s.
Proof.
  induction 1 as [|cc c0 Hc|r1 r2 s1 s2 H1 IH1 H2 IH2|r1 r2 s0 H1 IH1
                 |r1 r2 s0 H2 IH2|r|r s1 s2 H1 IH1 H2 IH2];
    intros c s Hs; simpl.
  - discriminate.
  - injection Hs as -> <-. rewrite Hc. constructor.
  - apply append_cons in Hs as [[-> ->]|[s1' [-> ->]]].
    + rewrite (matches_nullable r1 "" H1 eq_refl). apply m_alt_r. now apply IH2.
    + assert (Hd : matches (Seq (deriv c r1) r2) (s1' ++ s2)).
      { constructor; [now apply IH1|exact H2]. }
      destruct (nullable r1); [now apply m_alt_l|exact Hd].
  - apply m_alt_l. now apply IH1.
  - apply m_alt_r. now apply IH2.
  - discriminate.
  - apply append_cons in Hs as [[-> ->]|[s1' [-> ->]]].
    + now apply IH2.
    + constructor; [now apply IH1|exact H2].
Qed.

(** [Pattern.match] succeeds exactly when the pattern matches a prefix. *)
Lemma re_match_spec (s : string) :
  forall r, re_match r s = true <-> matches_at_start r s.
Proof.
  unfold matches_at_start.
  induction s as [|c s IH]; intros r; simpl.
  - rewrite orb_false_r. split.
    + intros Hn. exists "", "". split; [reflexivity|now apply nullable_matches].
    + intros (p & rest & Hs & Hm). symmetry in Hs.
      apply append_empty in Hs as [-> _]. now apply (matches_nullable r "").
  - rewrite orb_true_iff, IH. split.
    + intros [Hn|(p & rest & -> & Hm)].
      * exists "", (String c s). split; [reflexivity|now apply nullable_matches].
      * exists (String c p), rest. split; [reflexivity|now apply deriv_sound].
    + intros (p & rest & Hs & Hm). symmetry in Hs.
      apply append_cons in Hs as [[-> _]|[p' [-> ->]]].
      * left. now apply (matches_nullable r "").
      * right. exists p', rest. split; [reflexivity|].
        now apply (deriv_complete r (String c p')).
Qed.

(** [Pattern.fullmatch] succeeds exactly when the pattern matches all of the
    string. *)
Lemma re_fullmatch_spec (s : string) :
  forall r, re_fullmatch r s = true <-> matches r s.
Proof.
  induction s as [|c s IH]; intros r; simpl.
  - split; [apply nullable_matches|intros Hm; now apply (matches_nullable r "")].
  - rewrite IH. split; [apply deriv_sound|].
    intros Hm. now apply (deriv_complete r (String c s)).
Qed.

End ReFacts.

(* ===================================================================== *)
(** * The rule model *)
(* ===================================================================== *)

(** C6. Whatever list of rules a configuration is constructed from, the
    rules it then holds are in non-decreasing [order], are the given rules
    (each as often as given), and the rules of any one [order] value stand
    in the order in which they were declared. *)
Theorem RuleConfig_rules_sorted_stable (ver nm : string) (descr : option string)
    (ic oc : option DataContract) (rs : list CleaningRule) (obs : gmap string PyObj) :
  let cfg := RuleConfig_new ver nm descr ic oc rs obs in
  StronglySorted (Spec.key_le order) (rules cfg) /\
  Permutation rs (rules cfg) /\
  (forall k : Z,
     List.filter (fun r => order r =? k) (rules cfg) =
     List.filter (fun r => order r =? k) rs).
Proof.
  cbn. unfold sort_rules_by_order. split; [|split].
  - apply sorted_StronglySorted.
  - apply sorted_Permutation.
  - intros k. apply sorted_same_key.
Qed.

(** The three rules of the repository's sorting test, declared with orders
    3, 1, 2, come out as rule1, rule2, rule3; with equal orders the
    declaration order is kept. *)
Example RuleConfig_sorting_test :
  let r n o := mkCleaningRule n DROP_NULLS default_columns ∅ true o in
  map name (rules (RuleConfig_new "1.0" "sorted_config" None None None
                     [r "rule3" 3; r "rule1" 1; r "rule2" 2] ∅))
    = ["rule1"; "rule2"; "rule3"] /\
  map name (rules (RuleConfig_new "1.0" "ties" None None None
                     [r "b" 1; r "a" 0; r "c" 1; r "d" 0] ∅))
    = ["a"; "d"; "b"; "c"].
Proof. split; reflexivity. Qed.

Section SelectorFacts.
Context `{Re.Compiler}.

(** C5, as stated, fails: a construction that gives a value to two of the
    three modes, the name list being the empty list, is accepted. *)
Lemma selector_empty_list_and_pattern_accepted :
  Spec.modes_given (Some []) (Some "col_\d+") false = 2%nat /\
  ColumnSelector_new (Some []) (Some "col_\d+") false =
    Ok (mkColumnSelector (Some []) (Some "col_\d+") false).
Proof. split; reflexivity. Qed.

(** C5, amended. A construction in which more than one of the three modes
    holds a true value (a non-empty name list, a non-empty pattern,
    [all=True]) fails with a validation error; column resolution itself
    raises nothing for such a combination of fields. *)
Theorem selector_two_true_modes_rejected (cols : option (list string))
    (pat : option string) (al : bool) :
  (2 <= Spec.modes_true cols pat al)%nat ->
  (exists msg, ColumnSelector_new cols pat al = Err (ValidationError msg)) /\
  (forall df, is_ok (Operations.select_columns df (mkColumnSelector cols pat al)) = true).
Proof.
  unfold Spec.modes_true, ColumnSelector_new, validate_selector,
    Operations.select_columns. cbn [columns pattern all].
  destruct (truthy cols) eqn:Hc, (truthy pat) eqn:Hp, (truthy al) eqn:Ha;
    cbn; intros Hn; try lia; (split; [eauto|intros; reflexivity]).
Qed.

(** A construction in which at most one mode holds a true value succeeds. *)
Lemma selector_one_true_mode_accepted (cols : option (list string))
    (pat : option string) (al : bool) :
  (Spec.modes_true cols pat al <= 1)%nat ->
  ColumnSelector_new cols pat al = Ok (mkColumnSelector cols pat al).
Proof.
  unfold Spec.modes_true, ColumnSelector_new, validate_selector.
  cbn [columns pattern all].
  destruct (truthy cols), (truthy pat), (truthy al); cbn; intros Hn;
    try lia; reflexivity.
Qed.

(** C9. A selector constructed with the empty name list, no pattern and
    [all=False] resolves to every column of the frame; and the empty name
    list passes the construction check together with any pattern, and
    together with [all=True]: the check treats the empty list as it treats
    an absent one. *)
Theorem empty_name_list_resolves_to_all_columns :
  (forall df,
     ColumnSelector_new (Some []) None false = Ok (mkColumnSelector (Some []) None false) /\
     Operations.select_columns df (mkColumnSelector (Some []) None false)
       = Ok (pl.columns df)) /\
  (forall pat,
     ColumnSelector_new (Some []) pat false = Ok (mkColumnSelector (Some []) pat false)) /\
  ColumnSelector_new (Some []) None true = Ok (mkColumnSelector (Some []) None true) /\
  (forall pat al,
     is_ok (ColumnSelector_new (Some []) pat al) = is_ok (ColumnSelector_new None pat al)).
Proof.
  split; [|split; [|split]].
  - intros df. split; reflexivity.
  - intros pat. unfold ColumnSelector_new, validate_selector. cbn.
    rewrite !andb_false_r. reflexivity.
  - reflexivity.
  - intros pat al. unfold ColumnSelector_new, validate_selector. cbn.
    rewrite !andb_false_r. destruct (truthy pat && al); reflexivity.
Qed.

End SelectorFacts.

Section SelectorExamples.
#[local] Existing Instance Examples.compiler.

Lemma selector_two_true_modes_rejected_witness :
  (2 <= Spec.modes_true (Some ["a"]) (Some "b.*") false)%nat /\
  (exists msg, ColumnSelector_new (Some ["a"]) (Some "b.*") false
               = Err (ValidationError msg)) /\
  (forall df, is_ok (Operations.select_columns df
                       (mkColumnSelector (Some ["a"]) (Some "b.*") false)) = true).
Proof.
  assert (Hn : (2 <= Spec.modes_true (Some ["a"]) (Some "b.*") false)%nat)
    by (vm_compute; lia).
  split; [exact Hn|].
  exact (selector_two_true_modes_rejected (Some ["a"]) (Some "b.*") false Hn).
Defined.

End SelectorExamples.

(* ===================================================================== *)
(** * Column resolution *)
(* ===================================================================== *)

Section ResolverFacts.
Context `{Re.Compiler}.


End ResolverFacts.

Section ResolverExamples.
#[local] Existing Instance Examples.compiler.



End ResolverExamples.

(* ===================================================================== *)
(** * Facts about the engine *)
(* ===================================================================== *)

Section FrameFacts.

Lemma keep_nil_r {A : Type} (mask : list bool) : pl.keep mask (@nil A) = [].
Proof. destruct mask as [|[]]; reflexivity. Qed.

Lemma get_column_keep_rows (mask : list bool) (df : pl.DataFrame) (c : string) :
  pl.get_column (pl.keep_rows mask df) c =
  bind (pl.get_column df c)
       (fun s => Ok (pl.mkSeries (pl.name s) (pl.dtype s) (pl.keep mask (pl.values s)))).
Proof.
  induction df as [|s df IH]; simpl; [reflexivity|].
  destruct (String.eqb (pl.name s) c); [reflexivity|exact IH].
Qed.

Lemma columns_keep_rows (mask : list bool) (df : pl.DataFrame) :
  pl.columns (pl.keep_rows mask df) = pl.columns df.
Proof. unfold pl.columns, pl.keep_rows. rewrite map_map. reflexivity. Qed.

Lemma get_column_set_column_ne (s : pl.Series) (df : pl.DataFrame) (c : string) :
  pl.name s <> c ->
  pl.get_column (pl.set_column s df) c = pl.get_column df c.
Proof.
  intros Hne. apply String.eqb_neq in Hne.
  induction df as [|s' df IH]; simpl.
  - rewrite Hne. reflexivity.
  - destruct (String.eqb (pl.name s') (pl.name s)) eqn:Hs; simpl.
    + apply String.eqb_eq in Hs. rewrite Hs, Hne. reflexivity.
    + rewrite IH. reflexivity.
Qed.

Lemma get_column_fold_set_column (cols : list pl.Series) (df : pl.DataFrame) (c : string) :
  ~ In c (map pl.name cols) ->
  pl.get_column (fold_left (fun d s => pl.set_column s d) cols df) c = pl.get_column df c.
Proof.
  revert df. induction cols as [|s cols IH]; simpl; intros df Hnin; [reflexivity|].
  rewrite IH by tauto. apply get_column_set_column_ne. tauto.
Qed.

Lemma mapM_map {A B C : Type} (f : A -> Result B) (g : B -> C) (h : A -> C)
    (l : list A) (ys : list B) :
  (forall x y, f x = Ok y -> g y = h x) ->
  mapM f l = Ok ys -> map g ys = map h l.
Proof.
  intros Hf. revert ys. induction l as [|x l IH]; simpl; intros ys Hl.
  - injection Hl as <-. reflexivity.
  - destruct (f x) as [y|e] eqn:Hx; simpl in Hl; [|discriminate].
    destruct (mapM f l) as [zs|e]; simpl in Hl; [|discriminate].
    injection Hl as <-. simpl. rewrite (Hf x y Hx), (IH zs eq_refl). reflexivity.
Qed.

Context `{pl.Kernels}.

Lemma with_columns_nil (df : pl.DataFrame) : pl.with_columns df [] = Ok df.
Proof. reflexivity. Qed.

(** [with_columns] leaves alone every column no expression is named after. *)
Lemma with_columns_other_column (df df' : pl.DataFrame) (exprs : list pl.Expr) (c : string) :
  pl.with_columns df exprs = Ok df' ->
  ~ In c (map pl.output_name exprs) ->
  pl.get_column df' c = pl.get_column df c.
Proof.
  unfold pl.with_columns. intros Hw Hnin.
  match type of Hw with bind ?m _ = _ => destruct m as [cols|e] eqn:Hm end;
    simpl in Hw; [|discriminate].
  destruct (pl.first_duplicate (map pl.output_name exprs)); [discriminate|].
  injection Hw as <-. apply get_column_fold_set_column.
  erewrite mapM_map; [exact Hnin| |exact Hm].
  intros e s Hs. simpl in Hs.
  destruct (pl.eval df e) as [s1|]; simpl in Hs; [|discriminate].
  destruct (pl.broadcast (pl.height df) s1) as [s2|]; simpl in Hs; [|discriminate].
  injection Hs as <-. reflexivity.
Qed.

(** Filtering rows changes neither the names nor the types of the columns. *)
Lemma filter_get_column (df df' : pl.DataFrame) (e : pl.Expr) (c : string) :
  pl.filter df e = Ok df' ->
  exists mask,
    pl.get_column df' c =
    bind (pl.get_column df c)
         (fun s => Ok (pl.mkSeries (pl.name s) (pl.dtype s) (pl.keep mask (pl.values s)))).
Proof.
  unfold pl.filter. intros Hf.
  destruct (pl.eval df e) as [s|]; simpl in Hf; [|discriminate].
  destruct (pl.broadcast (pl.height df) s) as [s'|]; simpl in Hf; [|discriminate].
  destruct (bool_decide (pl.dtype s' = pl.Boolean)); [|discriminate].
  injection Hf as <-. eexists. apply get_column_keep_rows.
Qed.

Lemma filter_is_numeric (df df' : pl.DataFrame) (e : pl.Expr) (c : string) :
  pl.filter df e = Ok df' ->
  Operations.is_numeric df' c = Operations.is_numeric df c.
Proof.
  intros Hf. unfold Operations.is_numeric.
  destruct (filter_get_column df df' e c Hf) as [mask ->].
  destruct (pl.get_column df c); reflexivity.
Qed.

End FrameFacts.

(* ===================================================================== *)
(** * The operations *)
(* ===================================================================== *)

Section OperationFacts.
Context `{Re.Compiler} `{pl.Kernels}.

Lemma truthy_app_cons {A : Type} (l1 l2 : list A) (x : A) :
  truthy (l1 ++ x :: l2)%list = true.
Proof. destruct l1; reflexivity. Qed.

(** The comprehension-guarded shape shared by the string operations and
    [standardize]: a column failing the type test is skipped. *)
Lemma guarded_skip (test : string -> Result bool) (mk : string -> pl.Expr)
    (df : pl.DataFrame) (c : string) (l1 l2 : list string) :
  test c = Ok false ->
  (if negb (truthy (l1 ++ c :: l2)%list) then Ok df
   else bind (filterM test (l1 ++ c :: l2)%list)
             (fun cs => pl.with_columns df (map mk cs))) =
  (if negb (truthy (l1 ++ l2)%list) then Ok df
   else bind (filterM test (l1 ++ l2)%list)
             (fun cs => pl.with_columns df (map mk cs))).
Proof.
  intros Hc. rewrite truthy_app_cons. cbn [negb].
  rewrite (filterM_skip test l1 l2 c Hc).
  destruct (l1 ++ l2)%list eqn:Hl; reflexivity.
Qed.

Lemma guarded_leaves (test : string -> Result bool) (mk : string -> pl.Expr)
    (df df' : pl.DataFrame) (c : string) (cols : list string) :
  test c = Ok false ->
  (forall c', pl.output_name (mk c') = c') ->
  (if negb (truthy cols) then Ok df
   else bind (filterM test cols) (fun cs => pl.with_columns df (map mk cs))) = Ok df' ->
  pl.get_column df' c = pl.get_column df c.
Proof.
  intros Hc Hmk Hop.
  destruct (negb (truthy cols)); [now injection Hop as <-|].
  destruct (filterM test cols) as [cs|e] eqn:Hcs; simpl in Hop; [|discriminate].
  eapply with_columns_other_column; [exact Hop|].
  rewrite map_map. erewrite map_ext; [|exact Hmk]. rewrite map_id.
  intros Hin. pose proof (filterM_Ok_In test cols cs c Hcs Hin). congruence.
Qed.

Lemma guarded_all_skipped (test : string -> Result bool) (mk : string -> pl.Expr)
    (df : pl.DataFrame) (cols : list string) :
  Forall (fun c => test c = Ok false) cols ->
  (if negb (truthy cols) then Ok df
   else bind (filterM test cols) (fun cs => pl.with_columns df (map mk cs))) = Ok df.
Proof.
  intros Hall. destruct (negb (truthy cols)); [reflexivity|].
  rewrite (filterM_none test cols Hall). reflexivity.
Qed.

Lemma not_string_is_utf8 (df : pl.DataFrame) (c : string) :
  Spec.not_string df c -> Operations.is_utf8 df c = Ok false.
Proof.
  intros (s & Hs & Hd). unfold Operations.is_utf8. rewrite Hs. simpl.
  rewrite bool_decide_eq_false_2; [reflexivity|exact Hd].
Qed.

Lemma not_numeric_is_numeric (df : pl.DataFrame) (c : string) :
  Spec.not_numeric df c -> Operations.is_numeric df c = Ok false.
Proof.
  intros (s & Hs & Hd). unfold Operations.is_numeric. rewrite Hs. simpl.
  rewrite bool_decide_eq_false_2; [reflexivity|].
  intros Hin. apply Hd. apply list_elem_of_In. exact Hin.
Qed.

(** One pass of [remove_outliers] keeps the names and types of the columns. *)
Lemma remove_outliers_step_is_numeric (method threshold : PyObj)
    (df df' : pl.DataFrame) (c c' : string) :
  Operations.remove_outliers_step method threshold df c = Ok df' ->
  Operations.is_numeric df' c' = Operations.is_numeric df c'.
Proof.
  unfold Operations.remove_outliers_step. intros Hs.
  destruct (Operations.is_numeric df c) as [[]|]; simpl in Hs;
    [|now injection Hs as <-|discriminate].
  destruct (pl.get_column df c) as [s|]; simpl in Hs; [|discriminate].
  destruct (eq_str method "iqr").
  - repeat match type of Hs with
           | bind ?m _ = _ => destruct m; simpl in Hs; [|discriminate]
           end.
    eapply filter_is_numeric; exact Hs.
  - destruct (eq_str method "zscore"); [|now injection Hs as <-].
    match type of Hs with
    | bind ?m _ = _ => destruct m as [[]|]; simpl in Hs; [| |discriminate]
    end; [|now injection Hs as <-].
    match type of Hs with
    | bind ?m _ = _ => destruct m; simpl in Hs; [|discriminate]
    end.
    eapply filter_is_numeric; exact Hs.
Qed.

Lemma remove_outliers_loop_skip (method threshold : PyObj) (c : string)
    (l1 l2 : list string) :
  forall df,
    Operations.is_numeric df c = Ok false ->
    Operations.remove_outliers_loop method threshold (l1 ++ c :: l2)%list df =
    Operations.remove_outliers_loop method threshold (l1 ++ l2)%list df.
Proof.
  induction l1 as [|x l1 IH]; intros df Hc; simpl.
  - unfold Operations.remove_outliers_step. rewrite Hc. reflexivity.
  - destruct (Operations.remove_outliers_step method threshold df x) as [df'|e] eqn:Hx;
      simpl; [|reflexivity].
    apply IH. rewrite (remove_outliers_step_is_numeric _ _ _ _ _ _ Hx). exact Hc.
Qed.

Lemma remove_outliers_loop_all_skipped (method threshold : PyObj)
    (df : pl.DataFrame) (cols : list string) :
  Forall (fun c => Operations.is_numeric df c = Ok false) cols ->
  Operations.remove_outliers_loop method threshold cols df = Ok df.
Proof.
  induction 1 as [|c cols Hc _ IH]; simpl; [reflexivity|].
  unfold Operations.remove_outliers_step. rewrite Hc. simpl. exact IH.
Qed.

End OperationFacts.

Section OperationTheorems.
Context `{Re.Compiler} `{pl.Kernels}.

Lemma mapM_total {A B : Type} (f : A -> Result B) (g : A -> B) (l : list A) :
  (forall x, f x = Ok (g x)) -> mapM f l = Ok (map g l).
Proof.
  intros Hf. induction l as [|x l IH]; simpl; [reflexivity|].
  rewrite Hf, IH. reflexivity.
Qed.

Lemma mapM_raises {A B : Type} (f : A -> Result B) (l : list A) (x : A) :
  In x l -> is_ok (f x) = false -> is_ok (mapM f l) = false.
Proof.
  induction l as [|y l IH]; simpl; intros Hin Hx; [destruct Hin|].
  destruct Hin as [->|Hin].
  - destruct (f x); [discriminate|reflexivity].
  - destruct (f y); simpl; [|reflexivity].
    specialize (IH Hin Hx). destruct (mapM f l); [discriminate|reflexivity].
Qed.

(** C1, amended. On a non-empty resolved column list, [cast_type] maps the
    type names int, float, str, bool, date and datetime to the engine types
    Int64, Float64, Utf8, Boolean, Date and Datetime and casts every
    resolved column to that type, handing the engine the [strict] parameter
    (false when absent).  In the cast of a column, a value that cannot be
    converted becomes a null when [strict] is false, so that the cast
    cannot fail, and makes the cast raise when [strict] is true. *)
Theorem cast_type_maps_names_and_passes_strict (df : pl.DataFrame)
    (columns : list string) (params : gmap string PyObj) (nm : string)
    (t : pl.DataType) :
  columns <> [] ->
  params !! "dtype" = Some (Scalar (VStr nm)) ->
  In (nm, t) [("int", pl.Int64); ("float", pl.Float64); ("str", pl.Utf8);
              ("bool", pl.Boolean); ("date", pl.Date); ("datetime", pl.Datetime)] ->
  let strict := truthy (dict_get_default params "strict" (Scalar (VBool false))) in
  Operations.cast_type df columns params =
    pl.with_columns df (map (fun c => pl.cast (pl.col c) (pl.Native t) strict) columns) /\
  (params !! "strict" = None -> strict = false) /\
  (forall s : pl.Series,
     pl.cast_series t false s =
       Ok (pl.mkSeries (pl.name s) t
             (map (fun v => match v with
                            | VNull => VNull
                            | _ => default VNull (pl.k_cast_value (pl.dtype s) t v)
                            end) (pl.values s))) /\
     (forall v, In v (pl.values s) -> v <> VNull ->
                pl.k_cast_value (pl.dtype s) t v = None ->
                is_ok (pl.cast_series t true s) = false)).
Proof.
  intros Hcols Hd Hin strict. split; [|split].
  - unfold Operations.cast_type, dict_get. rewrite Hd. cbn [from_option id].
    destruct columns as [|c0 columns]; [congruence|]. cbn [truthy truthy_list negb].
    assert (Hl : Operations.lookup_dtype (Scalar (VStr nm)) = Ok (pl.Native t)).
    { simpl in Hin.
      repeat (destruct Hin as [Hin|Hin]; [injection Hin as <- <-; reflexivity|]).
      destruct Hin. }
    assert (Ht : truthy (Scalar (VStr nm)) = true).
    { simpl in Hin.
      repeat (destruct Hin as [Hin|Hin]; [injection Hin as <- <-; reflexivity|]).
      destruct Hin. }
    rewrite Ht, Hl. reflexivity.
  - intros Hs. unfold strict, dict_get_default. rewrite Hs. reflexivity.
  - intros s. split.
    + unfold pl.cast_series.
      erewrite mapM_total; [reflexivity|].
      intros v. unfold pl.cast_value.
      destruct v; try reflexivity;
        destruct (pl.k_cast_value (pl.dtype s) t _); reflexivity.
    + intros v Hv Hnn Hk. unfold pl.cast_series.
      assert (Hm : is_ok (mapM (pl.cast_value (pl.dtype s) t true) (pl.values s)) = false).
      { apply (mapM_raises _ _ v Hv). unfold pl.cast_value.
        destruct v; try congruence; rewrite Hk; reflexivity. }
      destruct (mapM _ (pl.values s)); [discriminate|reflexivity].
Qed.

(** C1, as stated, fails: the names integer, string and boolean are not
    keys of the mapping; they reach the engine as they are. *)
Lemma cast_type_integer_string_boolean_not_mapped :
  Operations.lookup_dtype (Scalar (VStr "integer"))
    = Ok (pl.Other (Scalar (VStr "integer"))) /\
  Operations.lookup_dtype (Scalar (VStr "string"))
    = Ok (pl.Other (Scalar (VStr "string"))) /\
  Operations.lookup_dtype (Scalar (VStr "boolean"))
    = Ok (pl.Other (Scalar (VStr "boolean"))) /\
  Operations.lookup_dtype (Scalar (VStr "int")) = Ok (pl.Native pl.Int64).
Proof. repeat split; reflexivity. Qed.

(** C4, amended. A resolved column of a type other than string is skipped
    by trim-whitespace, lowercase, uppercase and pattern-mode replace, and
    one of a type outside the numeric types by standardize and
    remove-outliers: listing it changes nothing, neither the resulting
    frame nor whether an exception is raised.  After the four string
    operations and standardize the column holds what it held before.  When
    every listed column is of that kind the operation returns the frame it
    was given.  Exact-value replace acts on every resolved column, whatever
    its type. *)
Theorem incompatible_columns_are_skipped (df : pl.DataFrame) (params : gmap string PyObj) :
  (forall c, Spec.not_string df c ->
     (forall op, In op [Operations.trim_whitespace; Operations.lowercase;
                        Operations.uppercase] ->
                 Spec.skips op params df c /\ Spec.leaves op params df c) /\
     (Spec.pattern_mode params ->
      Spec.skips Operations.replace params df c /\
      Spec.leaves Operations.replace params df c)) /\
  (forall c, Spec.not_numeric df c ->
     Spec.skips Operations.standardize params df c /\
     Spec.leaves Operations.standardize params df c /\
     Spec.skips Operations.remove_outliers params df c) /\
  (forall cols, Forall (Spec.not_string df) cols ->
     (forall op, In op [Operations.trim_whitespace; Operations.lowercase;
                        Operations.uppercase] -> op df cols params = Ok df) /\
     (Spec.pattern_mode params -> Operations.replace df cols params = Ok df)) /\
  (forall cols, Forall (Spec.not_numeric df) cols ->
     Operations.standardize df cols params = Ok df /\
     Operations.remove_outliers df cols params = Ok df) /\
  (forall cols v, cols <> [] -> params !! "value" = Some (Scalar v) -> v <> VNull ->
     Operations.replace df cols params =
       pl.with_columns df
         (map (fun c => pl.replace (pl.col c) v
                          (dict_get_default params "replacement" (Scalar (VStr ""))))
              cols)).
Proof.
  split; [|split; [|split; [|split]]].
  - intros c Hc. apply not_string_is_utf8 in Hc. split.
    + intros op [<-|[<-|[<-|[]]]]; (split;
        [intros l1 l2; apply guarded_skip; exact Hc
        |intros cols df' Hop; eapply guarded_leaves; [exact Hc| |exact Hop];
         reflexivity]).
    + intros [Hp Hv]. unfold Spec.skips, Spec.leaves, Operations.replace.
      rewrite Hp, Hv. cbn [negb andb]. split.
      * intros l1 l2. apply guarded_skip. exact Hc.
      * intros cols df' Hop. eapply guarded_leaves; [exact Hc| |exact Hop]. reflexivity.
  - intros c Hc. apply not_numeric_is_numeric in Hc. split; [|split].
    + intros l1 l2. apply guarded_skip. exact Hc.
    + intros cols df' Hop. eapply guarded_leaves; [exact Hc| |exact Hop]. reflexivity.
    + intros l1 l2. unfold Operations.remove_outliers.
      rewrite truthy_app_cons. cbn [negb].
      rewrite remove_outliers_loop_skip by exact Hc.
      destruct (l1 ++ l2)%list; reflexivity.
  - intros cols Hall.
    assert (Hall' : Forall (fun c => Operations.is_utf8 df c = Ok false) cols).
    { eapply List.Forall_impl; [|exact Hall]. apply not_string_is_utf8. }
    split.
    + intros op [<-|[<-|[<-|[]]]]; apply guarded_all_skipped; exact Hall'.
    + intros [Hp Hv]. unfold Operations.replace. rewrite Hp, Hv. cbn [negb andb].
      apply guarded_all_skipped. exact Hall'.
  - intros cols Hall.
    assert (Hall' : Forall (fun c => Operations.is_numeric df c = Ok false) cols).
    { eapply List.Forall_impl; [|exact Hall]. apply not_numeric_is_numeric. }
    split.
    + apply guarded_all_skipped. exact Hall'.
    + unfold Operations.remove_outliers. destruct (negb (truthy cols)); [reflexivity|].
      apply remove_outliers_loop_all_skipped. exact Hall'.
  - intros cols v Hne Hv Hnn. destruct cols as [|c0 cols]; [congruence|].
    unfold Operations.replace.
    assert (Hval : dict_get params "value" = Scalar v)
      by (unfold dict_get; rewrite Hv; reflexivity).
    rewrite Hval.
    assert (Hnone : is_None (Scalar v) = false).
    { unfold is_None, None_. apply bool_decide_eq_false_2. congruence. }
    rewrite Hnone. rewrite andb_false_r. reflexivity.
Qed.

(** [fill_nulls] with the mean or the median strategy builds one expression
    for each resolved column; no column type is looked at. *)
Lemma fill_nulls_mean_median_expressions (df : pl.DataFrame)
    (params : gmap string PyObj) (cols : list string) :
  cols <> [] ->
  (params !! "strategy" = Some (Scalar (VStr "mean")) ->
   Operations.fill_nulls df cols params =
     pl.with_columns df
       (map (fun c => pl.binary pl.fill_null (pl.col c) (pl.unary pl.mean (pl.col c)))
            cols)) /\
  (params !! "strategy" = Some (Scalar (VStr "median")) ->
   Operations.fill_nulls df cols params =
     pl.with_columns df
       (map (fun c => pl.binary pl.fill_null (pl.col c) (pl.unary pl.median (pl.col c)))
            cols)).
Proof.
  intros Hne. destruct cols as [|c0 cols]; [congruence|].
  split; intros Hs; unfold Operations.fill_nulls, dict_get_default;
    rewrite Hs; reflexivity.
Qed.

End OperationTheorems.

(* ===================================================================== *)
(** * Rows *)
(* ===================================================================== *)

Section RowFacts.

Lemma rows_of_length (cols : list (list Value)) (h : nat) :
  length (pl.rows_of cols h) = h.
Proof.
  revert cols. induction h as [|h IH]; intros cols; simpl; [reflexivity|].
  rewrite IH. reflexivity.
Qed.

Lemma keep_length {A : Type} (mask : list bool) (l : list A) :
  length l = length mask -> length (pl.keep mask l) = length (pl.keep mask mask).
Proof.
  revert l. induction mask as [|b mask IH]; intros [|x l]; simpl; intros Hl;
    try reflexivity; try discriminate.
  injection Hl as Hl. destruct b; simpl; rewrite (IH l Hl); reflexivity.
Qed.

Lemma keep_columns_true (mask : list bool) (cols : list (list Value)) :
  Forall (fun col => length col = S (length mask)) cols ->
  map (hd VNull) (map (pl.keep (true :: mask)) cols) = map (hd VNull) cols /\
  map (@tl Value) (map (pl.keep (true :: mask)) cols) = map (pl.keep mask) (map (@tl Value) cols).
Proof.
  induction 1 as [|col cols Hcol _ [IH1 IH2]]; [split; reflexivity|].
  destruct col as [|v col]; [discriminate|].
  cbn [map]. rewrite IH1, IH2. split; reflexivity.
Qed.

Lemma keep_columns_false (mask : list bool) (cols : list (list Value)) :
  Forall (fun col => length col = S (length mask)) cols ->
  map (pl.keep (false :: mask)) cols = map (pl.keep mask) (map (@tl Value) cols).
Proof.
  induction 1 as [|col cols Hcol _ IH]; [reflexivity|].
  destruct col as [|v col]; [discriminate|].
  cbn [map]. rewrite IH. reflexivity.
Qed.

Lemma Forall_length_tl (n : nat) (cols : list (list Value)) :
  Forall (fun col => length col = S n) cols ->
  Forall (fun col => length col = n) (map (@tl Value) cols).
Proof.
  induction 1 as [|col cols Hcol _ IH]; simpl; constructor; [|exact IH].
  destruct col; [discriminate|]. simpl in *. lia.
Qed.

(** Masking every column masks the rows. *)
Lemma rows_of_keep (mask : list bool) :
  forall cols,
    Forall (fun col => length col = length mask) cols ->
    pl.rows_of (map (pl.keep mask) cols) (length (pl.keep mask mask)) =
    pl.keep mask (pl.rows_of cols (length mask)).
Proof.
  induction mask as [|b mask IH]; intros cols Hcols; [reflexivity|].
  cbn [length] in Hcols. cbn [length pl.rows_of].
  pose proof (Forall_length_tl _ _ Hcols) as Htl.
  destruct b.
  - change (pl.keep (true :: mask) (true :: mask)) with (true :: pl.keep mask mask).
    cbn [length pl.rows_of].
    destruct (keep_columns_true mask cols Hcols) as [-> ->].
    rewrite (IH _ Htl). reflexivity.
  - change (pl.keep (false :: mask) (false :: mask)) with (pl.keep mask mask).
    rewrite (keep_columns_false mask cols Hcols).
    apply (IH _ Htl).
Qed.

Lemma rows_keep_rows (mask : list bool) (df : pl.DataFrame) :
  pl.rectangular df ->
  length mask = pl.height df ->
  pl.rows (pl.keep_rows mask df) = pl.keep mask (pl.rows df).
Proof.
  intros Hwf Hmask. unfold pl.rows.
  assert (Hv : map pl.values (pl.keep_rows mask df) = map (pl.keep mask) (map pl.values df)).
  { unfold pl.keep_rows. rewrite !map_map. reflexivity. }
  rewrite Hv. destruct df as [|s df].
  - simpl. rewrite keep_nil_r. reflexivity.
  - assert (Hh : pl.height (pl.keep_rows mask (s :: df)) = length (pl.keep mask mask)).
    { simpl. apply keep_length. simpl in Hmask. lia. }
    rewrite Hh, <- Hmask. apply rows_of_keep.
    rewrite Hmask. apply List.Forall_map. exact Hwf.
Qed.

Lemma first_occurrences_length (keys : list (list Value)) :
  forall seen, length (pl.first_occurrences seen keys) = length keys.
Proof.
  induction keys as [|k keys IH]; intros seen; simpl; [reflexivity|].
  destruct (bool_decide (k ∈ seen)); simpl; rewrite IH; reflexivity.
Qed.

(** The rows kept are the rows not seen before, each once. *)
Lemma first_occurrences_spec (keys : list (list Value)) :
  forall seen,
    let kept := pl.keep (pl.first_occurrences seen keys) keys in
    List.NoDup kept /\ (forall k, In k kept <-> In k keys /\ ~ In k seen).
Proof.
  induction keys as [|k0 keys IH]; intros seen; cbn zeta.
  - simpl. split; [constructor|]. intros k. tauto.
  - cbn [pl.first_occurrences]. destruct (bool_decide_reflect (k0 ∈ seen)) as [Hin|Hnin].
    + apply list_elem_of_In in Hin. cbn [pl.keep].
      destruct (IH seen) as [Hnd Hk]. split; [exact Hnd|].
      intros k. rewrite Hk. simpl. split; [tauto|].
      intros [[<-|Hin'] Hns]; tauto.
    + rewrite list_elem_of_In in Hnin. cbn [pl.keep].
      destruct (IH (k0 :: seen)) as [Hnd Hk]. split.
      * constructor; [|exact Hnd]. rewrite Hk. simpl. tauto.
      * intros k. simpl. rewrite Hk. simpl. split.
        -- intros [<-|[Hin' Hns]]; tauto.
        -- intros [[<-|Hin'] Hns]; [tauto|].
           destruct (decide (k0 = k)) as [->|Hne]; tauto.
Qed.

(** [unique] on all columns keeps each distinct row once. *)
Lemma unique_all_columns (df : pl.DataFrame) (maintain_order : bool) :
  exists df',
    pl.unique df None maintain_order = Ok df' /\
    pl.columns df' = pl.columns df /\
    (pl.rectangular df ->
     List.NoDup (pl.rows df') /\ forall r, In r (pl.rows df') <-> In r (pl.rows df)).
Proof.
  eexists. split; [reflexivity|]. split; [apply columns_keep_rows|].
  intros Hwf. fold (pl.rows df).
  rewrite rows_keep_rows;
    [|exact Hwf|rewrite first_occurrences_length; apply rows_of_length].
  destruct (first_occurrences_spec (pl.rows df) []) as [Hnd Hk].
  split; [exact Hnd|]. intros r. rewrite Hk. simpl. tauto.
Qed.

Lemma rows_of_app (h k : nat) :
  forall ps : list (list Value * list Value),
    Forall (fun p => length (fst p) = h) ps ->
    pl.rows_of (map (fun p => fst p ++ snd p)%list ps) (h + k) =
    (pl.rows_of (map fst ps) h ++ pl.rows_of (map snd ps) k)%list.
Proof.
  induction h as [|h IH]; intros ps Hps.
  - simpl. f_equal. induction Hps as [|[a b] ps Ha _ IHps]; simpl; [reflexivity|].
    simpl in Ha. destruct a; [|discriminate]. rewrite IHps. reflexivity.
  - cbn [Nat.add pl.rows_of app]. f_equal.
    + clear IH. induction Hps as [|[a b] ps Ha _ IHps]; simpl; [reflexivity|].
      simpl in Ha. destruct a; [discriminate|]. simpl. rewrite IHps. reflexivity.
    + set (ps' := map (fun p : list Value * list Value => (tl (fst p), snd p)) ps).
      assert (E1 : map (@tl Value) (map (fun p => fst p ++ snd p)%list ps) =
                   map (fun p => fst p ++ snd p)%list ps').
      { subst ps'. clear IH.
        induction Hps as [|[a b] ps Ha _ IHps]; [reflexivity|].
        simpl in Ha. destruct a; [discriminate|]. cbn [map fst snd tl app].
        rewrite IHps. reflexivity. }
      assert (E2 : map (@tl Value) (map fst ps) = map fst ps').
      { subst ps'. rewrite !map_map. reflexivity. }
      assert (E3 : map snd ps = map snd ps').
      { subst ps'. rewrite !map_map. reflexivity. }
      rewrite E1, E2, E3. apply IH.
      subst ps'. clear IH E1 E2 E3.
      induction Hps as [|[a b] ps Ha _ IHps]; simpl; constructor; [|exact IHps].
      simpl in *. destruct a; [discriminate|]. simpl in *. lia.
Qed.

(** Stacking a frame on itself lists its rows twice. *)
Lemma rows_vstack_self (df : pl.DataFrame) :
  pl.rectangular df ->
  pl.rows (pl.vstack df df) = (pl.rows df ++ pl.rows df)%list.
Proof.
  intros Hwf. unfold pl.rows.
  assert (Hv : map pl.values (pl.vstack df df) =
               map (fun p => fst p ++ snd p)%list
                   (map (fun s => (pl.values s, pl.values s)) df)).
  { clear. induction df as [|s df IH]; simpl; [reflexivity|]. rewrite IH. reflexivity. }
  assert (Hh : pl.height (pl.vstack df df) = (pl.height df + pl.height df)%nat).
  { destruct df as [|s df]; simpl; [reflexivity|]. apply length_app. }
  rewrite Hv, Hh, rows_of_app.
  - rewrite !map_map. cbn [fst snd]. reflexivity.
  - apply List.Forall_map. exact Hwf.
Qed.

End RowFacts.

(* ===================================================================== *)
(** * The registry *)
(* ===================================================================== *)

Section RegistryTheorems.
Context `{pl.Kernels}.

(** The registry has exactly these eleven entries. *)
Lemma OPERATIONS_entries (nm : string) (op : Operations.Operation) :
  Operations.OPERATIONS !! nm = Some op ->
  In (nm, op)
     [("drop_nulls", Operations.drop_nulls);
      ("fill_nulls", Operations.fill_nulls);
      ("drop_duplicates", Operations.drop_duplicates);
      ("trim_whitespace", Operations.trim_whitespace);
      ("lowercase", Operations.lowercase);
      ("uppercase", Operations.uppercase);
      ("replace", Operations.replace);
      ("cast_type", Operations.cast_type);
      ("filter", Operations.filter_rows);
      ("remove_outliers", Operations.remove_outliers);
      ("standardize", Operations.standardize)].
Proof.
  unfold Operations.OPERATIONS. cbn [list_to_map foldr fst snd].
  intros Hop.
  repeat (apply lookup_insert_Some in Hop as [[<- <-]|[_ Hop]];
          [simpl; tauto|]).
  rewrite lookup_empty in Hop. discriminate.
Qed.

(** The one member of the enumeration without an entry is [validate]. *)
Lemma OPERATIONS_lookup_value (op : CleaningOperation) :
  Operations.OPERATIONS !! value op = None <-> op = VALIDATE.
Proof.
  split.
  - destruct op; try reflexivity; intros Hn; vm_compute in Hn; discriminate.
  - intros ->. reflexivity.
Qed.

(** C8. Every operation of the registry, applied with an empty resolved
    column list, returns the frame it was given, except drop-duplicates,
    which then removes duplicate rows compared on all columns: the columns
    stay, and each row of the frame is kept exactly once. *)
Theorem empty_column_list_is_noop (nm : string) (op : Operations.Operation) :
  Operations.OPERATIONS !! nm = Some op ->
  forall (df : pl.DataFrame) (params : gmap string PyObj),
    (nm <> "drop_duplicates" -> op df [] params = Ok df) /\
    (nm = "drop_duplicates" ->
     exists df',
       op df [] params = Ok df' /\
       pl.columns df' = pl.columns df /\
       (pl.rectangular df ->
        List.NoDup (pl.rows df') /\
        forall r, In r (pl.rows df') <-> In r (pl.rows df))).
Proof.
  intros Hop df params. apply OPERATIONS_entries in Hop. simpl in Hop.
  destruct Hop as [Hop|[Hop|[Hop|Hop]]];
    [injection Hop as <- <-; split; [intros _; reflexivity|intros Hnm; discriminate Hnm]..
    |injection Hop as <- <-|].
  - split; [intros Hnm; congruence|intros _; apply (unique_all_columns df false)].
  - repeat (destruct Hop as [Hop|Hop];
            [injection Hop as <- <-;
             split; [intros _; reflexivity|intros Hnm; discriminate Hnm]|]).
    destruct Hop.
Qed.

End RegistryTheorems.

(* ===================================================================== *)
(** * The pipeline *)
(* ===================================================================== *)

Section EngineTheorems.
Context `{Re.Compiler} `{pl.Kernels} `{Validation.SchemaEngine}.

Lemma apply_rules_app (l1 l2 : list CleaningRule) :
  forall df,
    Engine.apply_rules (l1 ++ l2)%list df =
    bind (Engine.apply_rules l1 df) (Engine.apply_rules l2).
Proof.
  induction l1 as [|r l1 IH]; intros df; simpl; [reflexivity|].
  destruct (negb (enabled r)); [apply IH|].
  destruct (Engine._apply_rule df r); simpl; [apply IH|reflexivity].
Qed.

(** Only the enabled rules take part in a run. *)
Lemma apply_rules_enabled (rs : list CleaningRule) :
  forall df, Engine.apply_rules rs df = Engine.apply_rules (List.filter enabled rs) df.
Proof.
  induction rs as [|r rs IH]; intros df; [reflexivity|].
  cbn [Engine.apply_rules List.filter].
  destruct (enabled r) eqn:Hr; cbn [negb Engine.apply_rules]; [|apply IH].
  rewrite Hr. cbn [negb].
  destruct (Engine._apply_rule df r); simpl; [apply IH|reflexivity].
Qed.

(** Dispatch on an operation without registry entry fails at once, before
    any column is resolved. *)
Lemma _apply_rule_unknown (df : pl.DataFrame) (r : CleaningRule) :
  Operations.OPERATIONS !! value (operation r) = None ->
  Engine._apply_rule df r = Err (ValueError ("Unknown operation: " ++ value (operation r))).
Proof.
  intros Hop. unfold Engine._apply_rule, Operations.Operation in *.
  rewrite Hop. reflexivity.
Qed.

(** C3. A rule whose [enabled] flag is false is as good as absent: the
    configuration constructed from a rule list containing it and the one
    constructed from the list without it give the same outcome of [clean]
    on every frame, and so do a configuration holding the rule and that
    configuration with the rule taken out of its rules; the rule's
    operation is not looked up and its selector is not resolved. *)
Theorem disabled_rule_is_as_removed (l1 l2 : list CleaningRule) (r : CleaningRule)
    (st : option Storage.DuckDBStorage) (df : pl.DataFrame)
    (validate_input validate_output : bool) :
  enabled r = false ->
  (forall (ver nm : string) (descr : option string) (ic oc : option DataContract)
          (obs : gmap string PyObj),
     Engine.clean
       (Engine.mkCleaningEngine
          (Some (RuleConfig_new ver nm descr ic oc (l1 ++ r :: l2) obs)) st)
       df validate_input validate_output =
     Engine.clean
       (Engine.mkCleaningEngine
          (Some (RuleConfig_new ver nm descr ic oc (l1 ++ l2) obs)) st)
       df validate_input validate_output) /\
  (forall cfg : RuleConfig,
     rules cfg = (l1 ++ r :: l2)%list ->
     Engine.clean (Engine.mkCleaningEngine (Some cfg) st)
       df validate_input validate_output =
     Engine.clean (Engine.mkCleaningEngine (Some (Spec.with_rules cfg (l1 ++ l2))) st)
       df validate_input validate_output).
Proof.
  intros Hr.
  assert (Hf : List.filter enabled (l1 ++ r :: l2) = List.filter enabled (l1 ++ l2)).
  { rewrite !List.filter_app. simpl. rewrite Hr. reflexivity. }
  split.
  - intros ver nm descr ic oc obs.
    unfold Engine.clean, RuleConfig_new, sort_rules_by_order. cbn.
    destruct (if validate_input && truthy ic
              then Validation.validate df ic "input" else Ok df) as [df1|e];
      [|reflexivity].
    cbn.
    rewrite (apply_rules_enabled (sorted order (l1 ++ r :: l2))).
    rewrite (apply_rules_enabled (sorted order (l1 ++ l2))).
    rewrite !filter_sorted, Hf. reflexivity.
  - intros cfg Hrules. unfold Engine.clean, Spec.with_rules. cbn. rewrite Hrules.
    destruct (if validate_input && truthy (input_contract cfg)
              then Validation.validate df (input_contract cfg) "input" else Ok df)
      as [df1|e]; [|reflexivity].
    cbn.
    rewrite (apply_rules_enabled (l1 ++ r :: l2)).
    rewrite (apply_rules_enabled (l1 ++ l2)). rewrite Hf. reflexivity.
Qed.


End EngineTheorems.

(* ===================================================================== *)
(** * The table store *)
(* ===================================================================== *)


(* ===================================================================== *)
(** * Worked instances *)
(* ===================================================================== *)

Section WorkedInstances.
#[local] Existing Instance Examples.kernels.
#[local] Existing Instance Examples.compiler.
#[local] Existing Instance Examples.schema_engine.

(** The cast of the repository's test, with a value that is no number. *)
Lemma cast_type_maps_names_and_passes_strict_witness :
  let df := [pl.mkSeries "numbers" pl.Utf8 [VStr "1"; VStr "2"; VStr "x"]] in
  let params : gmap string PyObj := <["dtype" := Scalar (VStr "int")]> ∅ in
  ["numbers"] <> [] /\
  params !! "dtype" = Some (Scalar (VStr "int")) /\
  In ("int", pl.Int64)
     [("int", pl.Int64); ("float", pl.Float64); ("str", pl.Utf8);
      ("bool", pl.Boolean); ("date", pl.Date); ("datetime", pl.Datetime)] /\
  Operations.cast_type df ["numbers"] params =
    pl.with_columns df [pl.cast (pl.col "numbers") (pl.Native pl.Int64) false] /\
  Operations.cast_type df ["numbers"] params =
    Ok [pl.mkSeries "numbers" pl.Int64 [VInt 1; VInt 2; VNull]] /\
  is_ok (Operations.cast_type df ["numbers"]
           (<["strict" := Scalar (VBool true)]> params)) = false.
Proof.
  intros df params.
  assert (H1 : ["numbers"] <> []) by discriminate.
  assert (H2 : params !! "dtype" = Some (Scalar (VStr "int"))) by reflexivity.
  assert (H3 : In ("int", pl.Int64)
                 [("int", pl.Int64); ("float", pl.Float64); ("str", pl.Utf8);
                  ("bool", pl.Boolean); ("date", pl.Date); ("datetime", pl.Datetime)])
    by (left; reflexivity).
  destruct (cast_type_maps_names_and_passes_strict df ["numbers"] params "int" pl.Int64
              H1 H2 H3) as [Hcast _].
  split; [exact H1|]. split; [exact H2|]. split; [exact H3|].
  split; [exact Hcast|]. split; [rewrite Hcast|]; reflexivity.
Defined.

(** C4, as stated, fails: exact-value replace, one of the string
    operations, changes what a listed integer column holds. *)
Lemma replace_exact_value_changes_integer_column :
  let df := [pl.mkSeries "n" pl.Int64 [VInt 1; VInt 3]] in
  let params : gmap string PyObj :=
    <["value" := Scalar (VInt 1)]> (<["replacement" := Scalar (VInt 2)]> ∅) in
  Spec.not_string df "n" /\
  Operations.replace df ["n"] params = Ok [pl.mkSeries "n" pl.Int64 [VInt 2; VInt 3]].
Proof.
  split; [|reflexivity].
  eexists. split; [reflexivity|discriminate].
Qed.

Lemma incompatible_columns_are_skipped_witness :
  let df := [pl.mkSeries "name" pl.Utf8 [VStr "  Alice  "; VNull];
             pl.mkSeries "age" pl.Int64 [VInt 25; VInt 30]] in
  Spec.not_string df "age" /\
  Operations.lowercase df ["name"; "age"] ∅ = Operations.lowercase df ["name"] ∅ /\
  Operations.lowercase df ["name"; "age"] ∅ =
    Ok [pl.mkSeries "name" pl.Utf8 [VStr "  alice  "; VNull];
        pl.mkSeries "age" pl.Int64 [VInt 25; VInt 30]] /\
  Operations.uppercase df ["age"] ∅ = Ok df.
Proof.
  intros df.
  assert (Hage : Spec.not_string df "age").
  { eexists. split; [reflexivity|discriminate]. }
  destruct (incompatible_columns_are_skipped df ∅) as (Hstr & _ & Hall & _ & _).
  destruct (Hstr "age" Hage) as [Hops _].
  destruct (Hops Operations.lowercase ltac:(right; left; reflexivity)) as [Hskip _].
  split; [exact Hage|]. split; [exact (Hskip ["name"] [])|].
  split; [reflexivity|].
  destruct (Hall ["age"] ltac:(repeat constructor; exact Hage)) as [Hnone _].
  exact (Hnone Operations.uppercase ltac:(right; right; left; reflexivity)).
Defined.

Lemma empty_column_list_is_noop_witness :
  let df := [pl.mkSeries "a" pl.Int64 [VInt 1; VInt 2; VInt 2];
             pl.mkSeries "b" pl.Utf8 [VStr "x"; VStr "y"; VStr "y"]] in
  Operations.OPERATIONS !! "lowercase" = Some Operations.lowercase /\
  Operations.lowercase df [] ∅ = Ok df /\
  Operations.OPERATIONS !! "drop_duplicates" = Some Operations.drop_duplicates /\
  exists df',
    Operations.drop_duplicates df [] ∅ = Ok df' /\
    pl.columns df' = ["a"; "b"] /\
    List.NoDup (pl.rows df') /\
    forall r, In r (pl.rows df') <-> In r (pl.rows df).
Proof.
  intros df.
  assert (H1 : Operations.OPERATIONS !! "lowercase" = Some Operations.lowercase)
    by reflexivity.
  assert (H2 : Operations.OPERATIONS !! "drop_duplicates" = Some Operations.drop_duplicates)
    by reflexivity.
  split; [exact H1|]. split.
  - apply (empty_column_list_is_noop "lowercase" Operations.lowercase H1 df ∅).
    discriminate.
  - split; [exact H2|].
    destruct (empty_column_list_is_noop "drop_duplicates" Operations.drop_duplicates H2 df ∅)
      as [_ Hdd].
    destruct (Hdd eq_refl) as (df' & Hop & Hcols & Hrows).
    exists df'. split; [exact Hop|]. split; [exact Hcols|].
    apply Hrows. repeat constructor.
Defined.

(** The disabled rule of the repository's test. *)
Lemma disabled_rule_is_as_removed_witness :
  let df := [pl.mkSeries "text" pl.Utf8 [VStr "HELLO"]] in
  let r := mkCleaningRule "lowercase" LOWERCASE
             (mkColumnSelector (Some ["text"]) None false) ∅ false 0 in
  enabled r = false /\
  Engine.clean (Examples.engine [r]) df false false =
  Engine.clean (Examples.engine []) df false false /\
  Engine.clean (Examples.engine [r]) df false false = Ok df.
Proof.
  intros df r.
  assert (Hr : enabled r = false) by reflexivity.
  destruct (disabled_rule_is_as_removed [] [] r None df false false Hr) as [Hclean _].
  split; [exact Hr|].
  split; [exact (Hclean "1.0" "example" None None None default_observability)
         |reflexivity].
Defined.




(** ** The repository's tests, on the example engine *)

Example test_column_selector_pattern :
  Engine.clean
    (Examples.engine
       [Examples.rule "lowercase_cols" LOWERCASE (mkColumnSelector None (Some "col_\d+") false)])
    [pl.mkSeries "col_1" pl.Utf8 [VStr "A"]; pl.mkSeries "col_2" pl.Utf8 [VStr "B"];
     pl.mkSeries "other" pl.Utf8 [VStr "C"]] false false
  = Ok [pl.mkSeries "col_1" pl.Utf8 [VStr "a"]; pl.mkSeries "col_2" pl.Utf8 [VStr "b"];
        pl.mkSeries "other" pl.Utf8 [VStr "C"]].
Proof. reflexivity. Qed.

Example test_rule_order :
  Engine.clean
    (Examples.engine
       [mkCleaningRule "trim" TRIM_WHITESPACE (mkColumnSelector (Some ["text"]) None false)
          ∅ true 1;
        mkCleaningRule "lowercase" LOWERCASE (mkColumnSelector (Some ["text"]) None false)
          ∅ true 0])
    [pl.mkSeries "text" pl.Utf8 [VStr "  HELLO  "]] false false
  = Ok [pl.mkSeries "text" pl.Utf8 [VStr "hello"]].
Proof. reflexivity. Qed.

Example test_drop_nulls_operation :
  Engine.clean
    (Examples.engine
       [Examples.rule "drop_nulls" DROP_NULLS (mkColumnSelector (Some ["a"]) None false)])
    [pl.mkSeries "a" pl.Int64 [VInt 1; VInt 2; VNull; VInt 4];
     pl.mkSeries "b" pl.Int64 [VInt 5; VNull; VInt 7; VInt 8]] false false
  = Ok [pl.mkSeries "a" pl.Int64 [VInt 1; VInt 2; VInt 4];
        pl.mkSeries "b" pl.Int64 [VInt 5; VNull; VInt 8]].
Proof. reflexivity. Qed.

Example test_drop_duplicates_operation :
  Engine.clean
    (Examples.engine
       [Examples.rule "drop_dupes" DROP_DUPLICATES (mkColumnSelector (Some ["a"]) None false)])
    [pl.mkSeries "a" pl.Int64 [VInt 1; VInt 2; VInt 2; VInt 3; VInt 3];
     pl.mkSeries "b" pl.Int64 [VInt 4; VInt 5; VInt 5; VInt 6; VInt 7]] false false
  = Ok [pl.mkSeries "a" pl.Int64 [VInt 1; VInt 2; VInt 3];
        pl.mkSeries "b" pl.Int64 [VInt 4; VInt 5; VInt 6]].
Proof. reflexivity. Qed.

Example test_replace_operation :
  Engine.clean
    (Examples.engine
       [mkCleaningRule "replace_hello" REPLACE (mkColumnSelector (Some ["text"]) None false)
          (<["value" := Scalar (VStr "hello")]> (<["replacement" := Scalar (VStr "hi")]> ∅))
          true 0])
    [pl.mkSeries "text" pl.Utf8 [VStr "hello"; VStr "world"; VStr "hello"; VStr "test"]]
    false false
  = Ok [pl.mkSeries "text" pl.Utf8 [VStr "hi"; VStr "world"; VStr "hi"; VStr "test"]].
Proof. reflexivity. Qed.

Example test_cast_type_operation :
  Engine.clean
    (Examples.engine
       [mkCleaningRule "cast_to_int" CAST_TYPE (mkColumnSelector (Some ["numbers"]) None false)
          (<["dtype" := Scalar (VStr "int")]> ∅) true 0])
    [pl.mkSeries "numbers" pl.Utf8 [VStr "1"; VStr "2"; VStr "3"; VStr "4"]] false false
  = Ok [pl.mkSeries "numbers" pl.Int64 [VInt 1; VInt 2; VInt 3; VInt 4]].
Proof. reflexivity. Qed.

Example test_save_replace_and_fail_mode :
  let sample := [pl.mkSeries "id" pl.Int64 [VInt 1; VInt 2]] in
  let new := [pl.mkSeries "id" pl.Int64 [VInt 10]] in
  let storage := Storage.connect (Storage.DuckDBStorage_new None) ∅ in
  (let* s1 := Storage.save_dataframe storage sample "test_table" "replace" in
   let* s2 := Storage.save_dataframe s1 new "test_table" "replace" in
   Storage.load_dataframe s2 "test_table" None) = Ok new /\
  (let* s1 := Storage.save_dataframe storage sample "test_table" "replace" in
   Storage.save_dataframe s1 sample "test_table" "fail")
    = Err (ValueError "Table test_table already exists") /\
  Storage.save_dataframe (Storage.DuckDBStorage_new None) sample "test" "replace"
    = Err (RuntimeError "Not connected to database. Call connect() first.").
Proof. repeat split; reflexivity. Qed.

End WorkedInstances.

(* ===================================================================== *)
(** * Further properties: column resolution and the operations *)
(* ===================================================================== *)

Section ResolutionInvariant.
Context `{Re.Compiler}.

Lemma has_column_In (df : pl.DataFrame) (c : string) :
  pl.has_column df c = true <-> In c (pl.columns df).
Proof.
  unfold pl.has_column. rewrite existsb_exists. split.
  - intros (x & Hx & Heq). apply String.eqb_eq in Heq. now subst.
  - intros Hin. exists c. split; [exact Hin|apply String.eqb_refl].
Qed.

Lemma get_column_In (df : pl.DataFrame) (c : string) :
  In c (pl.columns df) -> exists s, pl.get_column df c = Ok s /\ pl.name s = c /\ In s df.
Proof.
  induction df as [|s df IH]; simpl; [tauto|].
  intros Hin. destruct (String.eqb (pl.name s) c) eqn:Hs.
  - apply String.eqb_eq in Hs. exists s. auto.
  - apply String.eqb_neq in Hs. destruct Hin as [Heq|Hin]; [congruence|].
    destruct (IH Hin) as (s' & H1 & H2 & H3). exists s'. auto.
Qed.

Lemma get_column_Ok (df : pl.DataFrame) (c : string) (s : pl.Series) :
  pl.get_column df c = Ok s -> pl.name s = c /\ In s df.
Proof.
  induction df as [|s' df IH]; simpl; [discriminate|].
  destruct (String.eqb (pl.name s') c) eqn:Hs.
  - intros Heq. injection Heq as <-. apply String.eqb_eq in Hs. auto.
  - intros Hg. destruct (IH Hg). auto.
Qed.


End ResolutionInvariant.

Section ShapeFacts.

Lemma keep_length_le {A : Type} (mask : list bool) (l : list A) :
  (length (pl.keep mask l) <= length l)%nat.
Proof.
  revert l. induction mask as [|b mask IH]; intros [|x l]; simpl; try lia.
  destruct b; simpl; specialize (IH l); lia.
Qed.

Lemma keep_length_eq {A B : Type} (mask : list bool) (l1 : list A) (l2 : list B) :
  length l1 = length l2 -> length (pl.keep mask l1) = length (pl.keep mask l2).
Proof.
  revert l1 l2. induction mask as [|b mask IH]; intros [|x l1] [|y l2]; simpl;
    intros Hl; try reflexivity; try discriminate.
  injection Hl as Hl. destruct b; simpl; rewrite (IH l1 l2 Hl); reflexivity.
Qed.

Lemma height_keep_rows (mask : list bool) (df : pl.DataFrame) :
  (pl.height (pl.keep_rows mask df) <= pl.height df)%nat.
Proof. destruct df as [|s df]; simpl; [lia|apply keep_length_le]. Qed.

Lemma rectangular_keep_rows (mask : list bool) (df : pl.DataFrame) :
  pl.rectangular df -> pl.rectangular (pl.keep_rows mask df).
Proof.
  unfold pl.rectangular. intros Hr. destruct df as [|s0 df]; [constructor|].
  unfold pl.keep_rows. apply List.Forall_map.
  eapply List.Forall_impl; [|exact Hr]. intros s Hs. cbn.
  apply keep_length_eq. exact Hs.
Qed.

Lemma columns_set_column (s : pl.Series) (df : pl.DataFrame) :
  In (pl.name s) (pl.columns df) ->
  pl.columns (pl.set_column s df) = pl.columns df.
Proof.
  unfold pl.columns. induction df as [|s' df IH]; simpl; [tauto|].
  intros Hin. destruct (String.eqb (pl.name s') (pl.name s)) eqn:Hs; simpl.
  - apply String.eqb_eq in Hs. rewrite Hs. reflexivity.
  - apply String.eqb_neq in Hs. destruct Hin as [Heq|Hin]; [congruence|].
    rewrite (IH Hin). reflexivity.
Qed.

Lemma height_set_column (s : pl.Series) (df : pl.DataFrame) :
  df <> [] -> length (pl.values s) = pl.height df ->
  pl.height (pl.set_column s df) = pl.height df.
Proof.
  destruct df as [|s' df]; [congruence|]. intros _ Hl. simpl.
  destruct (String.eqb (pl.name s') (pl.name s)); simpl; [exact Hl|reflexivity].
Qed.

Lemma Forall_set_column (P : pl.Series -> Prop) (s : pl.Series) (df : pl.DataFrame) :
  P s -> Forall P df -> Forall P (pl.set_column s df).
Proof.
  intros Hs. induction 1 as [|s' df Hs' Hdf IH]; simpl; [now repeat constructor|].
  destruct (String.eqb (pl.name s') (pl.name s)); constructor; auto.
Qed.

(** Putting columns of the frame's height under names the frame has changes
    neither the names nor the height, and keeps the frame rectangular. *)
Lemma fold_set_column_shape (cols : list pl.Series) :
  forall df,
    Forall (fun s => In (pl.name s) (pl.columns df) /\
                     length (pl.values s) = pl.height df) cols ->
    let df' := fold_left (fun d s => pl.set_column s d) cols df in
    pl.columns df' = pl.columns df /\
    pl.height df' = pl.height df /\
    (pl.rectangular df -> pl.rectangular df').
Proof.
  induction cols as [|s cols IH]; intros df Hall; cbn zeta; simpl.
  - auto.
  - inversion Hall as [|? ? [Hin Hlen] Hrest]; subst.
    assert (Hne : df <> []) by (intros ->; destruct Hin).
    pose proof (columns_set_column s df Hin) as Hc.
    pose proof (height_set_column s df Hne Hlen) as Hh.
    destruct (IH (pl.set_column s df)) as (Hc' & Hh' & Hr').
    { eapply List.Forall_impl; [|exact Hrest]. cbn. intros a [Ha1 Ha2].
      rewrite Hc, Hh. auto. }
    cbn zeta in *. rewrite Hc', Hh', Hc, Hh. repeat split.
    intros Hr. apply Hr'. unfold pl.rectangular in *. rewrite Hh.
    apply Forall_set_column; [exact Hlen|exact Hr].
Qed.

Lemma mapM_Forall2 {A B : Type} (f : A -> Result B) (l : list A) (ys : list B) :
  mapM f l = Ok ys -> Forall2 (fun x y => f x = Ok y) l ys.
Proof.
  revert ys. induction l as [|x l IH]; simpl; intros ys Hl.
  - injection Hl as <-. constructor.
  - destruct (f x) as [y|] eqn:Hx; simpl in Hl; [|discriminate].
    destruct (mapM f l) as [zs|]; simpl in Hl; [|discriminate].
    injection Hl as <-. constructor; auto.
Qed.

Context `{pl.Kernels}.

Lemma eval_reads_first (df : pl.DataFrame) (e : pl.Expr) :
  forall s c, pl.eval df e = Ok s -> Spec.reads_first e = Some c -> In c (pl.columns df).
Proof.
  induction e as [c0|v|f e IH|f e1 IH1 e2 IH2|e IH old new|e IH t st|e IH n];
    simpl; intros s c He Hr.
  - injection Hr as <-. destruct (get_column_Ok df c0 s He) as [<- Hin].
    unfold pl.columns. now apply in_map.
  - discriminate.
  - destruct (pl.eval df e) as [s'|]; simpl in He; [|discriminate]. eauto.
  - destruct (pl.eval df e1) as [s'|]; simpl in He; [|discriminate]. eauto.
  - destruct (pl.eval df e) as [s'|]; simpl in He; [|discriminate]. eauto.
  - destruct (pl.eval df e) as [s'|]; simpl in He; [|discriminate]. eauto.
  - eauto.
Qed.

Lemma broadcast_length (h : nat) (s s' : pl.Series) :
  pl.broadcast h s = Ok s' -> length (pl.values s') = h.
Proof.
  unfold pl.broadcast. destruct (Nat.eqb_spec (length (pl.values s)) h) as [Hl|Hl].
  - intros Heq. injection Heq as <-. exact Hl.
  - destruct (pl.values s) as [|v [|]]; try discriminate.
    intros Heq. injection Heq as <-. simpl. apply repeat_length.
Qed.

(** [with_columns] on expressions named after the column they read first
    keeps the names, the height and the rectangular shape of the frame. *)
Lemma with_columns_shape (df df' : pl.DataFrame) (exprs : list pl.Expr) :
  Forall (fun e => Spec.reads_first e = Some (pl.output_name e)) exprs ->
  pl.with_columns df exprs = Ok df' ->
  pl.columns df' = pl.columns df /\
  pl.height df' = pl.height df /\
  (pl.rectangular df -> pl.rectangular df').
Proof.
  unfold pl.with_columns. intros Hroot Hw.
  match type of Hw with bind ?m _ = _ => destruct m as [cols|] eqn:Hm end;
    simpl in Hw; [|discriminate].
  destruct (pl.first_duplicate _); [discriminate|]. injection Hw as <-.
  apply fold_set_column_shape.
  apply mapM_Forall2 in Hm. clear - Hm Hroot.
  induction Hm as [|e y exprs cols He _ IH]; [constructor|].
  inversion Hroot as [|? ? Hr Hrest]; subst. constructor; [|auto].
  simpl in He. destruct (pl.eval df e) as [s|] eqn:Hs; simpl in He; [|discriminate].
  destruct (pl.broadcast (pl.height df) s) as [s'|] eqn:Hb; simpl in He; [|discriminate].
  injection He as <-. cbn. split.
  - eapply eval_reads_first; eauto.
  - eapply broadcast_length; eauto.
Qed.

Lemma filter_shape (df df' : pl.DataFrame) (e : pl.Expr) :
  pl.filter df e = Ok df' ->
  pl.columns df' = pl.columns df /\
  (pl.height df' <= pl.height df)%nat /\
  (pl.rectangular df -> pl.rectangular df').
Proof.
  unfold pl.filter. intros Hf.
  destruct (pl.eval df e) as [s|]; simpl in Hf; [|discriminate].
  destruct (pl.broadcast (pl.height df) s) as [s'|]; simpl in Hf; [|discriminate].
  destruct (bool_decide (pl.dtype s' = pl.Boolean)); [|discriminate].
  injection Hf as <-. split; [apply columns_keep_rows|].
  split; [apply height_keep_rows|apply rectangular_keep_rows].
Qed.

Lemma remove_outliers_loop_shape (method threshold : PyObj) (cols : list string) :
  forall df df',
    Operations.remove_outliers_loop method threshold cols df = Ok df' ->
    pl.columns df' = pl.columns df /\
    (pl.height df' <= pl.height df)%nat /\
    (pl.rectangular df -> pl.rectangular df').
Proof.
  induction cols as [|c cols IH]; simpl; intros df df' Hl.
  - injection Hl as <-. auto.
  - destruct (Operations.remove_outliers_step method threshold df c) as [df1|] eqn:Hs;
      simpl in Hl; [|discriminate].
    destruct (IH df1 df' Hl) as (Hc & Hh & Hr).
    assert (Hstep : pl.columns df1 = pl.columns df /\
                    (pl.height df1 <= pl.height df)%nat /\
                    (pl.rectangular df -> pl.rectangular df1)).
    { clear - Hs. unfold Operations.remove_outliers_step in Hs.
      destruct (Operations.is_numeric df c) as [[]|]; simpl in Hs;
        [|injection Hs as <-; auto|discriminate].
      destruct (pl.get_column df c) as [s|]; simpl in Hs; [|discriminate].
      destruct (eq_str method "iqr").
      - repeat match type of Hs with
               | bind ?m _ = _ => destruct m; simpl in Hs; [|discriminate]
               end.
        eapply filter_shape; exact Hs.
      - destruct (eq_str method "zscore"); [|injection Hs as <-; auto].
        match type of Hs with
        | bind ?m _ = _ => destruct m as [[]|]; simpl in Hs; [| |discriminate]
        end; [|injection Hs as <-; auto].
        match type of Hs with
        | bind ?m _ = _ => destruct m; simpl in Hs; [|discriminate]
        end.
        eapply filter_shape; exact Hs. }
    destruct Hstep as (Hc1 & Hh1 & Hr1).
    rewrite Hc, Hc1. split; [reflexivity|]. split; [lia|auto].
Qed.

End ShapeFacts.

Section OperationShape.
Context `{pl.Kernels}.

Lemma mapped_expressions_shape (df df' : pl.DataFrame) (mk : string -> pl.Expr)
    (cs : list string) :
  (forall c, Spec.reads_first (mk c) = Some (pl.output_name (mk c))) ->
  pl.with_columns df (map mk cs) = Ok df' ->
  pl.columns df' = pl.columns df /\
  (pl.height df' <= pl.height df)%nat /\
  (pl.rectangular df -> pl.rectangular df') /\
  pl.height df' = pl.height df.
Proof.
  intros Hmk Hw.
  destruct (with_columns_shape df df' (map mk cs)) as (Hc & Hh & Hr).
  - apply List.Forall_map. apply List.Forall_forall. intros c _. apply Hmk.
  - exact Hw.
  - repeat split; auto. lia.
Qed.

Lemma keep_rows_shape (mask : list bool) (df : pl.DataFrame) :
  pl.columns (pl.keep_rows mask df) = pl.columns df /\
  (pl.height (pl.keep_rows mask df) <= pl.height df)%nat /\
  (pl.rectangular df -> pl.rectangular (pl.keep_rows mask df)).
Proof.
  split; [apply columns_keep_rows|].
  split; [apply height_keep_rows|apply rectangular_keep_rows].
Qed.

(** What each operation of the registry can do to the shape of a frame. *)
Lemma operation_shape (nm : string) (op : Operations.Operation) :
  Operations.OPERATIONS !! nm = Some op ->
  forall df cols params df',
    op df cols params = Ok df' ->
    pl.columns df' = pl.columns df /\
    (pl.height df' <= pl.height df)%nat /\
    (pl.rectangular df -> pl.rectangular df') /\
    (In nm Spec.expression_operations -> pl.height df' = pl.height df).
Proof.
  intros Hop df cols params df' Hrun.
  assert (Hid : pl.columns df = pl.columns df /\
                (pl.height df <= pl.height df)%nat /\
                (pl.rectangular df -> pl.rectangular df) /\
                (In nm Spec.expression_operations -> pl.height df = pl.height df))
    by (repeat split; auto).
  assert (Hrow : forall d : pl.DataFrame,
            ~ In nm Spec.expression_operations ->
            pl.columns d = pl.columns df /\
            (pl.height d <= pl.height df)%nat /\
            (pl.rectangular df -> pl.rectangular d) ->
            pl.columns d = pl.columns df /\
            (pl.height d <= pl.height df)%nat /\
            (pl.rectangular df -> pl.rectangular d) /\
            (In nm Spec.expression_operations -> pl.height d = pl.height df))
    by (intros d Hn (H1 & H2 & H3); repeat split; auto; tauto).
  assert (Hexp : forall d : pl.DataFrame,
            pl.columns d = pl.columns df /\
            (pl.height d <= pl.height df)%nat /\
            (pl.rectangular df -> pl.rectangular d) /\
            pl.height d = pl.height df ->
            pl.columns d = pl.columns df /\
            (pl.height d <= pl.height df)%nat /\
            (pl.rectangular df -> pl.rectangular d) /\
            (In nm Spec.expression_operations -> pl.height d = pl.height df))
    by (intros d (H1 & H2 & H3 & H4); repeat split; auto).
  apply OPERATIONS_entries in Hop. simpl in Hop.
  repeat (destruct Hop as [Hop|Hop]; [injection Hop as <- <-|]); [..|destruct Hop].
  - (* drop_nulls *)
    unfold Operations.drop_nulls in Hrun.
    destruct (negb (truthy cols)); [injection Hrun as <-; exact Hid|].
    unfold pl.drop_nulls in Hrun.
    destruct (pl.select df cols); simpl in Hrun; [|discriminate].
    injection Hrun as <-. apply Hrow; [|apply keep_rows_shape].
    unfold Spec.expression_operations. simpl. intuition discriminate.
  - (* fill_nulls *)
    unfold Operations.fill_nulls in Hrun.
    destruct (negb (truthy cols)); [injection Hrun as <-; exact Hid|].
    repeat match type of Hrun with
           | (if ?b then _ else _) = _ => destruct b
           end;
      try (injection Hrun as <-; exact Hid);
      (apply Hexp; eapply mapped_expressions_shape; [|exact Hrun]; reflexivity).
  - (* drop_duplicates *)
    unfold Operations.drop_duplicates, pl.unique in Hrun.
    destruct (negb (truthy cols)); simpl in Hrun.
    + injection Hrun as <-. apply Hrow; [|apply keep_rows_shape].
      unfold Spec.expression_operations. simpl. intuition discriminate.
    + destruct (pl.select df cols); simpl in Hrun; [|discriminate].
      injection Hrun as <-. apply Hrow; [|apply keep_rows_shape].
      unfold Spec.expression_operations. simpl. intuition discriminate.
  - (* trim_whitespace *)
    unfold Operations.trim_whitespace in Hrun.
    destruct (negb (truthy cols)); [injection Hrun as <-; exact Hid|].
    destruct (filterM _ cols); simpl in Hrun; [|discriminate].
    apply Hexp; eapply mapped_expressions_shape; [|exact Hrun]; reflexivity.
  - (* lowercase *)
    unfold Operations.lowercase in Hrun.
    destruct (negb (truthy cols)); [injection Hrun as <-; exact Hid|].
    destruct (filterM _ cols); simpl in Hrun; [|discriminate].
    apply Hexp; eapply mapped_expressions_shape; [|exact Hrun]; reflexivity.
  - (* uppercase *)
    unfold Operations.uppercase in Hrun.
    destruct (negb (truthy cols)); [injection Hrun as <-; exact Hid|].
    destruct (filterM _ cols); simpl in Hrun; [|discriminate].
    apply Hexp; eapply mapped_expressions_shape; [|exact Hrun]; reflexivity.
  - (* replace *)
    unfold Operations.replace in Hrun.
    destruct (negb (truthy cols)); [injection Hrun as <-; exact Hid|].
    destruct (negb (is_None (dict_get params "pattern")) && is_None (dict_get params "value")).
    + destruct (filterM _ cols); simpl in Hrun; [|discriminate].
      apply Hexp; eapply mapped_expressions_shape; [|exact Hrun]; reflexivity.
    + destruct (negb (is_None (dict_get params "value")));
        [|injection Hrun as <-; exact Hid].
      destruct (dict_get params "value"); [|discriminate].
      apply Hexp; eapply mapped_expressions_shape; [|exact Hrun]; reflexivity.
  - (* cast_type *)
    unfold Operations.cast_type in Hrun.
    destruct (negb (truthy cols)); [injection Hrun as <-; exact Hid|].
    destruct (negb (truthy (dict_get params "dtype"))); [injection Hrun as <-; exact Hid|].
    destruct (Operations.lookup_dtype _); simpl in Hrun; [|discriminate].
    apply Hexp; eapply mapped_expressions_shape; [|exact Hrun]; reflexivity.
  - (* filter *)
    assert (Hn : ~ In "filter" Spec.expression_operations)
      by (unfold Spec.expression_operations; simpl; intuition discriminate).
    unfold Operations.filter_rows in Hrun.
    destruct cols as [|c cols]; [injection Hrun as <-; exact Hid|].
    repeat match type of Hrun with
           | (if ?b then _ else _) = _ => destruct b
           end;
      try (injection Hrun as <-; exact Hid);
      (apply Hrow; [exact Hn|eapply filter_shape; exact Hrun]).
  - (* remove_outliers *)
    unfold Operations.remove_outliers in Hrun.
    destruct (negb (truthy cols)); [injection Hrun as <-; exact Hid|].
    apply Hrow; [|eapply remove_outliers_loop_shape; exact Hrun].
    unfold Spec.expression_operations. simpl. intuition discriminate.
  - (* standardize *)
    unfold Operations.standardize in Hrun.
    destruct (negb (truthy cols)); [injection Hrun as <-; exact Hid|].
    destruct (filterM _ cols); simpl in Hrun; [|discriminate].
    apply Hexp; eapply mapped_expressions_shape; [|exact Hrun]; reflexivity.
Qed.

(** No operation of the registry adds, drops, renames or reorders a column:
    a frame that comes out of one has the column names it went in with. *)
Theorem operations_keep_column_names (nm : string) (op : Operations.Operation)
    (df df' : pl.DataFrame) (cols : list string) (params : gmap string PyObj) :
  Operations.OPERATIONS !! nm = Some op ->
  op df cols params = Ok df' ->
  pl.columns df' = pl.columns df.
Proof.
  intros Hop Hrun. destruct (operation_shape nm op Hop df cols params df' Hrun). auto.
Qed.

(** No operation of the registry adds a row, the operations that compute
    column values (fill-nulls, the string operations, replace, cast-type,
    standardize) keep the number of rows, and a rectangular frame comes out
    rectangular. *)
Theorem operations_never_add_rows (nm : string) (op : Operations.Operation)
    (df df' : pl.DataFrame) (cols : list string) (params : gmap string PyObj) :
  Operations.OPERATIONS !! nm = Some op ->
  op df cols params = Ok df' ->
  (pl.height df' <= pl.height df)%nat /\
  (In nm Spec.expression_operations -> pl.height df' = pl.height df) /\
  (pl.rectangular df -> pl.rectangular df').
Proof.
  intros Hop Hrun.
  destruct (operation_shape nm op Hop df cols params df' Hrun) as (_ & H1 & H2 & H3).
  auto.
Qed.

End OperationShape.

Section ParameterEdges.
Context `{Re.Compiler} `{pl.Kernels} `{Validation.SchemaEngine}.

Lemma eq_str_false (o : PyObj) (s : string) : o <> Scalar (VStr s) -> eq_str o s = false.
Proof. intros Hne. unfold eq_str. now apply bool_decide_eq_false_2. Qed.

(** A parameter the operation does not recognise, or a required one that is
    missing, never raises: the operation returns the frame it was given.
    This holds for an unknown fill strategy and a value strategy without
    value, a missing or empty cast type, a filter without value or with an
    unknown operator, a replace with neither pattern nor value, and an
    unknown outlier method on columns of the frame. *)
Theorem unrecognised_parameters_are_ignored (df : pl.DataFrame) (cols : list string)
    (params : gmap string PyObj) :
  (let strategy := dict_get_default params "strategy" (Scalar (VStr "value")) in
   (~ In strategy [Scalar (VStr "value"); Scalar (VStr "forward");
                   Scalar (VStr "backward"); Scalar (VStr "mean");
                   Scalar (VStr "median")] \/
    (strategy = Scalar (VStr "value") /\ dict_get params "value" = None_)) ->
   Operations.fill_nulls df cols params = Ok df) /\
  (truthy (dict_get params "dtype") = false ->
   Operations.cast_type df cols params = Ok df) /\
  (let operator := dict_get_default params "operator" (Scalar (VStr "==")) in
   (dict_get params "value" = None_ \/
    ~ In operator [Scalar (VStr "=="); Scalar (VStr "!="); Scalar (VStr ">");
                   Scalar (VStr ">="); Scalar (VStr "<"); Scalar (VStr "<=");
                   Scalar (VStr "in")]) ->
   Operations.filter_rows df cols params = Ok df) /\
  (dict_get params "pattern" = None_ -> dict_get params "value" = None_ ->
   Operations.replace df cols params = Ok df) /\
  (let method := dict_get_default params "method" (Scalar (VStr "iqr")) in
   method <> Scalar (VStr "iqr") -> method <> Scalar (VStr "zscore") ->
   Forall (fun c => In c (pl.columns df)) cols ->
   Operations.remove_outliers df cols params = Ok df).
Proof.
  split; [|split; [|split; [|split]]].
  - cbn zeta. intros Hs. unfold Operations.fill_nulls.
    destruct (negb (truthy cols)); [reflexivity|].
    destruct Hs as [Hs|[Hs Hv]].
    + simpl in Hs.
      rewrite !eq_str_false by (intros Heq; rewrite Heq in Hs; tauto).
      reflexivity.
    + rewrite Hs, Hv. reflexivity.
  - intros Hd. unfold Operations.cast_type.
    destruct (negb (truthy cols)); [reflexivity|]. rewrite Hd. reflexivity.
  - cbn zeta. intros Hf. unfold Operations.filter_rows.
    destruct cols as [|c cols]; [reflexivity|].
    destruct Hf as [Hv|Ho].
    + rewrite Hv. reflexivity.
    + destruct (is_None (dict_get params "value")); [reflexivity|].
      simpl in Ho.
      rewrite !eq_str_false by (intros Heq; rewrite Heq in Ho; tauto).
      reflexivity.
  - intros Hp Hv. unfold Operations.replace.
    destruct (negb (truthy cols)); [reflexivity|]. rewrite Hp, Hv. reflexivity.
  - cbn zeta. intros Hm1 Hm2 Hcols. unfold Operations.remove_outliers.
    destruct (negb (truthy cols)); [reflexivity|].
    induction Hcols as [|c cols Hc _ IH]; [reflexivity|].
    cbn [Operations.remove_outliers_loop]. unfold Operations.remove_outliers_step at 1.
    destruct (get_column_In df c Hc) as (s & Hs & _ & _).
    unfold Operations.is_numeric. rewrite Hs. cbn [bind].
    rewrite !eq_str_false by assumption.
    destruct (negb _); exact IH.
Qed.

(** When an exact value is given, [replace] works in exact-value mode
    whether or not a pattern is given as well: the pattern is not used. *)
Theorem replace_value_takes_precedence (df : pl.DataFrame) (cols : list string)
    (params : gmap string PyObj) :
  dict_get params "value" <> None_ ->
  Operations.replace df cols params =
  Operations.replace df cols (delete "pattern" params).
Proof.
  intros Hv. unfold Operations.replace.
  assert (Hval : dict_get (delete "pattern" params) "value" = dict_get params "value").
  { unfold dict_get. rewrite lookup_delete_ne by discriminate. reflexivity. }
  assert (Hrep : dict_get_default (delete "pattern" params) "replacement" (Scalar (VStr ""))
                 = dict_get_default params "replacement" (Scalar (VStr ""))).
  { unfold dict_get_default. rewrite lookup_delete_ne by discriminate. reflexivity. }
  rewrite Hval, Hrep.
  assert (Hnone : is_None (dict_get params "value") = false).
  { unfold is_None. now apply bool_decide_eq_false_2. }
  rewrite Hnone, !andb_false_r. reflexivity.
Qed.

(** A filter rule looks at the first resolved column only: on a frame that
    has the first listed column, a filter rule over a name list does what
    the rule over that one name does, whatever else is listed. *)
Theorem filter_rule_uses_first_column (df : pl.DataFrame) (r : CleaningRule)
    (c : string) (rest : list string) :
  operation r = FILTER ->
  rule_columns r = mkColumnSelector (Some (c :: rest)) None false ->
  In c (pl.columns df) ->
  Engine._apply_rule df r =
  Engine._apply_rule df
    (mkCleaningRule (name r) FILTER (mkColumnSelector (Some [c]) None false)
       (parameters r) (enabled r) (order r)).
Proof.
  intros Hop Hsel Hc. unfold Engine._apply_rule. cbn [operation rule_columns parameters].
  rewrite Hop, Hsel.
  change (Operations.OPERATIONS !! value FILTER) with (Some Operations.filter_rows).
  cbn beta iota.
  unfold Operations.select_columns. cbn [all columns truthy truthy_bool truthy_option
                                          truthy_list from_option id].
  cbn [List.filter]. apply has_column_In in Hc. rewrite Hc. cbn [bind].
  destruct (_ || _); reflexivity.
Qed.

End ParameterEdges.

(* ===================================================================== *)
(** * Further properties: dropping rows *)
(* ===================================================================== *)

Section DropRows.

Lemma mapM_In {A B : Type} (f : A -> Result B) (l : list A) (ys : list B) (x : A) :
  mapM f l = Ok ys -> In x l -> exists y, f x = Ok y /\ In y ys.
Proof.
  revert ys. induction l as [|a l IH]; simpl; intros ys Hl Hin; [destruct Hin|].
  destruct (f a) as [b|] eqn:Ha; simpl in Hl; [|discriminate].
  destruct (mapM f l) as [zs|]; simpl in Hl; [|discriminate].
  injection Hl as <-. destruct Hin as [->|Hin].
  - exists b. simpl. auto.
  - destruct (IH zs eq_refl Hin) as (y & Hy & Hin'). exists y. simpl. auto.
Qed.

Lemma mapM_Ok_all {A B : Type} (f : A -> Result B) (l : list A) (ys : list B) (y : B) :
  mapM f l = Ok ys -> In y ys -> exists x, In x l /\ f x = Ok y.
Proof.
  revert ys. induction l as [|a l IH]; simpl; intros ys Hl Hin.
  - injection Hl as <-. destruct Hin.
  - destruct (f a) as [b|] eqn:Ha; simpl in Hl; [|discriminate].
    destruct (mapM f l) as [zs|]; simpl in Hl; [|discriminate].
    injection Hl as <-. destruct Hin as [<-|Hin]; [eauto|].
    destruct (IH zs eq_refl Hin) as (x & Hx & Hfx). eauto.
Qed.

(** The row test of [drop_nulls]. *)
#[local] Abbreviation no_null_in :=
  (forallb (fun v : Value => negb (bool_decide (v = VNull)))).

Lemma keep_no_null_rows (h : nat) :
  forall (cols : list (list Value)) (col : list Value),
    In col cols -> length col = h ->
    ~ In VNull (pl.keep (map no_null_in (pl.rows_of cols h)) col).
Proof.
  induction h as [|h IH]; intros cols col Hin Hlen.
  - destruct col; [|discriminate]. rewrite keep_nil_r. tauto.
  - destruct col as [|v t]; [discriminate|]. injection Hlen as Hlen.
    cbn [pl.rows_of map pl.keep].
    assert (Ht : In t (map (@tl Value) cols)) by (apply (in_map (@tl Value)) in Hin; exact Hin).
    specialize (IH _ t Ht Hlen).
    destruct (no_null_in (map (hd VNull) cols)) eqn:Hb; [|exact IH].
    intros [Hv|Hrest]; [|tauto].
    rewrite forallb_forall in Hb.
    specialize (Hb v (in_map (hd VNull) cols (v :: t) Hin)).
    subst v. rewrite bool_decide_eq_true_2 in Hb by reflexivity. discriminate.
Qed.

Lemma rows_of_no_null (h : nat) :
  forall cols : list (list Value),
    Forall (fun col => length col = h /\ ~ In VNull col) cols ->
    Forall (fun r => no_null_in r = true) (pl.rows_of cols h).
Proof.
  induction h as [|h IH]; intros cols Hcols; cbn [pl.rows_of]; constructor.
  - apply forallb_forall. intros v Hv. apply in_map_iff in Hv as (col & <- & Hcol).
    rewrite List.Forall_forall in Hcols. destruct (Hcols col Hcol) as [Hl Hn].
    destruct col as [|v t]; [discriminate|]. simpl.
    rewrite bool_decide_eq_false_2; [reflexivity|]. intros ->. apply Hn. now left.
  - apply IH. apply List.Forall_map. eapply List.Forall_impl; [|exact Hcols].
    intros col [Hl Hn]. destruct col as [|v t]; [discriminate|]. simpl in *.
    split; [lia|tauto].
Qed.

Lemma keep_all_true {A B : Type} (f : B -> bool) (l2 : list B) :
  Forall (fun x => f x = true) l2 ->
  forall l : list A, length l = length l2 -> pl.keep (map f l2) l = l.
Proof.
  induction 1 as [|x l2 Hx _ IH]; intros [|a l] Hl; try reflexivity; try discriminate.
  injection Hl as Hl. simpl. rewrite Hx, (IH l Hl). reflexivity.
Qed.

Lemma keep_rows_id (mask : list bool) (df : pl.DataFrame) :
  Forall (fun s => pl.keep mask (pl.values s) = pl.values s) df ->
  pl.keep_rows mask df = df.
Proof.
  induction 1 as [|s df Hs _ IH]; [reflexivity|].
  unfold pl.keep_rows in *. simpl. rewrite Hs, IH. destruct s; reflexivity.
Qed.

(** After [drop_nulls] the listed columns hold no null; when they held none
    to begin with the frame is returned as it is; hence dropping nulls a
    second time changes nothing. *)
Theorem drop_nulls_leaves_no_nulls (df : pl.DataFrame) (cols : list string)
    (params : gmap string PyObj) :
  pl.rectangular df ->
  (forall df', Operations.drop_nulls df cols params = Ok df' ->
     (forall c, In c cols ->
        exists s, pl.get_column df' c = Ok s /\ ~ In VNull (pl.values s)) /\
     (forall params', Operations.drop_nulls df' cols params' = Ok df')) /\
  ((forall c, In c cols ->
      exists s, pl.get_column df c = Ok s /\ ~ In VNull (pl.values s)) ->
   Operations.drop_nulls df cols params = Ok df).
Proof.
  intros Hrect.
  assert (Hfix : forall d : pl.DataFrame, pl.rectangular d ->
            (forall c, In c cols ->
               exists s, pl.get_column d c = Ok s /\ ~ In VNull (pl.values s)) ->
            forall p, Operations.drop_nulls d cols p = Ok d).
  { intros d Hd Hnn p. unfold Operations.drop_nulls.
    destruct (negb (truthy cols)); [reflexivity|].
    unfold pl.drop_nulls, pl.select.
    destruct (mapM (pl.get_column d) cols) as [sub|e] eqn:Hsub.
    - cbn [bind]. f_equal. apply keep_rows_id.
      assert (Hrows : Forall (fun r => no_null_in r = true)
                        (pl.rows_of (map pl.values sub) (pl.height d))).
      { apply rows_of_no_null. apply List.Forall_map. apply List.Forall_forall.
        intros s Hs. destruct (mapM_Ok_all _ _ _ s Hsub Hs) as (c & Hc & Hg).
        destruct (Hnn c Hc) as (s' & Hg' & Hn). rewrite Hg in Hg'. injection Hg' as <-.
        split; [|exact Hn].
        destruct (get_column_Ok d c s Hg) as [_ Hin].
        unfold pl.rectangular in Hd. rewrite List.Forall_forall in Hd. now apply Hd. }
      apply List.Forall_forall. intros s Hs. apply keep_all_true; [exact Hrows|].
      rewrite rows_of_length.
      unfold pl.rectangular in Hd. rewrite List.Forall_forall in Hd. now apply Hd.
    - exfalso. clear - Hsub Hnn.
      revert e Hsub. induction cols as [|c cols IH]; simpl; intros e Hsub; [discriminate|].
      destruct (Hnn c ltac:(left; reflexivity)) as (s & Hg & _). rewrite Hg in Hsub.
      simpl in Hsub.
      destruct (mapM (pl.get_column d) cols) as [ys|e'] eqn:Hm; simpl in Hsub;
        [discriminate|].
      eapply IH; [|reflexivity]. intros c' Hc'. apply Hnn. now right. }
  split; [|intros Hnn; now apply Hfix].
  intros df' Hrun.
  assert (Hpost : forall c, In c cols ->
            exists s, pl.get_column df' c = Ok s /\ ~ In VNull (pl.values s)).
  { intros c Hc. unfold Operations.drop_nulls in Hrun.
    destruct cols as [|c0 cols']; [destruct Hc|]. cbn [truthy truthy_list negb] in Hrun.
    unfold pl.drop_nulls, pl.select in Hrun.
    destruct (mapM (pl.get_column df) (c0 :: cols')) as [sub|] eqn:Hsub;
      simpl in Hrun; [|discriminate].
    injection Hrun as <-.
    destruct (mapM_In _ _ _ c Hsub Hc) as (s & Hg & Hs).
    rewrite get_column_keep_rows, Hg. cbn [bind]. eexists. split; [reflexivity|].
    cbn [pl.values]. apply keep_no_null_rows.
    - now apply in_map.
    - destruct (get_column_Ok df c s Hg) as [_ Hin].
      unfold pl.rectangular in Hrect. rewrite List.Forall_forall in Hrect.
      now apply Hrect. }
  split; [exact Hpost|].
  intros params'. apply Hfix; [|exact Hpost].
  unfold Operations.drop_nulls in Hrun.
  destruct (negb (truthy cols)); [injection Hrun as <-; exact Hrect|].
  unfold pl.drop_nulls in Hrun.
  destruct (pl.select df cols); simpl in Hrun; [|discriminate].
  injection Hrun as <-. now apply rectangular_keep_rows.
Qed.

End DropRows.

Section DropDuplicates.

Lemma mapM_ext_in {A B : Type} (f g : A -> Result B) (l : list A) :
  (forall x, In x l -> f x = g x) -> mapM f l = mapM g l.
Proof.
  induction l as [|x l IH]; simpl; intros Hfg; [reflexivity|].
  rewrite (Hfg x) by auto. rewrite IH by auto. reflexivity.
Qed.

Lemma select_all_columns (df : pl.DataFrame) :
  List.NoDup (pl.columns df) -> pl.select df (pl.columns df) = Ok df.
Proof.
  unfold pl.select, pl.columns. induction df as [|s df IH]; [reflexivity|].
  intros Hnd. inversion Hnd as [|? ? Hnin Hnd']; subst.
  cbn [map mapM pl.get_column]. rewrite String.eqb_refl. cbn [bind].
  rewrite (mapM_ext_in _ (pl.get_column df)).
  - rewrite (IH Hnd'). reflexivity.
  - intros c Hc. simpl. destruct (String.eqb_spec (pl.name s) c) as [Heq|_];
      [subst c; contradiction|reflexivity].
Qed.

Lemma select_keep_rows (mask : list bool) (df : pl.DataFrame) (cs : list string) :
  forall sub, pl.select df cs = Ok sub ->
    pl.select (pl.keep_rows mask df) cs = Ok (pl.keep_rows mask sub).
Proof.
  unfold pl.select. induction cs as [|c cs IH]; simpl; intros sub Hs.
  - injection Hs as <-. reflexivity.
  - rewrite get_column_keep_rows.
    destruct (pl.get_column df c) as [s|]; simpl in *; [|discriminate].
    destruct (mapM (pl.get_column df) cs) as [ys|]; simpl in Hs; [|discriminate].
    injection Hs as <-. rewrite (IH ys eq_refl). reflexivity.
Qed.

Lemma select_In (df : pl.DataFrame) (cs : list string) (sub : pl.DataFrame) :
  pl.select df cs = Ok sub -> forall s, In s sub -> In s df.
Proof.
  intros Hs s Hin. destruct (mapM_Ok_all _ _ _ s Hs Hin) as (c & _ & Hg).
  now destruct (get_column_Ok df c s Hg).
Qed.

Lemma first_occurrences_all_new (keys : list (list Value)) :
  forall seen,
    List.NoDup keys -> (forall k, In k keys -> ~ In k seen) ->
    pl.first_occurrences seen keys = map (fun _ => true) keys.
Proof.
  induction keys as [|k keys IH]; intros seen Hnd Hnew; [reflexivity|].
  inversion Hnd as [|? ? Hnin Hnd']; subst. cbn [pl.first_occurrences map].
  rewrite bool_decide_eq_false_2.
  - rewrite IH; [reflexivity|exact Hnd'|].
    intros k' Hk' [<-|Hs]; [contradiction|]. apply (Hnew k'); [now right|exact Hs].
  - rewrite list_elem_of_In. apply Hnew. now left.
Qed.

(** Running [unique] on its own result keeps every row. *)
Lemma unique_twice (df sub : pl.DataFrame) :
  pl.rectangular df -> df <> [] -> (forall s, In s sub -> In s df) ->
  let mask := pl.first_occurrences [] (pl.rows_of (map pl.values sub) (pl.height df)) in
  pl.keep_rows
    (pl.first_occurrences []
       (pl.rows_of (map pl.values (pl.keep_rows mask sub))
          (pl.height (pl.keep_rows mask df))))
    (pl.keep_rows mask df) = pl.keep_rows mask df.
Proof.
  intros Hrect Hne Hsub mask.
  set (keys := pl.rows_of (map pl.values sub) (pl.height df)) in *.
  assert (Hmask : length mask = pl.height df).
  { unfold mask. rewrite first_occurrences_length. apply rows_of_length. }
  assert (Hlen : forall s, In s df -> length (pl.values s) = pl.height df).
  { unfold pl.rectangular in Hrect. rewrite List.Forall_forall in Hrect. exact Hrect. }
  assert (Hh : pl.height (pl.keep_rows mask df) = length (pl.keep mask mask)).
  { destruct df as [|s0 df0]; [congruence|]. cbn [pl.keep_rows map pl.height pl.values].
    apply keep_length_eq. rewrite Hmask. apply Hlen. now left. }
  assert (Hkeys : pl.rows_of (map pl.values (pl.keep_rows mask sub))
                    (pl.height (pl.keep_rows mask df)) = pl.keep mask keys).
  { rewrite Hh. unfold pl.keep_rows. rewrite map_map. cbn [pl.values].
    rewrite <- (map_map pl.values (pl.keep mask)).
    unfold keys. rewrite <- Hmask. apply rows_of_keep.
    apply List.Forall_map. apply List.Forall_forall. intros s Hs.
    rewrite Hmask. apply Hlen. now apply Hsub. }
  rewrite Hkeys.
  destruct (first_occurrences_spec keys []) as [Hnd _]. fold mask in Hnd.
  rewrite first_occurrences_all_new; [|exact Hnd|intros k _ []].
  apply keep_rows_id. unfold pl.keep_rows. apply List.Forall_map.
  apply List.Forall_forall. intros s Hs. cbn [pl.values].
  apply keep_all_true; [apply List.Forall_forall; reflexivity|].
  apply keep_length_eq. unfold keys. rewrite rows_of_length. now apply Hlen.
Qed.


End DropDuplicates.

(* ===================================================================== *)
(** * Further properties: configurations *)
(* ===================================================================== *)

Section SortingMore.
Context {A : Type} (key : A -> Z).

Lemma sorted_of_sorted (l : list A) :
  StronglySorted (Spec.key_le key) l -> sorted key l = l.
Proof.
  induction 1 as [|x l Hl IH Hx]; [reflexivity|].
  cbn [sorted]. rewrite IH. now apply insert_by_key_front.
Qed.

Lemma insert_by_key_app (x : A) (l l2 : list A) :
  Forall (Spec.key_le key x) l2 ->
  insert_by_key key x (l ++ l2) = (insert_by_key key x l ++ l2)%list.
Proof.
  intros Hl2. induction l as [|y l IH]; simpl.
  - now apply insert_by_key_front.
  - destruct (key x <=? key y); [reflexivity|]. rewrite IH. reflexivity.
Qed.

(** Sorting a list whose first part holds no key above any key of the
    second part sorts the two parts separately. *)
Lemma sorted_app (l1 l2 : list A) :
  (forall a b, In a l1 -> In b l2 -> key a <= key b) ->
  sorted key (l1 ++ l2) = (sorted key l1 ++ sorted key l2)%list.
Proof.
  induction l1 as [|x l1 IH]; intros Hle; [reflexivity|].
  cbn [app sorted]. rewrite IH by (intros a b Ha Hb; apply Hle; [now right|exact Hb]).
  apply insert_by_key_app.
  eapply Permutation_Forall; [apply sorted_Permutation|].
  apply List.Forall_forall. intros b Hb. apply Hle; [now left|exact Hb].
Qed.

(** Two arrangements of the same elements, both in non-decreasing key
    order, coincide when no key occurs twice. *)
Lemma sorted_unique (l1 : list A) :
  forall l2,
    Permutation l1 l2 -> List.NoDup (map key l1) ->
    StronglySorted (Spec.key_le key) l1 -> StronglySorted (Spec.key_le key) l2 ->
    l1 = l2.
Proof.
  induction l1 as [|x l1 IH]; intros l2 Hp Hnd Hs1 Hs2.
  - apply Permutation_nil in Hp. now subst.
  - destruct l2 as [|y l2]; [apply Permutation_sym, Permutation_nil in Hp; discriminate|].
    inversion Hs1 as [|? ? Hs1' Hx]; subst. inversion Hs2 as [|? ? Hs2' Hy]; subst.
    inversion Hnd as [|? ? Hnin Hnd']; subst.
    assert (Hxy : x = y).
    { assert (Hyin : In y (x :: l1))
        by (eapply Permutation_in; [apply Permutation_sym, Hp|now left]).
      destruct Hyin as [Heq|Hyin]; [exact Heq|].
      assert (Hxin : In x (y :: l2)) by (eapply Permutation_in; [exact Hp|now left]).
      destruct Hxin as [Heq|Hxin]; [now symmetry|].
      rewrite List.Forall_forall in Hx, Hy.
      pose proof (Hx y Hyin) as H1. pose proof (Hy x Hxin) as H2.
      unfold Spec.key_le in H1, H2.
      exfalso. apply Hnin. replace (key x) with (key y) by lia. now apply in_map. }
    subst y. f_equal. apply IH; auto. now apply Permutation_cons_inv in Hp.
Qed.

End SortingMore.

Section ConfigurationTheorems.
Context `{Re.Compiler} `{pl.Kernels} `{Validation.SchemaEngine}.

(** When no two rules share an [order] value the order in which the rules
    are declared is immaterial: any rearrangement of the rule list gives
    the same configuration, and so the same outcome of [clean]. *)
Theorem declaration_order_is_immaterial (ver nm : string) (descr : option string)
    (ic oc : option DataContract) (rs rs' : list CleaningRule)
    (obs : gmap string PyObj) :
  Permutation rs rs' ->
  List.NoDup (map order rs) ->
  RuleConfig_new ver nm descr ic oc rs obs = RuleConfig_new ver nm descr ic oc rs' obs /\
  (forall st df vi vo,
     Engine.clean (Engine.mkCleaningEngine
                     (Some (RuleConfig_new ver nm descr ic oc rs obs)) st) df vi vo =
     Engine.clean (Engine.mkCleaningEngine
                     (Some (RuleConfig_new ver nm descr ic oc rs' obs)) st) df vi vo).
Proof.
  intros Hp Hnd.
  assert (Heq : sorted order rs = sorted order rs').
  { apply (sorted_unique order).
    - eapply perm_trans; [apply Permutation_sym, sorted_Permutation|].
      eapply perm_trans; [exact Hp|apply sorted_Permutation].
    - eapply Permutation_NoDup; [|exact Hnd].
      apply Permutation_map. apply sorted_Permutation.
    - apply sorted_StronglySorted.
    - apply sorted_StronglySorted. }
  assert (Hcfg : RuleConfig_new ver nm descr ic oc rs obs
                 = RuleConfig_new ver nm descr ic oc rs' obs).
  { unfold RuleConfig_new, sort_rules_by_order. rewrite Heq. reflexivity. }
  split; [exact Hcfg|]. intros st df vi vo. rewrite Hcfg. reflexivity.
Qed.

(** A pipeline can be cut in two: when no rule of the first part is
    ordered after a rule of the second, cleaning with all the rules is
    cleaning with the first part, which keeps the input contract, and then
    with the second, which keeps the output contract. *)
Theorem clean_in_two_stages (ver nm : string) (descr : option string)
    (ic oc : option DataContract) (rs1 rs2 : list CleaningRule)
    (obs : gmap string PyObj) (st : option Storage.DuckDBStorage)
    (df : pl.DataFrame) (vi vo : bool) :
  (forall r1 r2, In r1 rs1 -> In r2 rs2 -> order r1 <= order r2) ->
  Engine.clean
    (Engine.mkCleaningEngine
       (Some (RuleConfig_new ver nm descr ic oc (rs1 ++ rs2) obs)) st) df vi vo =
  bind
    (Engine.clean
       (Engine.mkCleaningEngine
          (Some (RuleConfig_new ver nm descr ic None rs1 obs)) st) df vi vo)
    (fun df1 =>
       Engine.clean
         (Engine.mkCleaningEngine
            (Some (RuleConfig_new ver nm descr None oc rs2 obs)) st) df1 vi vo).
Proof.
  intros Hle. unfold RuleConfig_new, sort_rules_by_order.
  rewrite (sorted_app order rs1 rs2 Hle). unfold Engine.clean.
  cbn -[Engine.apply_rules sorted app].
  rewrite !andb_false_r.
  destruct (if vi && truthy ic then Validation.validate df ic "input" else Ok df)
    as [d0|]; [|reflexivity].
  cbn -[Engine.apply_rules sorted app]. rewrite apply_rules_app.
  destruct (Engine.apply_rules (sorted order rs1) d0) as [d1|]; [|reflexivity].
  cbn -[Engine.apply_rules sorted app].
  destruct (Engine.apply_rules (sorted order rs2) d1) as [d2|]; reflexivity.
Qed.

End ConfigurationTheorems.

Section RoundTrip.

Lemma CleaningOperation_of_value_value (op : CleaningOperation) :
  CleaningOperation_of_value (value op) = Some op.
Proof. destruct op; reflexivity. Qed.

Lemma CleaningRule_dump_load (r : CleaningRule) :
  validate_selector (rule_columns r) = Ok (rule_columns r) ->
  CleaningRule_from_dict (CleaningRule_dump r) = Ok r.
Proof.
  intros Hsel. unfold CleaningRule_from_dict, CleaningRule_dump.
  cbn [rd_name rd_operation rd_columns rd_parameters rd_enabled rd_order].
  rewrite CleaningOperation_of_value_value.
  unfold ColumnSelector_from_dict, ColumnSelector_dump, ColumnSelector_new.
  cbn [sd_columns sd_pattern sd_all from_option id].
  replace (mkColumnSelector (columns (rule_columns r)) (pattern (rule_columns r))
             (all (rule_columns r))) with (rule_columns r)
    by (destruct (rule_columns r); reflexivity).
  rewrite Hsel. cbn. destruct r; reflexivity.
Qed.

Lemma RuleConfig_dump_load (cfg : RuleConfig) :
  StronglySorted (Spec.key_le order) (rules cfg) ->
  Forall (fun r => validate_selector (rule_columns r) = Ok (rule_columns r)) (rules cfg) ->
  RuleConfig_from_dict (model_dump cfg) = Ok cfg.
Proof.
  intros Hsorted Hsel. unfold RuleConfig_from_dict, model_dump.
  cbn [doc_name doc_rules doc_version doc_description doc_input_contract
       doc_output_contract doc_observability].
  assert (Hrules : mapM CleaningRule_from_dict (map CleaningRule_dump (rules cfg))
                   = Ok (rules cfg)).
  { induction Hsel as [|r rs Hr _ IH]; [reflexivity|].
    cbn [map mapM]. rewrite (CleaningRule_dump_load r Hr). cbn [bind].
    inversion Hsorted; subst. rewrite IH by assumption. reflexivity. }
  rewrite Hrules. cbn [bind from_option id]. f_equal.
  unfold RuleConfig_new, sort_rules_by_order.
  rewrite (sorted_of_sorted order (rules cfg) Hsorted).
  assert (Hc : forall c : option DataContract,
            DataContract_from_dict <$> (DataContract_dump <$> c) = c).
  { intros [[cols st co]|]; reflexivity. }
  rewrite !Hc. destruct cfg; reflexivity.
Qed.

(** Writing a constructed configuration out and constructing a
    configuration from what was written gives the configuration back,
    provided the selectors of its rules pass the construction check, as the
    selectors of constructed rules do. *)
Theorem model_dump_round_trip (ver nm : string) (descr : option string)
    (ic oc : option DataContract) (rs : list CleaningRule) (obs : gmap string PyObj) :
  Forall (fun r => validate_selector (rule_columns r) = Ok (rule_columns r)) rs ->
  let cfg := RuleConfig_new ver nm descr ic oc rs obs in
  RuleConfig_from_dict (model_dump cfg) = Ok cfg.
Proof.
  intros Hsel cfg. apply RuleConfig_dump_load.
  - apply sorted_StronglySorted.
  - cbn [rules cfg RuleConfig_new]. unfold sort_rules_by_order.
    apply List.Forall_forall. intros r Hr.
    rewrite List.Forall_forall in Hsel. apply Hsel.
    eapply Permutation_in; [|exact Hr].
    apply Permutation_sym, sorted_Permutation.
Qed.


End RoundTrip.

(* ===================================================================== *)
(** * Further properties: the table store *)
(* ===================================================================== *)

Section StorageTheorems.
Context `{Storage.SqlEngine}.

(** A storage that has been closed, whether or not it was ever connected,
    refuses every operation with the not-connected error, and closing it
    again changes nothing; a newly made storage is in that state. *)
Theorem closed_storage_refuses_everything (self : Storage.DuckDBStorage) :
  let closed := Storage.close self in
  let refused := RuntimeError "Not connected to database. Call connect() first." in
  (forall df t mode, Storage.save_dataframe closed df t mode = Err refused) /\
  (forall t limit, Storage.load_dataframe closed t limit = Err refused) /\
  (forall sql, Storage.query closed sql = Err refused) /\
  (forall sql, Storage.execute_sql closed sql = Err refused) /\
  Storage.list_tables closed = Err refused /\
  Storage.close closed = closed /\
  (forall path, Storage.close (Storage.DuckDBStorage_new path)
                = Storage.DuckDBStorage_new path) /\
  (forall db, Storage.__exit__ (Storage.__enter__ self db) = closed).
Proof.
  assert (Hc : Storage.connection (Storage.close self) = None).
  { unfold Storage.close. destruct self as [p [db|]]; reflexivity. }
  cbn zeta. repeat split.
  - intros df t mode. unfold Storage.save_dataframe. rewrite Hc. reflexivity.
  - intros t limit. unfold Storage.load_dataframe. rewrite Hc. reflexivity.
  - intros sql. unfold Storage.query. rewrite Hc. reflexivity.
  - intros sql. unfold Storage.execute_sql. rewrite Hc. reflexivity.
  - unfold Storage.list_tables. rewrite Hc. reflexivity.
  - destruct self as [p [db|]]; reflexivity.
  - intros db. destruct self as [p [db'|]]; reflexivity.
Qed.

Lemma save_replace_connection (self : Storage.DuckDBStorage)
    (db : gmap string pl.DataFrame) (df : pl.DataFrame) (t : string) :
  Storage.connection self = Some db ->
  Storage.save_dataframe self df t "replace"
  = Ok (Storage.mkDuckDBStorage (Storage.db_path self) (Some (<[t := df]> db))).
Proof.
  intros Hconn. unfold Storage.save_dataframe. rewrite Hconn.
  cbn [String.eqb Ascii.eqb Bool.eqb bind Storage.execute fst snd].
  rewrite lookup_delete_eq. cbn [bind fst snd String.eqb Ascii.eqb Bool.eqb].
  rewrite insert_delete_eq. reflexivity.
Qed.

Lemma load_dataframe_connection (self : Storage.DuckDBStorage)
    (db : gmap string pl.DataFrame) (t : string) (limit : option Z) :
  Storage.connection self = Some db ->
  Storage.load_dataframe self t limit =
  match db !! t with
  | None => Err (CatalogError "Table does not exist")
  | Some tbl =>
      Ok (match (if truthy (VInt (default 0 limit)) then limit else None) with
          | None => tbl
          | Some n =>
              map (fun s => pl.mkSeries (pl.name s) (pl.dtype s)
                              (firstn (Z.to_nat n) (pl.values s))) tbl
          end)
  end.
Proof.
  intros Hconn. unfold Storage.load_dataframe. rewrite Hconn.
  unfold Storage.execute. destruct (db !! t) as [tbl|] eqn:Ht; reflexivity.
Qed.


Lemma map_fst_combine_eq {A B : Type} (l1 : list A) (l2 : list B) :
  length l1 = length l2 -> map fst (combine l1 l2) = l1 /\ map snd (combine l1 l2) = l2.
Proof.
  revert l2. induction l1 as [|a l1 IH]; intros [|b l2] Hl; try discriminate;
    [split; reflexivity|].
  injection Hl as Hl. destruct (IH l2 Hl) as [H1 H2]. simpl. rewrite H1, H2.
  split; reflexivity.
Qed.

Lemma values_vstack (df1 df2 : pl.DataFrame) :
  length df1 = length df2 ->
  map pl.values (pl.vstack df1 df2) =
  map (fun p => fst p ++ snd p)%list (combine (map pl.values df1) (map pl.values df2)).
Proof.
  revert df2. induction df1 as [|s1 df1 IH]; intros [|s2 df2] Hl; try discriminate;
    [reflexivity|].
  injection Hl as Hl. simpl. rewrite (IH df2 Hl). reflexivity.
Qed.

Lemma rows_vstack (df1 df2 : pl.DataFrame) :
  length df1 = length df2 ->
  pl.rectangular df1 -> pl.rectangular df2 ->
  pl.rows (pl.vstack df1 df2) = (pl.rows df1 ++ pl.rows df2)%list.
Proof.
  intros Hl Hr1 Hr2. unfold pl.rows. rewrite (values_vstack df1 df2 Hl).
  assert (Hh : pl.height (pl.vstack df1 df2) = (pl.height df1 + pl.height df2)%nat).
  { destruct df1 as [|s1 df1], df2 as [|s2 df2]; try discriminate; [reflexivity|].
    simpl. apply length_app. }
  rewrite Hh, rows_of_app.
  - destruct (map_fst_combine_eq (map pl.values df1) (map pl.values df2)) as [H1 H2];
      [rewrite !length_map; exact Hl|].
    rewrite H1, H2. reflexivity.
  - unfold pl.rectangular in Hr1. clear - Hr1 Hl.
    assert (Hgen : forall h (a : pl.DataFrame) (b : pl.DataFrame),
              Forall (fun s => length (pl.values s) = h) a ->
              Forall (fun p : list Value * list Value => length (fst p) = h)
                     (combine (map pl.values a) (map pl.values b))).
    { intros h a. induction a as [|s a IH]; intros b Ha; [constructor|].
      destruct b as [|s' b]; [constructor|]. inversion Ha; subst.
      simpl. constructor; auto. }
    apply Hgen. exact Hr1.
Qed.


(** A table that exists is left as it is by every mode but replace and
    append: fail raises, and any other mode string reports success without
    storing the frame. *)
Theorem save_keeps_existing_table (self : Storage.DuckDBStorage)
    (db : gmap string pl.DataFrame) (tbl df : pl.DataFrame) (t mode : string) :
  Storage.connection self = Some db ->
  db !! t = Some tbl ->
  (Storage.save_dataframe self df t "fail"
     = Err (ValueError ("Table " ++ t ++ " already exists"))) /\
  (mode <> "replace" -> mode <> "append" -> mode <> "fail" ->
   Storage.save_dataframe self df t mode = Ok self /\
   Storage.load_dataframe self t None = Ok tbl).
Proof.
  intros Hconn Htbl.
  assert (Htbl' : @lookup string (list pl.Series) _ _ t db = Some tbl) by exact Htbl.
  split.
  - unfold Storage.save_dataframe. rewrite Hconn.
    cbn [String.eqb Ascii.eqb Bool.eqb bind Storage.execute fst snd].
    rewrite Htbl. reflexivity.
  - intros H1 H2 H3. split.
    + unfold Storage.save_dataframe. rewrite Hconn.
      apply String.eqb_neq in H1, H2, H3. rewrite H1, H2, H3.
      cbn [bind Storage.execute]. rewrite Htbl. cbn [bind fst snd].
      destruct self as [p c]. cbn in *. rewrite Hconn. reflexivity.
    + rewrite (load_dataframe_connection self db t None Hconn); first [rewrite Htbl | rewrite Htbl']. reflexivity.
Qed.

Lemma height_firstn (tbl : pl.DataFrame) (n : nat) :
  pl.rectangular tbl ->
  pl.height (map (fun s => pl.mkSeries (pl.name s) (pl.dtype s)
                             (firstn n (pl.values s))) tbl)
  = Nat.min n (pl.height tbl).
Proof.
  destruct tbl as [|s tbl]; intros _; [cbn; lia|].
  cbn. apply length_firstn.
Qed.

(** A row limit of zero is no limit: the whole table is loaded, as with no
    limit at all.  A positive limit keeps the columns, gives at most that
    many rows, and the whole table when it has no more rows than the limit. *)
Theorem load_dataframe_limit (self : Storage.DuckDBStorage)
    (db : gmap string pl.DataFrame) (tbl : pl.DataFrame) (t : string) (n : Z) :
  Storage.connection self = Some db ->
  db !! t = Some tbl ->
  Storage.load_dataframe self t (Some 0) = Ok tbl /\
  Storage.load_dataframe self t None = Ok tbl /\
  (0 < n ->
   exists df,
     Storage.load_dataframe self t (Some n) = Ok df /\
     pl.columns df = pl.columns tbl /\
     map pl.dtype df = map pl.dtype tbl /\
     (pl.rectangular tbl ->
      pl.height df = Nat.min (Z.to_nat n) (pl.height tbl) /\
      ((pl.height tbl <= Z.to_nat n)%nat -> df = tbl))).
Proof.
  intros Hconn Htbl.
  assert (Htbl' : @lookup string (list pl.Series) _ _ t db = Some tbl) by exact Htbl.
  split; [|split].
  - rewrite (load_dataframe_connection self db t (Some 0) Hconn); first [rewrite Htbl | rewrite Htbl']. reflexivity.
  - rewrite (load_dataframe_connection self db t None Hconn); first [rewrite Htbl | rewrite Htbl']. reflexivity.
  - intros Hn. eexists. split; [|split; [|split]].
    + rewrite (load_dataframe_connection self db t (Some n) Hconn); first [rewrite Htbl | rewrite Htbl'].
      assert (Ht : truthy (VInt (default 0 (Some n))) = true).
      { cbn. destruct (Z.eqb_spec n 0); [lia|reflexivity]. }
      rewrite Ht. reflexivity.
    + unfold pl.columns. rewrite map_map. reflexivity.
    + rewrite map_map. reflexivity.
    + intros Hrect. split; [apply height_firstn; exact Hrect|].
      intros Hh. unfold pl.rectangular in Hrect.
      assert (Hall : Forall (fun s => (length (pl.values s) <= Z.to_nat n)%nat) tbl).
      { eapply List.Forall_impl; [|exact Hrect]. intros s Hs. simpl in Hs. lia. }
      clear - Hall. induction Hall as [|s tbl Hs _ IH]; [reflexivity|].
      cbn [map fst snd]. cbn [map] in IH. rewrite IH.
      rewrite firstn_all2 by exact Hs. destruct s; reflexivity.
Qed.

(** [list_tables] names exactly the tables the database holds, each once. *)
Theorem list_tables_lists_the_tables (self : Storage.DuckDBStorage)
    (db : gmap string pl.DataFrame) :
  Storage.connection self = Some db ->
  exists names,
    Storage.list_tables self = Ok names /\
    List.NoDup names /\
    (forall t, In t names <-> exists tbl, db !! t = Some tbl) /\
    (forall t df self', Storage.save_dataframe self df t "replace" = Ok self' ->
       exists names', Storage.list_tables self' = Ok names' /\ In t names').
Proof.
  intros Hconn.
  assert (Hlist : forall (d : gmap string pl.DataFrame) (t : string),
            In t (map fst (map_to_list d)) <-> exists tbl, d !! t = Some tbl).
  { intros d t. rewrite in_map_iff. split.
    - intros ([k v] & <- & Hin). exists v.
      apply list_elem_of_In in Hin. now apply elem_of_map_to_list in Hin.
    - intros (tbl & Ht). exists (t, tbl). split; [reflexivity|].
      apply list_elem_of_In. now apply elem_of_map_to_list. }
  eexists. split; [|split; [|split]].
  - unfold Storage.list_tables. rewrite Hconn. reflexivity.
  - apply NoDup_ListNoDup. apply NoDup_fst_map_to_list.
  - apply Hlist.
  - intros t df self' Hsave.
    rewrite (save_replace_connection self db df t Hconn) in Hsave.
    injection Hsave as <-.
    eexists. split; [unfold Storage.list_tables; reflexivity|].
    apply Hlist. exists df. apply lookup_insert_eq.
Qed.

End StorageTheorems.

(* ===================================================================== *)
(** * Further properties: the engine and its storage *)
(* ===================================================================== *)

Section EngineStorageTheorems.
Context `{Re.Compiler} `{pl.Kernels} `{Validation.SchemaEngine}.


End EngineStorageTheorems.

Section InferenceTheorems.
Context `{Engine.ContractInference}.

(** [infer_contracts] fills in the contracts that are missing, both with
    the one contract inferred from the frame, and keeps a contract that is
    there; it leaves the rules and the rest of the configuration alone, and
    once it has run, running it again, on whatever frame, changes nothing. *)
Theorem infer_contracts_fills_missing_only (self : Engine.CleaningEngine)
    (cfg : RuleConfig) (df : pl.DataFrame) :
  Engine.config self = Some cfg ->
  exists cfg',
    Engine.infer_contracts self df
    = Ok (Engine.mkCleaningEngine (Some cfg') (Engine.storage self)) /\
    input_contract cfg' =
      Some (default (Engine.infer_contract_from_dataframe df) (input_contract cfg)) /\
    output_contract cfg' =
      Some (default (Engine.infer_contract_from_dataframe df) (output_contract cfg)) /\
    rules cfg' = rules cfg /\
    (version cfg', config_name cfg', description cfg', observability cfg')
      = (version cfg, config_name cfg, description cfg, observability cfg) /\
    (forall df',
       Engine.infer_contracts
         (Engine.mkCleaningEngine (Some cfg') (Engine.storage self)) df'
       = Ok (Engine.mkCleaningEngine (Some cfg') (Engine.storage self))).
Proof.
  intros Hcfg. unfold Engine.infer_contracts. rewrite Hcfg.
  eexists. split; [reflexivity|].
  cbn [input_contract output_contract rules version config_name description
       observability Engine.config Engine.storage].
  destruct (input_contract cfg) as [ic|], (output_contract cfg) as [oc|];
    cbn; repeat split; reflexivity.
Qed.

End InferenceTheorems.

Section SchemaTheorems.

(** The schema built from a contract has one column per contract column,
    under the same names in the same order, and the contract's two flags.
    Each column is built from its own specification alone, which is read
    by six keys only: any other key of a specification is ignored. *)
Theorem schema_follows_contract (contract : DataContract) :
  let schema := Validation.create_schema_from_contract contract in
  map fst (Validation.schema_columns schema) = map fst (contract_columns contract) /\
  Validation.schema_strict schema = strict contract /\
  Validation.schema_coerce schema = coerce contract /\
  Forall2 (fun item col => snd col = Validation.column_of_spec (snd item))
          (contract_columns contract) (Validation.schema_columns schema) /\
  (forall (spec : gmap string PyObj) (k : string) (v : PyObj),
     ~ In k ["dtype"; "nullable"; "min"; "max"; "regex"; "isin"] ->
     Validation.column_of_spec (<[k := v]> spec) = Validation.column_of_spec spec).
Proof.
  cbn zeta. unfold Validation.create_schema_from_contract.
  cbn [Validation.schema_columns Validation.schema_strict Validation.schema_coerce].
  split; [|split; [|split; [|split]]].
  - rewrite map_map. reflexivity.
  - reflexivity.
  - reflexivity.
  - induction (contract_columns contract) as [|item l IH]; constructor; auto.
  - intros spec k v Hk. unfold Validation.column_of_spec, dict_get_default.
    assert (Hne : forall k', In k' ["dtype"; "nullable"; "min"; "max"; "regex"; "isin"] ->
                             (<[k := v]> spec) !! k' = spec !! k').
    { intros k' Hk'. apply lookup_insert_ne. intros ->. exact (Hk Hk'). }
    rewrite !Hne by (cbn; tauto). reflexivity.
Qed.

(** A column specification yields at most four checks, in the fixed order
    minimum, maximum, pattern, membership, one for each of the four keys it
    has; with none of the six keys the column is a nullable string column
    without checks. *)
Theorem column_checks_follow_keys (spec : gmap string PyObj) :
  let present k := bool_decide (is_Some (spec !! k)) in
  let kind c := match c with
                | Validation.greater_than_or_equal_to _ => "min"
                | Validation.less_than_or_equal_to _ => "max"
                | Validation.str_matches _ => "regex"
                | Validation.isin _ => "isin"
                end in
  map kind (Validation.column_checks (Validation.column_of_spec spec))
    = List.filter present ["min"; "max"; "regex"; "isin"] /\
  (spec = ∅ ->
   Validation.column_of_spec spec
   = Validation.mkColumn (pl.Native pl.Utf8) (Scalar (VBool true)) []).
Proof.
  cbn zeta. split.
  - unfold Validation.column_of_spec. cbn [Validation.column_checks List.filter].
    destruct (spec !! "min"), (spec !! "max"), (spec !! "regex"), (spec !! "isin");
      reflexivity.
  - intros ->. reflexivity.
Qed.

End SchemaTheorems.

(* ===================================================================== *)
(** * Further properties: what the operations leave alone *)
(* ===================================================================== *)

Section OperationFrames.
Context `{pl.Kernels}.

Lemma filterM_incl {A : Type} (p : A -> Result bool) (l ys : list A) (x : A) :
  filterM p l = Ok ys -> In x ys -> In x l.
Proof.
  revert ys. induction l as [|y l IH]; simpl; intros ys Hl Hin.
  - injection Hl as <-. destruct Hin.
  - destruct (p y) as [b|e]; simpl in Hl; [|discriminate].
    destruct (filterM p l) as [zs|e]; simpl in Hl; [|discriminate].
    injection Hl as <-. destruct b.
    + destruct Hin as [<-|Hin]; [tauto|]. right. now apply (IH zs).
    + right. now apply (IH zs).
Qed.

Lemma mapped_expressions_other_column (df df' : pl.DataFrame) (mk : string -> pl.Expr)
    (cs : list string) (c : string) :
  (forall x, pl.output_name (mk x) = x) ->
  pl.with_columns df (map mk cs) = Ok df' ->
  ~ In c cs ->
  pl.get_column df' c = pl.get_column df c.
Proof.
  intros Hmk Hw Hnin. eapply with_columns_other_column; [exact Hw|].
  rewrite map_map. rewrite (map_ext _ (fun x => x)) by exact Hmk.
  rewrite map_id. exact Hnin.
Qed.

(** The operations that compute column values change listed columns only:
    a column that is not among the columns an operation was given comes out
    as it went in, values, type and all. *)
Theorem expression_operations_leave_other_columns (nm : string)
    (op : Operations.Operation) (df df' : pl.DataFrame) (cols : list string)
    (params : gmap string PyObj) (c : string) :
  Operations.OPERATIONS !! nm = Some op ->
  In nm Spec.expression_operations ->
  op df cols params = Ok df' ->
  ~ In c cols ->
  pl.get_column df' c = pl.get_column df c.
Proof.
  intros Hop Hexp Hrun Hnin.
  assert (Hsub : forall (test : string -> Result bool) (cs : list string),
            filterM test cols = Ok cs -> ~ In c cs).
  { intros test cs Hcs Hin. apply Hnin. eapply filterM_incl; eauto. }
  apply OPERATIONS_entries in Hop. simpl in Hop.
  repeat (destruct Hop as [Hop|Hop]; [injection Hop as <- <-|]); [..|destruct Hop];
    try (exfalso; unfold Spec.expression_operations in Hexp; simpl in Hexp;
         intuition discriminate).
  - (* fill_nulls *)
    unfold Operations.fill_nulls in Hrun.
    destruct (negb (truthy cols)); [injection Hrun as <-; reflexivity|].
    repeat match type of Hrun with
           | (if ?b then _ else _) = _ => destruct b
           end;
      try (injection Hrun as <-; reflexivity);
      (eapply mapped_expressions_other_column; [|exact Hrun|exact Hnin]; reflexivity).
  - (* trim_whitespace *)
    unfold Operations.trim_whitespace in Hrun.
    destruct (negb (truthy cols)); [injection Hrun as <-; reflexivity|].
    destruct (filterM _ cols) as [cs|] eqn:Hcs; simpl in Hrun; [|discriminate].
    eapply mapped_expressions_other_column; [|exact Hrun|eapply Hsub; exact Hcs].
    reflexivity.
  - (* lowercase *)
    unfold Operations.lowercase in Hrun.
    destruct (negb (truthy cols)); [injection Hrun as <-; reflexivity|].
    destruct (filterM _ cols) as [cs|] eqn:Hcs; simpl in Hrun; [|discriminate].
    eapply mapped_expressions_other_column; [|exact Hrun|eapply Hsub; exact Hcs].
    reflexivity.
  - (* uppercase *)
    unfold Operations.uppercase in Hrun.
    destruct (negb (truthy cols)); [injection Hrun as <-; reflexivity|].
    destruct (filterM _ cols) as [cs|] eqn:Hcs; simpl in Hrun; [|discriminate].
    eapply mapped_expressions_other_column; [|exact Hrun|eapply Hsub; exact Hcs].
    reflexivity.
  - (* replace *)
    unfold Operations.replace in Hrun.
    destruct (negb (truthy cols)); [injection Hrun as <-; reflexivity|].
    destruct (negb (is_None (dict_get params "pattern")) && is_None (dict_get params "value")).
    + destruct (filterM _ cols) as [cs|] eqn:Hcs; simpl in Hrun; [|discriminate].
      eapply mapped_expressions_other_column; [|exact Hrun|eapply Hsub; exact Hcs].
      reflexivity.
    + destruct (negb (is_None (dict_get params "value")));
        [|injection Hrun as <-; reflexivity].
      destruct (dict_get params "value"); [|discriminate].
      eapply mapped_expressions_other_column; [|exact Hrun|exact Hnin]. reflexivity.
  - (* cast_type *)
    unfold Operations.cast_type in Hrun.
    destruct (negb (truthy cols)); [injection Hrun as <-; reflexivity|].
    destruct (negb (truthy (dict_get params "dtype"))); [injection Hrun as <-; reflexivity|].
    destruct (Operations.lookup_dtype _); simpl in Hrun; [|discriminate].
    eapply mapped_expressions_other_column; [|exact Hrun|exact Hnin]. reflexivity.
  - (* standardize *)
    unfold Operations.standardize in Hrun.
    destruct (negb (truthy cols)); [injection Hrun as <-; reflexivity|].
    destruct (filterM _ cols) as [cs|] eqn:Hcs; simpl in Hrun; [|discriminate].
    eapply mapped_expressions_other_column; [|exact Hrun|eapply Hsub; exact Hcs].
    reflexivity.
Qed.

(** ** Row operations *)

Lemma keep_sublist {A : Type} (mask : list bool) (l : list A) :
  sublist (pl.keep mask l) l.
Proof.
  revert l. induction mask as [|b mask IH]; intros [|x l]; simpl;
    try apply sublist_nil_l.
  destruct b; [apply sublist_skip|apply sublist_cons]; apply IH.
Qed.

Lemma rows_dropped_refl (df : pl.DataFrame) : Spec.rows_dropped df df.
Proof. split; [reflexivity|]. intros Hr. split; [exact Hr|reflexivity]. Qed.

Lemma rows_dropped_trans (df1 df2 df3 : pl.DataFrame) :
  Spec.rows_dropped df1 df2 -> Spec.rows_dropped df2 df3 -> Spec.rows_dropped df1 df3.
Proof.
  intros [Ht1 Hr1] [Ht2 Hr2]. split; [congruence|].
  intros Hr. destruct (Hr1 Hr) as [Hrect2 Hs1]. destruct (Hr2 Hrect2) as [Hrect3 Hs2].
  split; [exact Hrect3|]. etransitivity; eassumption.
Qed.

Lemma rows_dropped_keep_rows (mask : list bool) (df : pl.DataFrame) :
  length mask = pl.height df -> Spec.rows_dropped df (pl.keep_rows mask df).
Proof.
  intros Hl. split.
  - unfold pl.keep_rows. rewrite map_map. reflexivity.
  - intros Hr. split; [apply rectangular_keep_rows; exact Hr|].
    rewrite (rows_keep_rows mask df Hr Hl). apply keep_sublist.
Qed.

Lemma rows_dropped_filter (df df' : pl.DataFrame) (e : pl.Expr) :
  pl.filter df e = Ok df' -> Spec.rows_dropped df df'.
Proof.
  unfold pl.filter. intros Hf.
  destruct (pl.eval df e) as [s|]; simpl in Hf; [|discriminate].
  destruct (pl.broadcast (pl.height df) s) as [s'|] eqn:Hb; simpl in Hf; [|discriminate].
  destruct (bool_decide (pl.dtype s' = pl.Boolean)); [|discriminate].
  injection Hf as <-. apply rows_dropped_keep_rows.
  rewrite length_map. eapply broadcast_length; exact Hb.
Qed.

Lemma rows_dropped_remove_outliers_loop (method threshold : PyObj) (cols : list string) :
  forall df df',
    Operations.remove_outliers_loop method threshold cols df = Ok df' ->
    Spec.rows_dropped df df'.
Proof.
  induction cols as [|c cols IH]; simpl; intros df df' Hl.
  - injection Hl as <-. apply rows_dropped_refl.
  - destruct (Operations.remove_outliers_step method threshold df c) as [df1|] eqn:Hs;
      simpl in Hl; [|discriminate].
    apply (rows_dropped_trans df df1 df'); [|apply IH; exact Hl].
    clear - Hs. unfold Operations.remove_outliers_step in Hs.
    destruct (Operations.is_numeric df c) as [[]|]; simpl in Hs;
      [|injection Hs as <-; apply rows_dropped_refl|discriminate].
    destruct (pl.get_column df c) as [s|]; simpl in Hs; [|discriminate].
    destruct (eq_str method "iqr").
    + repeat match type of Hs with
             | bind ?m _ = _ => destruct m; simpl in Hs; [|discriminate]
             end.
      eapply rows_dropped_filter; exact Hs.
    + destruct (eq_str method "zscore"); [|injection Hs as <-; apply rows_dropped_refl].
      match type of Hs with
      | bind ?m _ = _ => destruct m as [[]|]; simpl in Hs; [| |discriminate]
      end; [|injection Hs as <-; apply rows_dropped_refl].
      match type of Hs with
      | bind ?m _ = _ => destruct m; simpl in Hs; [|discriminate]
      end.
      eapply rows_dropped_filter; exact Hs.
Qed.


End OperationFrames.

(* ===================================================================== *)
(** * Further properties: the registry and the rule loop *)
(* ===================================================================== *)

Section RegistryAndLoop.
Context `{Re.Compiler} `{pl.Kernels} `{Validation.SchemaEngine}.


Lemma _apply_rule_shape (df df' : pl.DataFrame) (r : CleaningRule) :
  Engine._apply_rule df r = Ok df' ->
  pl.columns df' = pl.columns df /\
  (pl.height df' <= pl.height df)%nat /\
  (pl.rectangular df -> pl.rectangular df').
Proof.
  unfold Engine._apply_rule. intros Hrun.
  match type of Hrun with
  | match ?m with _ => _ end = _ => destruct m as [op|] eqn:Hop; [|discriminate]
  end.
  destruct (Operations.select_columns df (rule_columns r)) as [cols|];
    simpl in Hrun; [|discriminate].
  match type of Hrun with
  | (if ?b then _ else _) = _ => destruct b; [discriminate|]
  end.
  destruct (operation_shape _ op Hop df cols (parameters r) df' Hrun) as (H2 & H3 & H4 & _).
  auto.
Qed.

Lemma apply_rules_shape (rs : list CleaningRule) :
  forall df df',
    Engine.apply_rules rs df = Ok df' ->
    pl.columns df' = pl.columns df /\
    (pl.height df' <= pl.height df)%nat /\
    (pl.rectangular df -> pl.rectangular df').
Proof.
  induction rs as [|r rs IH]; simpl; intros df df' Hrun.
  - injection Hrun as <-. auto.
  - destruct (negb (enabled r)); [apply IH; exact Hrun|].
    destruct (Engine._apply_rule df r) as [df1|] eqn:Hr; simpl in Hrun; [|discriminate].
    destruct (_apply_rule_shape df df1 r Hr) as (Hc1 & Hh1 & Hr1).
    destruct (IH df1 df' Hrun) as (Hc & Hh & Hrect).
    rewrite Hc, Hc1. split; [reflexivity|]. split; [lia|auto].
Qed.

(** Whatever the rules, a cleaning that is run without validation, or on a
    configuration without contracts, and succeeds returns a frame with the
    columns of the input, in their order, and with no more rows; a
    rectangular frame comes out rectangular. *)
Theorem cleaning_keeps_columns_and_adds_no_rows (self : Engine.CleaningEngine)
    (cfg : RuleConfig) (df df' : pl.DataFrame) (validate_input validate_output : bool) :
  Engine.config self = Some cfg ->
  (validate_input = false \/ input_contract cfg = None) ->
  (validate_output = false \/ output_contract cfg = None) ->
  Engine.clean self df validate_input validate_output = Ok df' ->
  pl.columns df' = pl.columns df /\
  (pl.height df' <= pl.height df)%nat /\
  (pl.rectangular df -> pl.rectangular df').
Proof.
  intros Hcfg Hin Hout Hrun. unfold Engine.clean in Hrun. rewrite Hcfg in Hrun.
  cbn [truthy truthy_option Engine.truthy_RuleConfig negb] in Hrun.
  assert (Hi : validate_input && truthy (input_contract cfg) = false).
  { destruct Hin as [->| ->]; [reflexivity|apply andb_false_r]. }
  assert (Ho : validate_output && truthy (output_contract cfg) = false).
  { destruct Hout as [->| ->]; [reflexivity|apply andb_false_r]. }
  rewrite Hi, Ho in Hrun. cbn [bind] in Hrun.
  destruct (Engine.apply_rules (rules cfg) df) as [df2|] eqn:Hrules;
    simpl in Hrun; [|discriminate].
  injection Hrun as <-. apply (apply_rules_shape (rules cfg) df df2 Hrules).
Qed.

End RegistryAndLoop.

(* ===================================================================== *)
(** * Further properties: a column listed twice *)
(* ===================================================================== *)

Section DuplicateColumns.
Context `{Re.Compiler} `{pl.Kernels}.

Lemma existsb_eqb_In (x : string) (l : list string) :
  existsb (String.eqb x) l = true <-> In x l.
Proof.
  rewrite existsb_exists. split.
  - intros (y & Hin & Heq). apply String.eqb_eq in Heq. now subst.
  - intros Hin. exists x. split; [exact Hin|apply String.eqb_refl].
Qed.

Lemma first_duplicate_None (l : list string) :
  pl.first_duplicate l = None -> List.NoDup l.
Proof.
  induction l as [|x l IH]; simpl; intros Hl; [constructor|].
  destruct (existsb (String.eqb x) l) eqn:Hx; [discriminate|].
  constructor; [|exact (IH Hl)].
  intros Hin. apply existsb_eqb_In in Hin. congruence.
Qed.

Lemma twice_not_NoDup {A : Type} (l1 l2 l3 : list A) (x : A) :
  ~ List.NoDup (l1 ++ x :: l2 ++ x :: l3)%list.
Proof.
  intros Hnd. apply List.NoDup_remove_2 in Hnd. apply Hnd.
  apply in_or_app. right. apply in_or_app. right. left. reflexivity.
Qed.

Lemma with_columns_twice (df : pl.DataFrame) (mk : string -> pl.Expr)
    (l1 l2 l3 : list string) (c : string) :
  (forall x, pl.output_name (mk x) = x) ->
  is_ok (pl.with_columns df (map mk (l1 ++ c :: l2 ++ c :: l3)%list)) = false.
Proof.
  intros Hmk. unfold pl.with_columns.
  match goal with |- is_ok (bind ?m _) = _ => destruct m; [|reflexivity] end.
  cbn [bind].
  destruct (pl.first_duplicate _) as [n|] eqn:Hd; [reflexivity|].
  apply first_duplicate_None in Hd. exfalso.
  rewrite map_map, (map_ext _ (fun x => x)), map_id in Hd by exact Hmk.
  exact (twice_not_NoDup l1 l2 l3 c Hd).
Qed.

Lemma filterM_twice (p : string -> Result bool) (l1 l2 l3 cs : list string) (c : string) :
  p c = Ok true ->
  filterM p (l1 ++ c :: l2 ++ c :: l3)%list = Ok cs ->
  exists k1 k2 k3, cs = (k1 ++ c :: k2 ++ c :: k3)%list.
Proof.
  intros Hc Hf. rewrite filterM_app in Hf.
  destruct (filterM p l1) as [k1|]; simpl in Hf; [|discriminate].
  rewrite Hc in Hf. cbn [bind] in Hf. rewrite filterM_app in Hf.
  destruct (filterM p l2) as [k2|]; simpl in Hf; [|discriminate].
  rewrite Hc in Hf. cbn [bind] in Hf.
  destruct (filterM p l3) as [k3|]; simpl in Hf; [|discriminate].
  injection Hf as <-. exists k1, k2, k3. reflexivity.
Qed.

(** A column of the frame that a selector's name list names twice is
    resolved twice, and the operations that compute a value for every column
    they are given then fail, the frame refusing two results under one name:
    cast-type with a type, replace by value, fill-nulls by a fill strategy,
    and, when the column has the type they work on, the string operations
    and standardize. *)
Theorem column_listed_twice_is_refused (df : pl.DataFrame) (l1 l2 l3 : list string)
    (c : string) (params : gmap string PyObj) :
  let cols := (l1 ++ c :: l2 ++ c :: l3)%list in
  (In c (pl.columns df) ->
   exists k1 k2 k3,
     Operations.select_columns df (mkColumnSelector (Some cols) None false)
     = Ok (k1 ++ c :: k2 ++ c :: k3)%list) /\
  (truthy (dict_get params "dtype") = true ->
   is_ok (Operations.cast_type df cols params) = false) /\
  (dict_get params "value" <> None_ ->
   is_ok (Operations.replace df cols params) = false) /\
  (forall st, In st ["forward"; "backward"; "mean"; "median"] ->
     params !! "strategy" = Some (Scalar (VStr st)) ->
     is_ok (Operations.fill_nulls df cols params) = false) /\
  (Operations.is_utf8 df c = Ok true ->
   is_ok (Operations.trim_whitespace df cols params) = false /\
   is_ok (Operations.lowercase df cols params) = false /\
   is_ok (Operations.uppercase df cols params) = false) /\
  (Operations.is_numeric df c = Ok true ->
   is_ok (Operations.standardize df cols params) = false).
Proof.
  cbn zeta.
  assert (Htruthy : truthy (l1 ++ c :: l2 ++ c :: l3)%list = true)
    by (destruct l1; reflexivity).
  assert (Hguard : forall (test : string -> Result bool) (mk : string -> pl.Expr),
            (forall x, pl.output_name (mk x) = x) ->
            test c = Ok true ->
            is_ok (bind (filterM test (l1 ++ c :: l2 ++ c :: l3)%list)
                        (fun cs => pl.with_columns df (map mk cs))) = false).
  { intros test mk Hmk Hc.
    destruct (filterM test _) as [cs|] eqn:Hcs; [|reflexivity].
    destruct (filterM_twice test l1 l2 l3 cs c Hc Hcs) as (k1 & k2 & k3 & ->).
    cbn [bind]. apply with_columns_twice. exact Hmk. }
  split; [|split; [|split; [|split; [|split]]]].
  - intros Hin. unfold Operations.select_columns.
    cbn [all columns pattern truthy truthy_bool truthy_option from_option id].
    change (truthy_list (l1 ++ c :: l2 ++ c :: l3)%list)
      with (truthy (l1 ++ c :: l2 ++ c :: l3)%list).
    rewrite Htruthy.
    assert (Hc : pl.has_column df c = true).
    { unfold pl.has_column. apply existsb_eqb_In. exact Hin. }
    rewrite List.filter_app. cbn [List.filter]. rewrite Hc.
    rewrite List.filter_app. cbn [List.filter]. rewrite Hc.
    eexists _, _, _. reflexivity.
  - intros Hd. unfold Operations.cast_type. rewrite Htruthy, Hd. cbn [negb].
    destruct (Operations.lookup_dtype _); [|reflexivity].
    cbn [bind]. apply with_columns_twice. reflexivity.
  - intros Hv. unfold Operations.replace. rewrite Htruthy. cbn [negb].
    assert (Hn : is_None (dict_get params "value") = false).
    { unfold is_None. apply bool_decide_eq_false_2. exact Hv. }
    rewrite Hn, andb_false_r. cbn [negb].
    destruct (dict_get params "value"); [|reflexivity].
    apply with_columns_twice. reflexivity.
  - intros st Hst Hp. unfold Operations.fill_nulls. rewrite Htruthy. cbn [negb].
    unfold dict_get_default. rewrite Hp. cbn [from_option id].
    simpl in Hst. destruct Hst as [<-|[<-|[<-|[<-|[]]]]];
      cbn [eq_str bool_decide decide_rel andb];
      repeat match goal with
             | |- context [eq_str ?o ?s] =>
                 let b := eval vm_compute in (eq_str o s) in
                 change (eq_str o s) with b
             end;
      cbn [andb]; apply with_columns_twice; reflexivity.
  - intros Hc. split; [|split].
    + unfold Operations.trim_whitespace. rewrite Htruthy. cbn [negb].
      apply Hguard; [reflexivity|exact Hc].
    + unfold Operations.lowercase. rewrite Htruthy. cbn [negb].
      apply Hguard; [reflexivity|exact Hc].
    + unfold Operations.uppercase. rewrite Htruthy. cbn [negb].
      apply Hguard; [reflexivity|exact Hc].
  - intros Hc. unfold Operations.standardize. rewrite Htruthy. cbn [negb].
    apply Hguard; [reflexivity|exact Hc].
Qed.

End DuplicateColumns.

(* ===================================================================== *)
(** * Further worked instances *)
(* ===================================================================== *)

Section FurtherInstances.
#[local] Existing Instance Examples.kernels.
#[local] Existing Instance Examples.compiler.
#[local] Existing Instance Examples.schema_engine.
#[local] Existing Instance Examples.sql_engine.
#[local] Existing Instance Examples.inference.


Lemma operations_keep_column_names_witness :
  let df := [pl.mkSeries "a" pl.Int64 [VInt 1; VInt 2; VNull; VInt 4];
             pl.mkSeries "b" pl.Int64 [VInt 5; VNull; VInt 7; VInt 8]] in
  let df' := [pl.mkSeries "a" pl.Int64 [VInt 1; VInt 2; VInt 4];
              pl.mkSeries "b" pl.Int64 [VInt 5; VNull; VInt 8]] in
  Operations.OPERATIONS !! "drop_nulls" = Some Operations.drop_nulls /\
  Operations.drop_nulls df ["a"] ∅ = Ok df' /\
  pl.columns df' = pl.columns df.
Proof.
  intros df df'.
  assert (H1 : Operations.OPERATIONS !! "drop_nulls" = Some Operations.drop_nulls)
    by reflexivity.
  assert (H2 : Operations.drop_nulls df ["a"] ∅ = Ok df') by reflexivity.
  split; [exact H1|]. split; [exact H2|].
  exact (operations_keep_column_names "drop_nulls" Operations.drop_nulls df df' ["a"] ∅
           H1 H2).
Defined.

Lemma operations_never_add_rows_witness :
  let df := [pl.mkSeries "name" pl.Utf8 [VStr "Alice"; VNull];
             pl.mkSeries "age" pl.Int64 [VInt 25; VInt 30]] in
  let df' := [pl.mkSeries "name" pl.Utf8 [VStr "alice"; VNull];
              pl.mkSeries "age" pl.Int64 [VInt 25; VInt 30]] in
  Operations.OPERATIONS !! "lowercase" = Some Operations.lowercase /\
  Operations.lowercase df ["name"] ∅ = Ok df' /\
  pl.height df' = pl.height df.
Proof.
  intros df df'.
  assert (H1 : Operations.OPERATIONS !! "lowercase" = Some Operations.lowercase)
    by reflexivity.
  assert (H2 : Operations.lowercase df ["name"] ∅ = Ok df') by reflexivity.
  split; [exact H1|]. split; [exact H2|].
  destruct (operations_never_add_rows "lowercase" Operations.lowercase df df' ["name"] ∅
              H1 H2) as (_ & Hsame & _).
  apply Hsame. right. right. left. reflexivity.
Defined.

Lemma replace_value_takes_precedence_witness :
  let df := [pl.mkSeries "text" pl.Utf8 [VStr "hello"; VStr "world"]] in
  let params : gmap string PyObj :=
    <["value" := Scalar (VStr "hello")]>
      (<["pattern" := Scalar (VStr "w.*")]> (<["replacement" := Scalar (VStr "hi")]> ∅)) in
  dict_get params "value" <> None_ /\
  Operations.replace df ["text"] params =
  Operations.replace df ["text"] (delete "pattern" params).
Proof.
  intros df params.
  assert (H1 : dict_get params "value" <> None_) by discriminate.
  split; [exact H1|].
  exact (replace_value_takes_precedence df ["text"] params H1).
Defined.

Lemma filter_rule_uses_first_column_witness :
  let df := [pl.mkSeries "a" pl.Int64 [VInt 1; VInt 2];
             pl.mkSeries "b" pl.Int64 [VInt 3; VInt 4]] in
  let r := mkCleaningRule "keep" FILTER (mkColumnSelector (Some ["a"; "b"]) None false)
             ∅ true 0 in
  operation r = FILTER /\
  rule_columns r = mkColumnSelector (Some ["a"; "b"]) None false /\
  In "a" (pl.columns df) /\
  Engine._apply_rule df r =
  Engine._apply_rule df
    (mkCleaningRule "keep" FILTER (mkColumnSelector (Some ["a"]) None false) ∅ true 0).
Proof.
  intros df r.
  assert (H1 : operation r = FILTER) by reflexivity.
  assert (H2 : rule_columns r = mkColumnSelector (Some ["a"; "b"]) None false)
    by reflexivity.
  assert (H3 : In "a" (pl.columns df)) by (left; reflexivity).
  split; [exact H1|]. split; [exact H2|]. split; [exact H3|].
  exact (filter_rule_uses_first_column df r "a" ["b"] H1 H2 H3).
Defined.

Lemma drop_nulls_leaves_no_nulls_witness :
  let df := [pl.mkSeries "a" pl.Int64 [VInt 1; VInt 2; VNull; VInt 4];
             pl.mkSeries "b" pl.Int64 [VInt 5; VNull; VInt 7; VInt 8]] in
  let df' := [pl.mkSeries "a" pl.Int64 [VInt 1; VInt 2; VInt 4];
              pl.mkSeries "b" pl.Int64 [VInt 5; VNull; VInt 8]] in
  pl.rectangular df /\
  Operations.drop_nulls df ["a"] ∅ = Ok df' /\
  (exists s, pl.get_column df' "a" = Ok s /\ ~ In VNull (pl.values s)) /\
  Operations.drop_nulls df' ["a"] ∅ = Ok df'.
Proof.
  intros df df'.
  assert (H1 : pl.rectangular df) by (repeat constructor).
  assert (H2 : Operations.drop_nulls df ["a"] ∅ = Ok df') by reflexivity.
  destruct (drop_nulls_leaves_no_nulls df ["a"] ∅ H1) as [Hafter _].
  destruct (Hafter df' H2) as [Hnn Hagain].
  split; [exact H1|]. split; [exact H2|].
  split; [exact (Hnn "a" (or_introl eq_refl))|exact (Hagain ∅)].
Defined.


Lemma declaration_order_is_immaterial_witness :
  let sel := mkColumnSelector (Some ["text"]) None false in
  let trim := mkCleaningRule "trim" TRIM_WHITESPACE sel ∅ true 0 in
  let lower := mkCleaningRule "lowercase" LOWERCASE sel ∅ true 1 in
  Permutation [lower; trim] [trim; lower] /\
  List.NoDup (map order [lower; trim]) /\
  RuleConfig_new "1.0" "example" None None None [lower; trim] ∅
  = RuleConfig_new "1.0" "example" None None None [trim; lower] ∅.
Proof.
  intros sel trim lower.
  assert (H1 : Permutation [lower; trim] [trim; lower]) by apply perm_swap.
  assert (H2 : List.NoDup (map order [lower; trim])).
  { constructor; [|constructor; [|constructor]].
    - intros [Heq|[]]. discriminate Heq.
    - intros []. }
  split; [exact H1|]. split; [exact H2|].
  exact (proj1 (declaration_order_is_immaterial "1.0" "example" None None None
                  [lower; trim] [trim; lower] ∅ H1 H2)).
Defined.

Lemma clean_in_two_stages_witness :
  let sel := mkColumnSelector (Some ["text"]) None false in
  let trim := mkCleaningRule "trim" TRIM_WHITESPACE sel ∅ true 0 in
  let lower := mkCleaningRule "lowercase" LOWERCASE sel ∅ true 1 in
  let df := [pl.mkSeries "text" pl.Utf8 [VStr "  HELLO  "]] in
  let engine rs := Engine.mkCleaningEngine
                     (Some (RuleConfig_new "1.0" "example" None None None rs ∅)) None in
  (forall r1 r2, In r1 [trim] -> In r2 [lower] -> order r1 <= order r2) /\
  Engine.clean (engine ([trim] ++ [lower])%list) df true true =
  bind (Engine.clean (engine [trim]) df true true)
       (fun df1 => Engine.clean (engine [lower]) df1 true true).
Proof.
  intros sel trim lower df engine.
  assert (H1 : forall r1 r2, In r1 [trim] -> In r2 [lower] -> order r1 <= order r2).
  { intros r1 r2 [<-|[]] [<-|[]]. discriminate. }
  split; [exact H1|].
  exact (clean_in_two_stages "1.0" "example" None None None [trim] [lower] ∅ None
           df true true H1).
Defined.

Lemma model_dump_round_trip_witness :
  let trim := Examples.rule "trim" TRIM_WHITESPACE default_columns in
  let lower := mkCleaningRule "lowercase" LOWERCASE
                 (mkColumnSelector (Some ["text"]) None false) ∅ true (-1) in
  let cfg := RuleConfig_new "1.0" "example" (Some "two rules") None None
               [trim; lower] default_observability in
  Forall (fun r => validate_selector (rule_columns r) = Ok (rule_columns r)) [trim; lower] /\
  RuleConfig_from_dict (model_dump cfg) = Ok cfg.
Proof.
  intros trim lower cfg.
  assert (H1 : Forall (fun r => validate_selector (rule_columns r) = Ok (rule_columns r))
                      [trim; lower]) by (repeat constructor).
  split; [exact H1|].
  exact (model_dump_round_trip "1.0" "example" (Some "two rules") None None
           [trim; lower] default_observability H1).
Defined.




Lemma save_keeps_existing_table_witness :
  let tbl := [pl.mkSeries "id" pl.Int64 [VInt 1; VInt 2]] in
  let df := [pl.mkSeries "id" pl.Int64 [VInt 3]] in
  let db : gmap string pl.DataFrame := <["people" := tbl]> ∅ in
  let self := Storage.connect (Storage.DuckDBStorage_new None) db in
  Storage.connection self = Some db /\
  db !! "people" = Some tbl /\
  Storage.save_dataframe self df "people" "fail"
    = Err (ValueError "Table people already exists") /\
  Storage.save_dataframe self df "people" "ignore" = Ok self /\
  Storage.load_dataframe self "people" None = Ok tbl.
Proof.
  intros tbl df db self.
  assert (H1 : Storage.connection self = Some db) by reflexivity.
  assert (H2 : db !! "people" = Some tbl) by reflexivity.
  destruct (save_keeps_existing_table self db tbl df "people" "ignore" H1 H2)
    as [Hfail Hother].
  split; [exact H1|]. split; [exact H2|]. split; [exact Hfail|].
  apply Hother; discriminate.
Defined.

Lemma load_dataframe_limit_witness :
  let tbl := [pl.mkSeries "id" pl.Int64 [VInt 1; VInt 2; VInt 3]] in
  let db : gmap string pl.DataFrame := <["people" := tbl]> ∅ in
  let self := Storage.connect (Storage.DuckDBStorage_new None) db in
  Storage.connection self = Some db /\
  db !! "people" = Some tbl /\
  Storage.load_dataframe self "people" (Some 0) = Ok tbl /\
  0 < 2 /\
  exists df,
    Storage.load_dataframe self "people" (Some 2) = Ok df /\
    pl.columns df = pl.columns tbl.
Proof.
  intros tbl db self.
  assert (H1 : Storage.connection self = Some db) by reflexivity.
  assert (H2 : db !! "people" = Some tbl) by reflexivity.
  assert (H3 : 0 < 2) by reflexivity.
  destruct (load_dataframe_limit self db tbl "people" 2 H1 H2) as (Hzero & _ & Hpos).
  split; [exact H1|]. split; [exact H2|]. split; [exact Hzero|]. split; [exact H3|].
  destruct (Hpos H3) as (df & Hl & Hc & _).
  exists df. split; [exact Hl|exact Hc].
Defined.

Lemma list_tables_lists_the_tables_witness :
  let tbl := [pl.mkSeries "id" pl.Int64 [VInt 1]] in
  let db : gmap string pl.DataFrame := <["people" := tbl]> (<["orders" := tbl]> ∅) in
  let self := Storage.connect (Storage.DuckDBStorage_new None) db in
  Storage.connection self = Some db /\
  exists names,
    Storage.list_tables self = Ok names /\
    List.NoDup names /\
    (In "orders" names <-> exists t, db !! "orders" = Some t).
Proof.
  intros tbl db self.
  assert (H1 : Storage.connection self = Some db) by reflexivity.
  split; [exact H1|].
  destruct (list_tables_lists_the_tables self db H1) as (names & Hl & Hnd & Hin & _).
  exists names. split; [exact Hl|]. split; [exact Hnd|exact (Hin "orders")].
Defined.


Lemma infer_contracts_fills_missing_only_witness :
  let df := [pl.mkSeries "text" pl.Utf8 [VStr "HELLO"]] in
  let given := mkDataContract [("text", ∅)] false true in
  let cfg := RuleConfig_new "1.0" "example" None (Some given) None
               [Examples.rule "lowercase" LOWERCASE default_columns]
               default_observability in
  let self := Engine.mkCleaningEngine (Some cfg) None in
  Engine.config self = Some cfg /\
  exists cfg',
    Engine.infer_contracts self df = Ok (Engine.mkCleaningEngine (Some cfg') None) /\
    input_contract cfg' = Some given /\
    output_contract cfg' = Some (mkDataContract [("text", ∅)] true false) /\
    rules cfg' = rules cfg.
Proof.
  intros df given cfg self.
  assert (H1 : Engine.config self = Some cfg) by reflexivity.
  split; [exact H1|].
  destruct (infer_contracts_fills_missing_only self cfg df H1)
    as (cfg' & Hrun & Hic & Hoc & Hrules & _).
  exists cfg'. split; [exact Hrun|]. split; [exact Hic|]. split; [exact Hoc|exact Hrules].
Defined.

Lemma expression_operations_leave_other_columns_witness :
  let df := [pl.mkSeries "name" pl.Utf8 [VStr "Alice"; VNull];
             pl.mkSeries "age" pl.Int64 [VInt 25; VInt 30]] in
  let df' := [pl.mkSeries "name" pl.Utf8 [VStr "alice"; VNull];
              pl.mkSeries "age" pl.Int64 [VInt 25; VInt 30]] in
  Operations.OPERATIONS !! "lowercase" = Some Operations.lowercase /\
  In "lowercase" Spec.expression_operations /\
  Operations.lowercase df ["name"] ∅ = Ok df' /\
  ~ In "age" ["name"] /\
  pl.get_column df' "age" = pl.get_column df "age".
Proof.
  intros df df'.
  assert (H1 : Operations.OPERATIONS !! "lowercase" = Some Operations.lowercase)
    by reflexivity.
  assert (H2 : In "lowercase" Spec.expression_operations)
    by (right; right; left; reflexivity).
  assert (H3 : Operations.lowercase df ["name"] ∅ = Ok df') by reflexivity.
  assert (H4 : ~ In "age" ["name"]) by (intros [Heq|[]]; discriminate Heq).
  split; [exact H1|]. split; [exact H2|]. split; [exact H3|]. split; [exact H4|].
  exact (expression_operations_leave_other_columns "lowercase" Operations.lowercase
           df df' ["name"] ∅ "age" H1 H2 H3 H4).
Defined.


Lemma cleaning_keeps_columns_and_adds_no_rows_witness :
  let df := [pl.mkSeries "a" pl.Int64 [VInt 1; VInt 2; VNull; VInt 4];
             pl.mkSeries "b" pl.Int64 [VInt 5; VNull; VInt 7; VInt 8]] in
  let df' := [pl.mkSeries "a" pl.Int64 [VInt 1; VInt 2; VInt 4];
              pl.mkSeries "b" pl.Int64 [VInt 5; VNull; VInt 8]] in
  let cfg := RuleConfig_new "1.0" "example" None None None
               [Examples.rule "drop_nulls" DROP_NULLS
                  (mkColumnSelector (Some ["a"]) None false)]
               default_observability in
  let self := Engine.mkCleaningEngine (Some cfg) None in
  Engine.config self = Some cfg /\
  (true = false \/ input_contract cfg = None) /\
  (true = false \/ output_contract cfg = None) /\
  Engine.clean self df true true = Ok df' /\
  pl.columns df' = pl.columns df /\
  (pl.height df' <= pl.height df)%nat.
Proof.
  intros df df' cfg self.
  assert (H1 : Engine.config self = Some cfg) by reflexivity.
  assert (H2 : true = false \/ input_contract cfg = None) by (right; reflexivity).
  assert (H3 : true = false \/ output_contract cfg = None) by (right; reflexivity).
  assert (H4 : Engine.clean self df true true = Ok df') by reflexivity.
  destruct (cleaning_keeps_columns_and_adds_no_rows self cfg df df' true true
              H1 H2 H3 H4) as (Hc & Hh & _).
  split; [exact H1|]. split; [exact H2|]. split; [exact H3|]. split; [exact H4|].
  split; [exact Hc|exact Hh].
Defined.

End FurtherInstances.
